(** * apollo11: tessellated planet renderer (Direct3D 12)

    A shallow embedding of [Shaders/Shader.hlsli] and of the frame loop of
    [Game.cpp].

    Conventions.
    - HLSL [float] is idealised as a real number: every arithmetic operator
      and intrinsic is its exact mathematical counterpart, so NaN, infinities
      and rounding are outside the model.  Division by zero follows the
      Standard Library ([/ 0 = 0]).
    - Texture fetches are effects: a shader body is a computation that
      returns its value together with the list of fetches it issued, in
      program order.
    - The C++ side is embedded over [Z] with the integer conversions of the
      source written out, and the calls made on the Direct3D objects are
      recorded as a trace. *)

From Stdlib Require Import Reals Lra Lia ZArith List Bool String.
Import ListNotations.

(* ================================================================== *)
(** * Part I: definitions                                              *)
(* ================================================================== *)

(** ** HLSL vector types and intrinsics *)

Module Hlsl.
Local Open Scope R_scope.

Record float2 := F2 { x2 : R; y2 : R }.
Record float3 := F3 { x3 : R; y3 : R; z3 : R }.
Record float4 := F4 { x4 : R; y4 : R; z4 : R; w4 : R }.

(** Rows of a row-major matrix; [mul(v, M)] treats [v] as a row vector. *)
Record float3x3 := M3 { r3_0 : float3; r3_1 : float3; r3_2 : float3 }.
Record float4x4 := M4 { r4_0 : float4; r4_1 : float4; r4_2 : float4; r4_3 : float4 }.

(** Swizzles, constructors and the implicit float4 -> float3 truncation. *)
Definition xyz (v : float4) : float3 := F3 (x4 v) (y4 v) (z4 v).
Definition xy4 (v : float4) : float2 := F2 (x4 v) (y4 v).
Definition red (v : float4) : R := x4 v.
Definition rgb (v : float4) : float3 := xyz v.
Definition float4_of (v : float3) (w : R) : float4 := F4 (x3 v) (y3 v) (z3 v) w.

Definition add2 (a b : float2) : float2 := F2 (x2 a + x2 b) (y2 a + y2 b).
Definition scale2 (k : R) (a : float2) : float2 := F2 (k * x2 a) (k * y2 a).

Definition add3 (a b : float3) : float3 :=
  F3 (x3 a + x3 b) (y3 a + y3 b) (z3 a + z3 b).
Definition sub3 (a b : float3) : float3 :=
  F3 (x3 a - x3 b) (y3 a - y3 b) (z3 a - z3 b).
Definition scale3 (k : R) (a : float3) : float3 :=
  F3 (k * x3 a) (k * y3 a) (k * z3 a).
Definition mul3 (a b : float3) : float3 :=
  F3 (x3 a * x3 b) (y3 a * y3 b) (z3 a * z3 b).
Definition neg3 (a : float3) : float3 := F3 (- x3 a) (- y3 a) (- z3 a).

Definition add4 (a b : float4) : float4 :=
  F4 (x4 a + x4 b) (y4 a + y4 b) (z4 a + z4 b) (w4 a + w4 b).
Definition scale4 (k : R) (a : float4) : float4 :=
  F4 (k * x4 a) (k * y4 a) (k * z4 a) (k * w4 a).

Definition dot3 (a b : float3) : R := x3 a * x3 b + y3 a * y3 b + z3 a * z3 b.
Definition dot4 (a b : float4) : R :=
  x4 a * x4 b + y4 a * y4 b + z4 a * z4 b + w4 a * w4 b.

Definition length3 (a : float3) : R := sqrt (dot3 a a).
Definition length4 (a : float4) : R := sqrt (dot4 a a).
Definition distance3 (a b : float3) : R := length3 (sub3 a b).

(** [normalize(v) = v / length(v)], on all the components [v] has. *)
Definition normalize3 (a : float3) : float3 :=
  F3 (x3 a / length3 a) (y3 a / length3 a) (z3 a / length3 a).
Definition normalize4 (a : float4) : float4 :=
  F4 (x4 a / length4 a) (y4 a / length4 a) (z4 a / length4 a) (w4 a / length4 a).

Definition cross (a b : float3) : float3 :=
  F3 (y3 a * z3 b - z3 a * y3 b)
     (z3 a * x3 b - x3 a * z3 b)
     (x3 a * y3 b - y3 a * x3 b).

Definition saturate (x : R) : R := Rmax 0 (Rmin x 1).
Definition saturate2 (a : float2) : float2 := F2 (saturate (x2 a)) (saturate (y2 a)).
Definition saturate3 (a : float3) : float3 :=
  F3 (saturate (x3 a)) (saturate (y3 a)) (saturate (z3 a)).

(** [lerp(x, y, s) = x*(1-s) + y*s]. *)
Definition lerp (a b s : R) : R := a * (1 - s) + b * s.
Definition lerp3 (a b : float3) (s : R) : float3 :=
  F3 (lerp (x3 a) (x3 b) s) (lerp (y3 a) (y3 b) s) (lerp (z3 a) (z3 b) s).

(** [pow(x, y)]: [x^y] for positive [x], and [0] for [x = 0] with a positive
    exponent.  The remaining cases are NaN or infinite in HLSL and have no
    real value; the shader never reaches them. *)
Definition pow (x y : R) : R :=
  if Rlt_dec 0 x then Rpower x y
  else if Req_dec_T x 0 then (if Rlt_dec 0 y then 0 else 1)
  else 0.

Definition sign (x : R) : Z :=
  if Rlt_dec x 0 then (-1)%Z else if Rlt_dec 0 x then 1%Z else 0%Z.

Definition floor (x : R) : Z := Int_part x.
Definition frac (x : R) : R := x - IZR (floor x).

(** [round]: nearest integer, halfway cases to the even neighbour. *)
Definition round (x : R) : Z :=
  let n := floor x in
  if Rlt_dec (frac x) (1 / 2) then n
  else if Rlt_dec (1 / 2) (frac x) then (n + 1)%Z
  else if Z.even n then n else (n + 1)%Z.

(** [atan2(y, x)]: the angle of the point [(x, y)], in [[-PI, PI]]. *)
Definition atan2 (y x : R) : R :=
  if Rlt_dec 0 x then atan (y / x)
  else if Rlt_dec x 0 then
    (if Rle_dec 0 y then atan (y / x) + PI else atan (y / x) - PI)
  else if Rlt_dec 0 y then PI / 2
  else if Rlt_dec y 0 then - PI / 2
  else 0.

(** [mul(v, M)] with [v] a row vector. *)
Definition mul4 (v : float4) (m : float4x4) : float4 :=
  add4 (add4 (scale4 (x4 v) (r4_0 m)) (scale4 (y4 v) (r4_1 m)))
       (add4 (scale4 (z4 v) (r4_2 m)) (scale4 (w4 v) (r4_3 m))).
Definition mul3x3 (v : float3) (m : float3x3) : float3 :=
  add3 (add3 (scale3 (x3 v) (r3_0 m)) (scale3 (y3 v) (r3_1 m)))
       (scale3 (z3 v) (r3_2 m)).

End Hlsl.

(** ** Shaders/Shader.hlsli *)

Module Shader.
Import Hlsl.
Local Open Scope R_scope.

(** [#define PI 3.1415926538] *)
Definition PI : R := 3.1415926538.

(** *** Constant buffer and I/O structures *)

Record OpaqueCBType := {
  worldMatrix : float4x4;
  viewProjMatrix : float4x4;
  cameraPosition : float4;
  lightDirection : float4;
  lightColor : float4;
  shadowTransform : float4x4;
  shadowBias : R
}.

Record VS_INPUT := { vs_in_position : float4 }.
Record VS_OUTPUT := { vs_position : float4 }.
Record PS_OUTPUT := { color : float4 }.

(** [float edgeTess[4]; float insideTess[2];] *)
Record PatchTess := { edgeTess : list R; insideTess : list R }.

Record HS_OUT := { hs_position : float3 }.
Record DS_OUT := { ds_position : float4; catPos : float3 }.

(** A patch of four control points, read by index. *)
Record Patch4 (A : Type) := { cp0 : A; cp1 : A; cp2 : A; cp3 : A }.
Arguments cp0 {A} _.
Arguments cp1 {A} _.
Arguments cp2 {A} _.
Arguments cp3 {A} _.

Definition cp {A : Type} (p : Patch4 A) (i : nat) : A :=
  match i with
  | O => cp0 p
  | 1%nat => cp1 p
  | 2%nat => cp2 p
  | _ => cp3 p
  end.

(** *** Textures and samplers

    [Texture2D texMap[5] : register(t0)]: a texture object is its slot in
    [texMap]; the contents of the slots are part of the bound resources. *)

Definition Texture2D := Z.
Definition texMap (i : Z) : Texture2D := i.

Inductive SamplerState := samAnisotropic.
Inductive SamplerComparisonState := samShadow.

Record TextureData := {
  texSampleLevel : SamplerState -> float2 -> R -> float4;
  texSample : SamplerState -> float2 -> float4;
  texSampleCmpLevelZero : SamplerComparisonState -> float2 -> R -> R;
  texWidth : Z;
  texHeight : Z;
  texNumMips : Z
}.

Record Resources := { cb : OpaqueCBType; texels : Texture2D -> TextureData }.

(** One texture fetch, as issued by a shader. *)
Inductive Fetch :=
| FSampleLevel (t : Texture2D) (uv : float2) (lod : R)
| FSample (t : Texture2D) (uv : float2)
| FSampleCmpLevelZero (t : Texture2D) (uv : float2) (cmp : R).

(** Shader computations: a value and the fetches issued to obtain it. *)
Definition Sh (A : Type) : Type := (A * list Fetch)%type.

Definition ret {A : Type} (a : A) : Sh A := (a, []).
Definition bind {A B : Type} (m : Sh A) (f : A -> Sh B) : Sh B :=
  let (a, l1) := m in
  let (b, l2) := f a in
  (b, l1 ++ l2).
Definition value {A : Type} (m : Sh A) : A := fst m.
Definition fetches {A : Type} (m : Sh A) : list Fetch := snd m.

Notation "x <- m ;; k" := (bind m (fun x => k))
  (at level 61, m at next level, right associativity).

Section Pipeline.
Variable env : Resources.

Definition SampleLevel (t : Texture2D) (s : SamplerState) (uv : float2) (lod : R)
  : Sh float4 :=
  (texSampleLevel (texels env t) s uv lod, [FSampleLevel t uv lod]).

Definition Sample (t : Texture2D) (s : SamplerState) (uv : float2) : Sh float4 :=
  (texSample (texels env t) s uv, [FSample t uv]).

Definition SampleCmpLevelZero (t : Texture2D) (s : SamplerComparisonState)
    (uv : float2) (cmp : R) : Sh R :=
  (texSampleCmpLevelZero (texels env t) s uv cmp, [FSampleCmpLevelZero t uv cmp]).

(** *** Vertex shader *)

Definition VS (input : VS_INPUT) : VS_OUTPUT :=
  {| vs_position := vs_in_position input |}.

(** *** Constant hull shader *)

Definition near : R := 20.
Definition far : R := 150.

Definition CalcTessFactor (p : float3) : R :=
  let d := distance3 p (xyz (cameraPosition (cb env))) in
  let s := saturate ((d - near) / (far - near)) in
  pow 2 (-8 * pow s 0.5 + 8).

(** [float3 pN = normalize(patch[N].position) * 150.0f]: [position] is a
    [float4], so the normalisation is over four components and the product
    is truncated to [float3] by the assignment. *)
Definition hs_p (patch : Patch4 VS_OUTPUT) (i : nat) : float3 :=
  xyz (scale4 150 (normalize4 (vs_position (cp patch i)))).

Definition hs_localPos (patch : Patch4 VS_OUTPUT) : float3 :=
  xyz (scale4 0.25
        (add4 (add4 (add4 (vs_position (cp patch 0)) (vs_position (cp patch 1)))
                    (vs_position (cp patch 2)))
              (vs_position (cp patch 3)))).

Definition hs_worldPos (patch : Patch4 VS_OUTPUT) : float3 :=
  xyz (mul4 (float4_of (hs_localPos patch) 1) (worldMatrix (cb env))).

Definition hs_e0 patch : float3 := scale3 0.5 (add3 (hs_p patch 0) (hs_p patch 2)).
Definition hs_e1 patch : float3 := scale3 0.5 (add3 (hs_p patch 0) (hs_p patch 1)).
Definition hs_e2 patch : float3 := scale3 0.5 (add3 (hs_p patch 1) (hs_p patch 3)).
Definition hs_e3 patch : float3 := scale3 0.5 (add3 (hs_p patch 2) (hs_p patch 3)).
Definition hs_c patch : float3 := scale3 150 (normalize3 (hs_worldPos patch)).

Definition ConstantHS (patch : Patch4 VS_OUTPUT) (patchID : Z) : PatchTess :=
  let inside0 := CalcTessFactor (hs_c patch) in
  {| edgeTess := [ CalcTessFactor (hs_e0 patch);
                   CalcTessFactor (hs_e1 patch);
                   CalcTessFactor (hs_e2 patch);
                   CalcTessFactor (hs_e3 patch) ];
     insideTess := [ inside0; inside0 ] |}.

(** *** Control point hull shader *)

Definition HS (input : Patch4 VS_OUTPUT) (vertexIdx : nat) (patchID : Z) : HS_OUT :=
  {| hs_position := xyz (vs_position (cp input vertexIdx)) |}.

(** *** Domain shader *)

Definition size : float2 := F2 2.0 0.0.
Definition off : float3 := F3 (-1.0) 0.0 1.0.
Definition nTex : float2 := F2 11520 11520.

(** Bilinear interpolation (position). *)
Definition ds_position_of (input : Patch4 HS_OUT) (uv : float2) : float3 :=
  let v1 := lerp3 (hs_position (cp input 0)) (hs_position (cp input 1)) (x2 uv) in
  let v2 := lerp3 (hs_position (cp input 2)) (hs_position (cp input 3)) (x2 uv) in
  lerp3 v1 v2 (y2 uv).

(** [float tess = patch.edgeTess[0]; float level = max(0, 8 - sqrt(tess) - 3);] *)
Definition ds_level (patch : PatchTess) : R :=
  let tess := nth 0 (edgeTess patch) 0 in
  Rmax 0 (8 - sqrt tess - 3).

(** Convert cartesian to polar; the same two statements open the pixel shader. *)
Definition polar_theta (normCatPos : float3) : R :=
  let theta := atan2 (z3 normCatPos) (x3 normCatPos) in
  if (sign theta =? -1)%Z then 2 * PI + theta else theta.

Definition polar_phi (normCatPos : float3) : R := acos (y3 normCatPos).

(** [float2 gTexCoord = float2(theta / (2 * PI), phi / PI);] *)
Definition gTexCoord_of (normCatPos : float3) : float2 :=
  F2 (polar_theta normCatPos / (2 * PI)) (polar_phi normCatPos / PI).

(** [float2(texIndex == 0 ? gTexCoord.x * 2 : (gTexCoord.x - 0.5f) * 2.0f, gTexCoord.y)] *)
Definition sTexCoord_of (texIndex : Z) (gTexCoord : float2) : float2 :=
  F2 (if (texIndex =? 0)%Z then x2 gTexCoord * 2 else (x2 gTexCoord - 0.5) * 2.0)
     (y2 gTexCoord).

(** [int texIndex = round(gTexCoord.x) + 2;] *)
Definition ds_texIndex (gTexCoord : float2) : Z := (round (x2 gTexCoord) + 2)%Z.

Definition DS (input : Patch4 HS_OUT) (uv : float2) (patch : PatchTess) : Sh DS_OUT :=
  let position := ds_position_of input uv in
  let level := ds_level patch in
  let normCatPos := normalize3 position in
  let gTexCoord := gTexCoord_of normCatPos in
  let texIndex := ds_texIndex gTexCoord in
  let sTexCoord := sTexCoord_of texIndex gTexCoord in
  h <- SampleLevel (texMap texIndex) samAnisotropic sTexCoord level ;;
  let height := red h in
  let catPos := scale3 (150 + height * 0.5) normCatPos in
  let position := mul4 (float4_of catPos 1) (worldMatrix (cb env)) in
  let position := mul4 position (viewProjMatrix (cb env)) in
  ret {| ds_position := position; catPos := catPos |}.

(** *** Pixel shader *)

Definition GetNormalFromHeight (tex : Texture2D) (sTexCoord : float2) (multiplier : R)
  : Sh float3 :=
  let offxy := F2 (x3 off / x2 nTex) (y3 off / y2 nTex) in
  let offzy := F2 (z3 off / x2 nTex) (y3 off / y2 nTex) in
  let offyx := F2 (y3 off / x2 nTex) (x3 off / y2 nTex) in
  let offyz := F2 (y3 off / x2 nTex) (z3 off / y2 nTex) in
  a <- Sample tex samAnisotropic (add2 sTexCoord (scale2 multiplier offxy)) ;;
  b <- Sample tex samAnisotropic (add2 sTexCoord (scale2 multiplier offzy)) ;;
  c <- Sample tex samAnisotropic (add2 sTexCoord (scale2 multiplier offyx)) ;;
  d <- Sample tex samAnisotropic (add2 sTexCoord (scale2 multiplier offyz)) ;;
  let va := normalize3 (F3 (x2 size) (y2 size) ((red b - red a) * 0.5)) in
  let vb := normalize3 (F3 (y2 size) (x2 size) ((red d - red c) * 0.5)) in
  ret (normalize3 (cross va vb)).

(** The unrolled loop of [CalcShadowFactor]: [percentLit += ...] for
    [i = 0 .. 8], here over the remaining offsets. *)
Fixpoint shadow_loop (xy : float2) (depth : R) (offsets : list float2) (percentLit : R)
  : Sh R :=
  match offsets with
  | [] => ret percentLit
  | o :: rest =>
      s <- SampleCmpLevelZero (texMap 4) samShadow (saturate2 (add2 xy o)) depth ;;
      shadow_loop xy depth rest (percentLit + s)
  end.

Definition shadow_offsets (dx : R) : list float2 :=
  [ F2 (- dx) (- dx); F2 0.0 (- dx); F2 dx (- dx);
    F2 (- dx) 0.0;    F2 0.0 0.0;    F2 dx 0.0;
    F2 (- dx) dx;     F2 0.0 dx;     F2 dx dx ].

Definition CalcShadowFactor (shadowPosH : float4) : Sh R :=
  (* Complete projection by doing division by w. *)
  let shadowPosH := F4 (x4 shadowPosH / w4 shadowPosH) (y4 shadowPosH / w4 shadowPosH)
                       (z4 shadowPosH / w4 shadowPosH) (w4 shadowPosH) in
  (* Depth in NDC space. *)
  let depth := z4 shadowPosH - shadowBias (cb env) in
  let width := texWidth (texels env (texMap 4)) in
  (* Texel size. *)
  let dx := 1.0 / IZR width in
  percentLit <- shadow_loop (xy4 shadowPosH) depth (shadow_offsets dx) 0.0 ;;
  ret (percentLit / 9.0).

Definition hash (p : float2) : R :=
  frac (1e4 * sin (17.0 * x2 p + y2 p * 0.1) * (0.1 + Rabs (sin (y2 p * 13.0 + x2 p)))).

Definition noise (x : float2) : R :=
  let i := F2 (IZR (floor (x2 x))) (IZR (floor (y2 x))) in
  let f := F2 (frac (x2 x)) (frac (y2 x)) in
  let a := hash i in
  let b := hash (add2 i (F2 1.0 0.0)) in
  let c := hash (add2 i (F2 0.0 1.0)) in
  let d := hash (add2 i (F2 1.0 1.0)) in
  let u := F2 (x2 f * x2 f * (3.0 - 2.0 * x2 f)) (y2 f * y2 f * (3.0 - 2.0 * y2 f)) in
  lerp a b (x2 u) + (c - a) * y2 u * (1.0 - x2 u) + (d - b) * x2 u * y2 u.

(** [int texIndex = round(gTexCoord.x);] *)
Definition ps_texIndex (gTexCoord : float2) : Z := round (x2 gTexCoord).

(** [float3 localNormal = (n1 * 3.0f + n2 * 2.0f + n3 * 1.0f) / 6.0f;] *)
Definition ps_blend (n1 n2 n3 : float3) : float3 :=
  scale3 (/ 6.0) (add3 (add3 (scale3 3.0 n1) (scale3 2.0 n2)) (scale3 1.0 n3)).

(** Calculate TBN Matrix. *)
Definition ps_TBN (normCatPos : float3) : float3x3 :=
  let theta := polar_theta normCatPos in
  let N := normCatPos in
  let T := F3 (- sin theta) 0 (cos theta) in
  let B := cross N T in
  M3 (normalize3 T) (normalize3 B) (normalize3 N).

(** The local normal of the pixel shader, up to [float3 normal = ...]. *)
Definition ps_normal (input : DS_OUT) : Sh float3 :=
  let normCatPos := normalize3 (catPos input) in
  let gTexCoord := gTexCoord_of normCatPos in
  let texIndex := ps_texIndex gTexCoord in
  let sTexCoord := sTexCoord_of texIndex gTexCoord in
  n1 <- GetNormalFromHeight (texMap (texIndex + 2)) sTexCoord 1.0 ;;
  n2 <- GetNormalFromHeight (texMap (texIndex + 2)) sTexCoord 2.0 ;;
  n3 <- GetNormalFromHeight (texMap (texIndex + 2)) sTexCoord 3.0 ;;
  let localNormal := normalize3 (ps_blend n1 n2 n3) in
  ret (normalize3 (mul3x3 localNormal (ps_TBN normCatPos))).

Definition PS (input : DS_OUT) : Sh PS_OUTPUT :=
  let normCatPos := normalize3 (catPos input) in
  let gTexCoord := gTexCoord_of normCatPos in
  let texIndex := ps_texIndex gTexCoord in
  let sTexCoord := sTexCoord_of texIndex gTexCoord in
  normal <- ps_normal input ;;
  (* Merge Results. *)
  texColor <- Sample (texMap texIndex) samAnisotropic sTexCoord ;;
  let lightDir := xyz (lightDirection (cb env)) in
  let lightCol := xyz (lightColor (cb env)) in
  let diffuse := scale3 (saturate (dot3 normal (neg3 lightDir))) lightCol in
  let ambient := mul3 (F3 0.008 0.008 0.008) lightCol in
  shadowFactor <-
    CalcShadowFactor (mul4 (float4_of (catPos input) 1.0) (shadowTransform (cb env))) ;;
  let shadowCorrector := lerp 0.75 1.0 (Rmax (dot3 normCatPos (neg3 lightDir)) 0.0) in
  let noise1 := noise (scale2 10000.0 sTexCoord) in
  let noise2 := noise (scale2 20000.0 sTexCoord) in
  let h := distance3 (catPos input) (F3 0 0 0) - 150.0 in
  let lit := add3 (scale3 (saturate (shadowFactor + shadowCorrector)) diffuse) ambient in
  let shaded :=
    scale3 (lerp 0.98 1.0 h)
      (scale3 (lerp 0.92 1.0 noise2)
        (scale3 (lerp 0.95 1.0 noise1) (mul3 lit (rgb texColor)))) in
  let final := float4_of (saturate3 shaded) 1 in
  ret {| color := final |}.

End Pipeline.
End Shader.

(** ** Game.cpp *)

Module Game.
Import Hlsl.

Definition XMVECTOR := float4.
Definition XMMATRIX := float4x4.

Definition HRESULT := Z.
Definition FAILED (hr : HRESULT) : bool := (hr <? 0)%Z.

(** Integer conversions of the source: [int] and [unsigned int] are 32 bits
    wide, [uint64_t] and [size_t] 64 bits. *)
Definition to_uint64 (z : Z) : Z := (z mod 18446744073709551616)%Z.
Definition to_uint32 (z : Z) : Z := (z mod 4294967296)%Z.
Definition to_int32 (z : Z) : Z := ((z + 2147483648) mod 4294967296 - 2147483648)%Z.

(** The members of [Game] that receive a resource. *)
Inductive BufferMember := m_cbUploadHeap | m_vertexBuffer | m_indexBuffer.
Inductive TextureMember := m_colorTexResource | m_heightTexResource.
Inductive HeapMember := m_srvHeap.

(** The root parameters [CreateDeviceDependentResources] declares: a
    descriptor table of SRVs ([texTable.Init(SRV, n, base)]) and a root
    constant buffer view ([InitAsConstantBufferView(register, space)]). *)
Inductive RootParameter :=
| DescriptorTableSRV (numDescriptors baseShaderRegister : Z)
| RootConstantBufferView (shaderRegister registerSpace : Z).

(** Calls made on the window system, the device, the command list, the
    command queue and the fence, in the order the program makes them. *)
Inductive Call :=
| ExitGame
| KeyboardGetState
| MouseGetState
| FenceGetCompletedValue
| FenceSetEventOnCompletion (value : Z)
| WaitForSingleObjectEx
| Prepare
| OMSetRenderTargets
| ClearRenderTargetView
| ClearDepthStencilView
| RSSetViewports
| RSSetScissorRects
| SetGraphicsRootSignature
| SetPipelineState
| SetDescriptorHeaps (heaps : list HeapMember)
| SetGraphicsRootDescriptorTable (rootParameterIndex : Z) (heap : HeapMember)
    (offsetFromHeapStart : Z)
| SetGraphicsRootConstantBufferView (rootParameterIndex : Z) (address : Z)
| IASetPrimitiveTopology
| IASetVertexBuffers
| IASetIndexBuffer
| DrawIndexedInstanced (indexCount instanceCount startIndex baseVertex startInstance : Z)
| Present
| QueueSignal (value : Z)
| CheckFeatureSupport
| SerializeRootSignature (parameters : list RootParameter) (numStaticSamplers : Z)
| CreateRootSignature
| CreateDescriptorHeap (numDescriptors : Z) (shaderVisible : bool) (dest : HeapMember)
| UploadBegin
| CreateDDSTextureFromFile (file : string) (dest : TextureMember)
| UploadEndAndWait
| CreateShaderResourceView (src : TextureMember) (heap : HeapMember) (heapSlot : Z)
| CreateCommittedResource (bufferSize : Z) (dest : BufferMember)
| MapBuffer (b : BufferMember)
| UnmapBuffer (b : BufferMember)
| ReadData (file : string)
| CreateGraphicsPipelineState
| WaitForGpu
| CreateFence (initialValue : Z).

Record KeyboardState := {
  Escape : bool; key_W : bool; key_S : bool; key_A : bool; key_D : bool
}.
Record MouseState := { mouse_x : Z; mouse_y : Z }.

(** What the surroundings of [Game] answer during one call: input devices,
    the timer's clock, [DX::DeviceResources], the fence and the [HRESULT] of
    every call that has one. *)
Record World := {
  keyboard : KeyboardState;
  mouse : MouseState;
  elapsedSeconds : R;
  GetCurrentFrameIndex : Z;
  GetBackBufferCount : Z;
  GetCompletedValue : Z;
  HighestShaderModel : Z;
  GetDescriptorHandleIncrementSize : Z;
  GetGPUVirtualAddress : BufferMember -> Z;
  hresult : Call -> HRESULT
}.

(** Declarations of [Game.h], [pch.h] and the libraries that the source uses
    but that are not part of it. *)
Record Externals := {
  c_numDrawCalls : Z;
  sizeof_PaddedConstantBuffer : Z;
  sizeof_VertexPositionNormalTexture : Z;
  CreateQuadBox_vertexCount : Z;
  CreateQuadBox_indexCount : Z;
  D3D_SHADER_MODEL_6_0 : Z;
  DEFAULT_FORWARD_VECTOR : XMVECTOR;
  DEFAULT_RIGHT_VECTOR : XMVECTOR;
  DEFAULT_UP_VECTOR : XMVECTOR;
  XMMatrixRotationRollPitchYaw : R -> R -> R -> XMMATRIX;
  XMVector3TransformCoord : XMVECTOR -> XMMATRIX -> XMVECTOR;
  XMVector3Normalize : XMVECTOR -> XMVECTOR;
  XMMatrixLookAtLH : XMVECTOR -> XMVECTOR -> XMVECTOR -> XMMATRIX;
  XMMatrixTranspose : XMMATRIX -> XMMATRIX;
  XMMatrixIdentity : XMMATRIX
}.

(** Modelled from the spec: [DX::StepTimer] ([StepTimer.h] is not among the
    sources).  The spec says the frame driver "advances a timer"; [Game.cpp]
    reads the timer's frame count and elapsed seconds. *)
Record StepTimer := { frameCount : N; timerElapsedSeconds : R }.

Record ConstantBuffer := {
  cb_worldMatrix : XMMATRIX;
  cb_viewMatrix : XMMATRIX;
  cb_projectionMatrix : XMMATRIX;
  cb_cameraPosition : XMVECTOR
}.

Record Game := {
  m_timer : StepTimer;
  m_camYaw : R;
  m_camPitch : R;
  m_camRotationMatrix : XMMATRIX;
  m_camLookTarget : XMVECTOR;
  m_camRight : XMVECTOR;
  m_camUp : XMVECTOR;
  m_camForward : XMVECTOR;
  m_camPosition : XMVECTOR;
  m_worldMatrix : XMMATRIX;
  m_viewMatrix : XMMATRIX;
  m_projectionMatrix : XMMATRIX;
  m_cbvsrvDescSize : Z;
  m_cbGpuAddress : Z;
  m_cbMappedData : Z -> option ConstantBuffer;
  m_indexCount : Z
}.

(** *** Computations of [Game]: state, trace of calls, C++ exceptions

    A computation runs from a [Game] and yields its result ([None] when an
    exception left it), the [Game] it reached and the calls it made. *)
Definition M (A : Type) : Type := Game -> (option A * Game * list Call).

Definition ret {A : Type} (a : A) : M A := fun g => (Some a, g, []).
Definition bind {A B : Type} (m : M A) (f : A -> M B) : M B :=
  fun g =>
    match m g with
    | (Some a, g1, t1) =>
        match f a g1 with
        | (r, g2, t2) => (r, g2, t1 ++ t2)
        end
    | (None, g1, t1) => (None, g1, t1)
    end.
Definition throw {A : Type} : M A := fun g => (None, g, []).
Definition get : M Game := fun g => (Some g, g, []).
Definition put (g' : Game) : M unit := fun _ => (Some tt, g', []).
Definition call (c : Call) : M unit := fun g => (Some tt, g, [c]).

Notation "x <- m ;; k" := (bind m (fun x => k))
  (at level 61, m at next level, right associativity).
Notation "m ;;; k" := (bind m (fun _ => k))
  (at level 61, right associativity).

Definition result {A : Type} (r : option A * Game * list Call) : option A := fst (fst r).
Definition state {A : Type} (r : option A * Game * list Call) : Game := snd (fst r).
Definition trace {A : Type} (r : option A * Game * list Call) : list Call := snd r.

Definition set_timer (g : Game) (t : StepTimer) : Game :=
  {| m_timer := t;
     m_camYaw := m_camYaw g; m_camPitch := m_camPitch g;
     m_camRotationMatrix := m_camRotationMatrix g;
     m_camLookTarget := m_camLookTarget g; m_camRight := m_camRight g;
     m_camUp := m_camUp g; m_camForward := m_camForward g;
     m_camPosition := m_camPosition g;
     m_worldMatrix := m_worldMatrix g; m_viewMatrix := m_viewMatrix g;
     m_projectionMatrix := m_projectionMatrix g;
     m_cbvsrvDescSize := m_cbvsrvDescSize g; m_cbGpuAddress := m_cbGpuAddress g;
     m_cbMappedData := m_cbMappedData g; m_indexCount := m_indexCount g |}.

Definition set_camera (g : Game) (yaw pitch : R) (rot : XMMATRIX)
    (look right up forward position : XMVECTOR) (view : XMMATRIX) : Game :=
  {| m_timer := m_timer g;
     m_camYaw := yaw; m_camPitch := pitch;
     m_camRotationMatrix := rot;
     m_camLookTarget := look; m_camRight := right;
     m_camUp := up; m_camForward := forward;
     m_camPosition := position;
     m_worldMatrix := m_worldMatrix g; m_viewMatrix := view;
     m_projectionMatrix := m_projectionMatrix g;
     m_cbvsrvDescSize := m_cbvsrvDescSize g; m_cbGpuAddress := m_cbGpuAddress g;
     m_cbMappedData := m_cbMappedData g; m_indexCount := m_indexCount g |}.

Definition set_cbMappedData (g : Game) (i : Z) (data : ConstantBuffer) : Game :=
  {| m_timer := m_timer g;
     m_camYaw := m_camYaw g; m_camPitch := m_camPitch g;
     m_camRotationMatrix := m_camRotationMatrix g;
     m_camLookTarget := m_camLookTarget g; m_camRight := m_camRight g;
     m_camUp := m_camUp g; m_camForward := m_camForward g;
     m_camPosition := m_camPosition g;
     m_worldMatrix := m_worldMatrix g; m_viewMatrix := m_viewMatrix g;
     m_projectionMatrix := m_projectionMatrix g;
     m_cbvsrvDescSize := m_cbvsrvDescSize g; m_cbGpuAddress := m_cbGpuAddress g;
     m_cbMappedData := fun j => if (j =? i)%Z then Some data else m_cbMappedData g j;
     m_indexCount := m_indexCount g |}.

Section Program.
Variable ext : Externals.
Variable w : World.
Local Open Scope R_scope.

(** [DX::ThrowIfFailed(c)]: make the call, leave by an exception when its
    [HRESULT] reports a failure. *)
Definition ThrowIfFailed (c : Call) : M unit :=
  call c ;;; if FAILED (hresult w c) then throw else ret tt.

(** [void Game::Update(DX::StepTimer const& timer)] *)
Definition Update (timer : StepTimer) : M unit :=
  let elapsedTime := timerElapsedSeconds timer in
  (* Handle keyboard input. *)
  call KeyboardGetState ;;;
  let kb := keyboard w in
  (if Escape kb then call ExitGame else ret tt) ;;;
  let moveSpeed := 5.0 in
  let verticalMove :=
    (if key_W kb then 1.0 else if key_S kb then -1.0 else 0.0) * elapsedTime * moveSpeed in
  let horizontalMove :=
    (if key_A kb then -1.0 else if key_D kb then 1.0 else 0.0) * elapsedTime * moveSpeed in
  (* Handle mouse input. *)
  call MouseGetState ;;;
  let ms := mouse w in
  g <- get ;;
  let camYaw := m_camYaw g + IZR (mouse_x ms) * elapsedTime / 10.0 in
  let camPitch := m_camPitch g + IZR (mouse_y ms) * elapsedTime / 10.0 in
  (* Set view matrix based on camera position and orientation. *)
  let camRotationMatrix := XMMatrixRotationRollPitchYaw ext camPitch camYaw 0.0 in
  let camLookTarget :=
    XMVector3Normalize ext
      (XMVector3TransformCoord ext (DEFAULT_FORWARD_VECTOR ext) camRotationMatrix) in
  let camRight := XMVector3TransformCoord ext (DEFAULT_RIGHT_VECTOR ext) camRotationMatrix in
  let camUp := XMVector3TransformCoord ext (DEFAULT_UP_VECTOR ext) camRotationMatrix in
  let camForward := XMVector3TransformCoord ext (DEFAULT_FORWARD_VECTOR ext) camRotationMatrix in
  let camPosition := add4 (m_camPosition g) (scale4 horizontalMove camRight) in
  let camPosition := add4 camPosition (scale4 verticalMove camForward) in
  let camLookTarget := add4 camPosition camLookTarget in
  let viewMatrix := XMMatrixLookAtLH ext camPosition camLookTarget camUp in
  put (set_camera g camYaw camPitch camRotationMatrix camLookTarget camRight camUp
         camForward camPosition viewMatrix).

(** [void Game::Clear()] *)
Definition Clear : M unit :=
  call OMSetRenderTargets ;;;
  call ClearRenderTargetView ;;;
  call ClearDepthStencilView ;;;
  call RSSetViewports ;;;
  call RSSetScissorRects.

(** The test [(frameIdx > completedValue) && (frameIdx - completedValue >
    numBackBuffers)]: [completedValue] is a [uint64_t], so both [int]
    operands are converted to it and the difference is taken modulo 2^64. *)
Definition gpu_behind (frameIdx numBackBuffers completedValue : Z) : bool :=
  ((to_uint64 frameIdx >? completedValue)
   && (to_uint64 (to_uint64 frameIdx - completedValue) >? to_uint64 numBackBuffers))%Z.

(** [void Game::Render()] *)
Definition Render : M unit :=
  g <- get ;;
  (* Don't try to render anything before the first Update. *)
  if (frameCount (m_timer g) =? 0)%N then ret tt else
  (* Check to see if the GPU is keeping up *)
  let frameIdx := GetCurrentFrameIndex w in
  let numBackBuffers := GetBackBufferCount w in
  call FenceGetCompletedValue ;;;
  let completedValue := GetCompletedValue w in
  (if gpu_behind frameIdx numBackBuffers completedValue then
     (* GPU not caught up, wait for at least one available frame *)
     ThrowIfFailed
       (FenceSetEventOnCompletion (to_uint64 (to_int32 (frameIdx - numBackBuffers)))) ;;;
     call WaitForSingleObjectEx
   else ret tt) ;;;
  (* Prepare the command list to render a new frame. *)
  call Prepare ;;;
  Clear ;;;
  let cbIndex :=
    to_uint32 (c_numDrawCalls ext * to_uint32 (Z.rem frameIdx numBackBuffers)) in
  (* Set the root signature and pipeline state. *)
  call SetGraphicsRootSignature ;;;
  call SetPipelineState ;;;
  (* Set the descriptor heap containing the texture SRV. *)
  call (SetDescriptorHeaps [m_srvHeap]) ;;;
  call (SetGraphicsRootDescriptorTable 0 m_srvHeap 0) ;;;
  (* Set the constant data. *)
  let cbData :=
    {| cb_worldMatrix := XMMatrixTranspose ext (m_worldMatrix g);
       cb_viewMatrix := XMMatrixTranspose ext (m_viewMatrix g);
       cb_projectionMatrix := XMMatrixTranspose ext (m_projectionMatrix g);
       cb_cameraPosition := m_camPosition g |} in
  put (set_cbMappedData g cbIndex cbData) ;;;
  (* Bind the constants to the shader. *)
  let baseGpuAddress :=
    to_uint64 (m_cbGpuAddress g + sizeof_PaddedConstantBuffer ext * cbIndex) in
  call (SetGraphicsRootConstantBufferView 1 baseGpuAddress) ;;;
  (* Set necessary state. *)
  call IASetPrimitiveTopology ;;;
  call IASetVertexBuffers ;;;
  call IASetIndexBuffer ;;;
  (* Draw the sphere. *)
  call (DrawIndexedInstanced (m_indexCount g) 1 0 0 0) ;;;
  (* Show the new frame. *)
  call Present ;;;
  (* GPU will signal an increasing value each frame *)
  call (QueueSignal (to_uint64 frameIdx)).

(** Modelled from the spec: [DX::StepTimer::Tick] ([StepTimer.h] is not
    among the sources).  "Advances a timer": in the variable-timestep mode
    that [Game::Initialize] leaves in place, a tick records the elapsed
    time, counts one more frame and runs the update callback once. *)
Definition StepTimer_Tick (update : StepTimer -> M unit) : M unit :=
  g <- get ;;
  let t := {| frameCount := (frameCount (m_timer g) + 1)%N;
              timerElapsedSeconds := elapsedSeconds w |} in
  put (set_timer g t) ;;;
  update t.

(** [void Game::Tick()] *)
Definition Tick : M unit :=
  StepTimer_Tick (fun timer => Update timer) ;;;
  Render.


(** The members [CreateDeviceDependentResources] assigns, at the points
    where it assigns them. *)
Definition set_resource_members (g : Game) (descSize cbGpuAddress indexCount : Z) : Game :=
  {| m_timer := m_timer g;
     m_camYaw := m_camYaw g; m_camPitch := m_camPitch g;
     m_camRotationMatrix := m_camRotationMatrix g;
     m_camLookTarget := m_camLookTarget g; m_camRight := m_camRight g;
     m_camUp := m_camUp g; m_camForward := m_camForward g;
     m_camPosition := m_camPosition g;
     m_worldMatrix := m_worldMatrix g; m_viewMatrix := m_viewMatrix g;
     m_projectionMatrix := m_projectionMatrix g;
     m_cbvsrvDescSize := descSize; m_cbGpuAddress := cbGpuAddress;
     m_cbMappedData := m_cbMappedData g; m_indexCount := indexCount |}.

(** Initialize camera values, the world matrix and the view matrix. *)
Definition set_initial_camera (g : Game) : Game :=
  {| m_timer := m_timer g;
     m_camYaw := -3.0; m_camPitch := 0.37;
     m_camRotationMatrix := m_camRotationMatrix g;
     m_camLookTarget := F4 0.0 0.0 0.0 0.0;
     m_camRight := DEFAULT_RIGHT_VECTOR ext;
     m_camUp := DEFAULT_UP_VECTOR ext;
     m_camForward := DEFAULT_FORWARD_VECTOR ext;
     m_camPosition := F4 0.0 0.0 200.0 0.0;
     m_worldMatrix := XMMatrixIdentity ext;
     m_viewMatrix :=
       XMMatrixLookAtLH ext (F4 0.0 0.0 200.0 0.0) (F4 0.0 0.0 0.0 0.0)
         (DEFAULT_UP_VECTOR ext);
     m_projectionMatrix := m_projectionMatrix g;
     m_cbvsrvDescSize := m_cbvsrvDescSize g; m_cbGpuAddress := m_cbGpuAddress g;
     m_cbMappedData := m_cbMappedData g; m_indexCount := m_indexCount g |}.

(** [void Game::CreateDeviceDependentResources()] *)
Definition CreateDeviceDependentResources : M unit :=
  (* Check Shader Model 6 support *)
  call CheckFeatureSupport ;;;
  (if FAILED (hresult w CheckFeatureSupport)
      || (HighestShaderModel w <? D3D_SHADER_MODEL_6_0 ext)%Z
   then throw else ret tt) ;;;
  g <- get ;;
  put (set_resource_members g (GetDescriptorHandleIncrementSize w)
         (m_cbGpuAddress g) (m_indexCount g)) ;;;
  (* Create root signature with root CBV, descriptor table (with SRV) and sampler *)
  ThrowIfFailed (SerializeRootSignature [DescriptorTableSRV 2 0; RootConstantBufferView 0 0] 1) ;;;
  ThrowIfFailed CreateRootSignature ;;;
  (* Create the SRV Heap. *)
  ThrowIfFailed (CreateDescriptorHeap 2 true m_srvHeap) ;;;
  (* Load color map from file. *)
  call UploadBegin ;;;
  ThrowIfFailed (CreateDDSTextureFromFile "colormap.dds" m_colorTexResource) ;;;
  call UploadEndAndWait ;;;
  (* Load Displacement map from file. *)
  call UploadBegin ;;;
  ThrowIfFailed (CreateDDSTextureFromFile "displacement.dds" m_heightTexResource) ;;;
  call UploadEndAndWait ;;;
  (* Create SRVs for the textures. *)
  call (CreateShaderResourceView m_colorTexResource m_srvHeap 0) ;;;
  call (CreateShaderResourceView m_heightTexResource m_srvHeap 1) ;;;
  (* Create the constant buffer memory *)
  let cbSize :=
    to_uint64 (to_uint32 (c_numDrawCalls ext * GetBackBufferCount w)
               * sizeof_PaddedConstantBuffer ext) in
  ThrowIfFailed (CreateCommittedResource cbSize m_cbUploadHeap) ;;;
  (* Map the CPU and GPU addresses. *)
  ThrowIfFailed (MapBuffer m_cbUploadHeap) ;;;
  g <- get ;;
  put (set_resource_members g (m_cbvsrvDescSize g)
         (GetGPUVirtualAddress w m_cbUploadHeap) (m_indexCount g)) ;;;
  (* Create the pipeline state, which includes loading shaders. *)
  ThrowIfFailed (ReadData "VertexShader.cso") ;;;
  ThrowIfFailed (ReadData "HullShader.cso") ;;;
  ThrowIfFailed (ReadData "DomainShader.cso") ;;;
  ThrowIfFailed (ReadData "PixelShader.cso") ;;;
  ThrowIfFailed CreateGraphicsPipelineState ;;;
  (* Compute sphere vertices and indices *)
  let vertexBufferSize :=
    to_int32 (sizeof_VertexPositionNormalTexture ext * CreateQuadBox_vertexCount ext) in
  let indexBufferSize := to_int32 (2 * CreateQuadBox_indexCount ext) in
  g <- get ;;
  put (set_resource_members g (m_cbvsrvDescSize g) (m_cbGpuAddress g)
         (to_uint32 (CreateQuadBox_indexCount ext))) ;;;
  (* Create vertex buffer. *)
  ThrowIfFailed (CreateCommittedResource (to_uint64 vertexBufferSize) m_vertexBuffer) ;;;
  ThrowIfFailed (MapBuffer m_vertexBuffer) ;;;
  call (UnmapBuffer m_vertexBuffer) ;;;
  (* Create index buffer. *)
  ThrowIfFailed (CreateCommittedResource (to_uint64 indexBufferSize) m_indexBuffer) ;;;
  ThrowIfFailed (MapBuffer m_indexBuffer) ;;;
  call (UnmapBuffer m_indexBuffer) ;;;
  (* Wait until assets have been uploaded to the GPU. *)
  call WaitForGpu ;;;
  (* Create a fence for synchronizing between the CPU and the GPU *)
  ThrowIfFailed (CreateFence (to_uint64 (GetCurrentFrameIndex w))) ;;;
  (* Initialize camera values, the world matrix and the view matrix *)
  g <- get ;;
  put (set_initial_camera g).

End Program.

(** The calls that create an object of the device, by kind. *)
Definition creates_root_signature (c : Call) : bool :=
  match c with CreateRootSignature => true | _ => false end.
Definition serializes_root_signature (c : Call) : bool :=
  match c with SerializeRootSignature _ _ => true | _ => false end.
Definition creates_pipeline_state (c : Call) : bool :=
  match c with CreateGraphicsPipelineState => true | _ => false end.
Definition creates_descriptor_heap (c : Call) : bool :=
  match c with CreateDescriptorHeap _ _ _ => true | _ => false end.
Definition creates_texture (c : Call) : bool :=
  match c with CreateDDSTextureFromFile _ _ => true | _ => false end.
Definition creates_buffer (c : Call) : bool :=
  match c with CreateCommittedResource _ _ => true | _ => false end.
Definition creates_view (c : Call) : bool :=
  match c with CreateShaderResourceView _ _ _ => true | _ => false end.
Definition creates_fence (c : Call) : bool :=
  match c with CreateFence _ => true | _ => false end.

Definition is_draw (c : Call) : bool :=
  match c with DrawIndexedInstanced _ _ _ _ _ => true | _ => false end.
Definition is_wait (c : Call) : bool :=
  match c with WaitForSingleObjectEx => true | _ => false end.
Definition is_fence_wait_request (c : Call) : bool :=
  match c with FenceSetEventOnCompletion _ => true | _ => false end.
(** The calls in which the CPU blocks until the GPU has caught up, and the
    calls on the fence. *)
Definition is_blocking (c : Call) : bool :=
  match c with
  | WaitForSingleObjectEx | WaitForGpu | UploadEndAndWait => true
  | _ => false
  end.
Definition is_fence_call (c : Call) : bool :=
  match c with
  | FenceGetCompletedValue | FenceSetEventOnCompletion _ | QueueSignal _
  | CreateFence _ => true
  | _ => false
  end.
Definition is_root_cbv (c : Call) : bool :=
  match c with SetGraphicsRootConstantBufferView _ _ => true | _ => false end.
Definition is_root_table (c : Call) : bool :=
  match c with SetGraphicsRootDescriptorTable _ _ _ => true | _ => false end.

(** The calls of [Render] from [Prepare] on, for reference in the
    statements below: command-list set-up, the draw, [Present] and the
    fence signal. *)
Definition frame_calls (ext : Externals) (w : World) (g : Game) : list Call :=
  let frameIdx := GetCurrentFrameIndex w in
  let cbIndex :=
    to_uint32 (c_numDrawCalls ext * to_uint32 (Z.rem frameIdx (GetBackBufferCount w))) in
  [ Prepare; OMSetRenderTargets; ClearRenderTargetView; ClearDepthStencilView;
    RSSetViewports; RSSetScissorRects; SetGraphicsRootSignature; SetPipelineState;
    SetDescriptorHeaps [m_srvHeap]; SetGraphicsRootDescriptorTable 0 m_srvHeap 0;
    SetGraphicsRootConstantBufferView 1
      (to_uint64 (m_cbGpuAddress g + sizeof_PaddedConstantBuffer ext * cbIndex));
    IASetPrimitiveTopology; IASetVertexBuffers; IASetIndexBuffer;
    DrawIndexedInstanced (m_indexCount g) 1 0 0 0;
    Present; QueueSignal (to_uint64 frameIdx) ].

End Game.

(** ** The hull constant function in the words of the specification

    Each factor is [2^(-8 * sqrt(saturate((d - 20)/(150 - 20))) + 8)] at the
    distance [d] from the camera to a point: for an edge, the midpoint of its
    two control points projected to the sphere of radius 150; for the inside
    factors, the patch centre. *)

Module ShaderSpec.
Import Hlsl Shader.
Local Open Scope R_scope.

Definition tess_formula (d : R) : R :=
  Rpower 2 (-8 * sqrt (saturate ((d - 20) / (150 - 20))) + 8).

Definition project150 (p : float3) : float3 := scale3 150 (normalize3 p).

Definition edge_midpoint (patch : Patch4 VS_OUTPUT) (i j : nat) : float3 :=
  scale3 0.5 (add3 (project150 (xyz (vs_position (cp patch i))))
                   (project150 (xyz (vs_position (cp patch j))))).

Definition spec_ConstantHS (env : Resources) (patch : Patch4 VS_OUTPUT) : PatchTess :=
  let cam := xyz (cameraPosition (cb env)) in
  let inside := tess_formula (distance3 (hs_c env patch) cam) in
  {| edgeTess := [ tess_formula (distance3 (edge_midpoint patch 0 2) cam);
                   tess_formula (distance3 (edge_midpoint patch 0 1) cam);
                   tess_formula (distance3 (edge_midpoint patch 1 3) cam);
                   tess_formula (distance3 (edge_midpoint patch 2 3) cam) ];
     insideTess := [ inside; inside ] |}.

(** The nine shadow-map samples in the words of the specification: taken at
    the projected shadow position offset by the 3x3 grid of one-texel
    offsets, each compared against the NDC depth minus the bias. *)
Definition spec_shadow_fetches (env : Resources) (shadowPosH : float4) : list Fetch :=
  let xy := F2 (x4 shadowPosH / w4 shadowPosH) (y4 shadowPosH / w4 shadowPosH) in
  let depth := z4 shadowPosH / w4 shadowPosH - shadowBias (cb env) in
  let dx := 1 / IZR (texWidth (texels env (texMap 4))) in
  map (fun o => FSampleCmpLevelZero (texMap 4) (add2 xy o) depth) (shadow_offsets dx).

End ShaderSpec.

(** ** Concrete inputs used below *)

Module Inputs.
Import Hlsl Shader.
Local Open Scope R_scope.

Definition identity4 : float4x4 :=
  M4 (F4 1 0 0 0) (F4 0 1 0 0) (F4 0 0 1 0) (F4 0 0 0 1).

(** A texture that reads [h] everywhere, of the height map's width. *)
Definition flat_texture (h : R) : TextureData :=
  {| texSampleLevel := fun _ _ _ => F4 h h h 1;
     texSample := fun _ _ => F4 h h h 1;
     texSampleCmpLevelZero := fun _ _ _ => h;
     texWidth := 11520; texHeight := 11520; texNumMips := 10 |}.

(** Identity transforms, the camera on the x axis 50 units above the sphere,
    flat textures. *)
Definition env0 : Resources :=
  {| cb := {| worldMatrix := identity4;
              viewProjMatrix := identity4;
              cameraPosition := F4 200 0 0 1;
              lightDirection := F4 (-1) 0 0 0;
              lightColor := F4 1 1 1 1;
              shadowTransform := identity4;
              shadowBias := 0.001 |};
     texels := fun _ => flat_texture 1 |}.

(** A quad of the cube face [x = 150], as the input assembler delivers it:
    a three-component [POSITION] read into a [float4] has [w = 1]. *)
Definition face_patch : Patch4 VS_OUTPUT :=
  {| cp0 := {| vs_position := F4 150 50 0 1 |};
     cp1 := {| vs_position := F4 150 50 50 1 |};
     cp2 := {| vs_position := F4 150 (-50) 0 1 |};
     cp3 := {| vs_position := F4 150 (-50) 50 1 |} |}.

(** The control points the hull shader passes on for [face_patch], and a
    patch constant record with every factor 16. *)
Definition face_patch_hs : Patch4 HS_OUT :=
  {| cp0 := {| hs_position := F3 150 50 0 |};
     cp1 := {| hs_position := F3 150 50 50 |};
     cp2 := {| hs_position := F3 150 (-50) 0 |};
     cp3 := {| hs_position := F3 150 (-50) 50 |} |}.

Definition tess16 : PatchTess :=
  {| edgeTess := [16; 16; 16; 16]; insideTess := [16; 16] |}.

(** A texture whose red channel grows with both coordinates and with the mip
    level, and the resources of [env0] over it. *)
Definition ramp_texture : TextureData :=
  {| texSampleLevel := fun _ uv lod => F4 (x2 uv + y2 uv + lod) 0 0 1;
     texSample := fun _ uv => F4 (x2 uv + y2 uv) 0 0 1;
     texSampleCmpLevelZero := fun _ _ _ => 1;
     texWidth := 11520; texHeight := 11520; texNumMips := 10 |}.

Definition env_ramp : Resources :=
  {| cb := cb env0; texels := fun _ => ramp_texture |}.

End Inputs.

(** ** A concrete frame for the program *)

Module GameInputs.
Import Hlsl Game.
Local Open Scope Z_scope.

Definition identity : XMMATRIX :=
  M4 (F4 1 0 0 0) (F4 0 1 0 0) (F4 0 0 1 0) (F4 0 0 0 1).

(** Two draw-call slots per frame, 256-byte constant blocks, 32-byte
    vertices, a mesh of 294 vertices and 864 indices; the library functions
    are stand-ins, the properties below do not depend on them. *)
Definition ext0 : Externals :=
  {| c_numDrawCalls := 2;
     sizeof_PaddedConstantBuffer := 256;
     sizeof_VertexPositionNormalTexture := 32;
     CreateQuadBox_vertexCount := 294;
     CreateQuadBox_indexCount := 864;
     D3D_SHADER_MODEL_6_0 := 96;
     DEFAULT_FORWARD_VECTOR := F4 0 0 1 0;
     DEFAULT_RIGHT_VECTOR := F4 1 0 0 0;
     DEFAULT_UP_VECTOR := F4 0 1 0 0;
     XMMatrixRotationRollPitchYaw := fun _ _ _ => identity;
     XMVector3TransformCoord := fun v _ => v;
     XMVector3Normalize := fun v => v;
     XMMatrixLookAtLH := fun _ _ _ => identity;
     XMMatrixTranspose := fun m => m;
     XMMatrixIdentity := identity |}.

(** Frame 5 of a two-buffer swap chain while the fence has completed 1: the
    GPU is more than two frames behind.  Every call succeeds. *)
Definition world0 : World :=
  {| keyboard := {| Escape := false; key_W := true; key_S := false;
                    key_A := false; key_D := false |};
     mouse := {| mouse_x := 3; mouse_y := -1 |};
     elapsedSeconds := (1 / 60)%R;
     GetCurrentFrameIndex := 5;
     GetBackBufferCount := 2;
     GetCompletedValue := 1;
     HighestShaderModel := 96;
     GetDescriptorHandleIncrementSize := 32;
     GetGPUVirtualAddress := fun _ => 65536;
     hresult := fun _ => 0 |}.

(** [game0] is the state before the first update, [game1] the same after one
    counted frame. *)
Definition game0 : Game :=
  {| m_timer := {| frameCount := 0; timerElapsedSeconds := 0%R |};
     m_camYaw := (-3.0)%R; m_camPitch := 0.37%R;
     m_camRotationMatrix := identity;
     m_camLookTarget := F4 0 0 0 0;
     m_camRight := F4 1 0 0 0;
     m_camUp := F4 0 1 0 0;
     m_camForward := F4 0 0 1 0;
     m_camPosition := F4 0 0 200 0;
     m_worldMatrix := identity; m_viewMatrix := identity;
     m_projectionMatrix := identity;
     m_cbvsrvDescSize := 32; m_cbGpuAddress := 65536;
     m_cbMappedData := fun _ => None;
     m_indexCount := 864 |}.

Definition game1 : Game :=
  set_timer game0 {| frameCount := 1; timerElapsedSeconds := (1 / 60)%R |}.

End GameInputs.

(** ** Reading a fetch *)

Module ShaderObs.
Import Hlsl Shader.

(** The slot of [texMap] a fetch addresses, and the coordinates it samples. *)
Definition fetch_slot (f : Fetch) : Z :=
  match f with
  | FSampleLevel t _ _ => t
  | FSample t _ => t
  | FSampleCmpLevelZero t _ _ => t
  end.

Definition fetch_uv (f : Fetch) : float2 :=
  match f with
  | FSampleLevel _ uv _ => uv
  | FSample _ uv => uv
  | FSampleCmpLevelZero _ uv _ => uv
  end.

(** [Texture2D texMap[5]]: the slots that exist. *)
Definition slot_in_bounds (t : Z) : Prop := (0 <= t < 5)%Z.

Definition in_unit_square (uv : float2) : Prop :=
  (0 <= x2 uv <= 1 /\ 0 <= y2 uv <= 1)%R.

End ShaderObs.

(** ** Game.cpp: window-size resources and device restoration *)

Module GameLifecycle.
Import Hlsl Game.

(** What the handlers read beyond [Externals] and [World]: the projection
    function and constant of DirectXMath and the output size. *)
Record WindowExternals := {
  XMMatrixPerspectiveFovLH : R -> R -> R -> R -> XMMATRIX;
  XM_PIDIV4 : R;
  GetOutputSize_right : Z;
  GetOutputSize_bottom : Z
}.

Definition set_projection (g : Game) (projection : XMMATRIX) : Game :=
  {| m_timer := m_timer g;
     m_camYaw := m_camYaw g; m_camPitch := m_camPitch g;
     m_camRotationMatrix := m_camRotationMatrix g;
     m_camLookTarget := m_camLookTarget g; m_camRight := m_camRight g;
     m_camUp := m_camUp g; m_camForward := m_camForward g;
     m_camPosition := m_camPosition g;
     m_worldMatrix := m_worldMatrix g; m_viewMatrix := m_viewMatrix g;
     m_projectionMatrix := projection;
     m_cbvsrvDescSize := m_cbvsrvDescSize g; m_cbGpuAddress := m_cbGpuAddress g;
     m_cbMappedData := m_cbMappedData g; m_indexCount := m_indexCount g |}.

Section Handlers.
Variable ext : Externals.
Variable w : World.
Variable win : WindowExternals.

(** [void Game::CreateWindowSizeDependentResources()] *)
Definition CreateWindowSizeDependentResources : M unit :=
  (* Initialize the projection matrix *)
  g <- get ;;
  put (set_projection g
         (XMMatrixPerspectiveFovLH win (XM_PIDIV4 win)
            (IZR (GetOutputSize_right win) / IZR (GetOutputSize_bottom win))%R
            0.01%R 100.0%R)) ;;;
  (* The frame index will be reset to zero when the window size changes
     So we need to tell the GPU to signal our fence starting with zero *)
  let currentIdx := to_uint64 (GetCurrentFrameIndex w) in
  call (QueueSignal currentIdx).

(** [void Game::OnDeviceRestored()] *)
Definition OnDeviceRestored : M unit :=
  CreateDeviceDependentResources ext w ;;;
  CreateWindowSizeDependentResources.

End Handlers.

(** The calls of a [CreateDeviceDependentResources] that meets no failure, in
    order, for reference in the statements below. *)
Definition device_setup_calls (ext : Externals) (w : World) : list Call :=
  let cbSize :=
    to_uint64 (to_uint32 (c_numDrawCalls ext * GetBackBufferCount w)
               * sizeof_PaddedConstantBuffer ext) in
  let vertexBufferSize :=
    to_uint64 (to_int32 (sizeof_VertexPositionNormalTexture ext
                         * CreateQuadBox_vertexCount ext)) in
  let indexBufferSize := to_uint64 (to_int32 (2 * CreateQuadBox_indexCount ext)) in
  [ CheckFeatureSupport;
    SerializeRootSignature [DescriptorTableSRV 2 0; RootConstantBufferView 0 0] 1; CreateRootSignature;
    CreateDescriptorHeap 2 true m_srvHeap;
    UploadBegin; CreateDDSTextureFromFile "colormap.dds" m_colorTexResource;
    UploadEndAndWait;
    UploadBegin; CreateDDSTextureFromFile "displacement.dds" m_heightTexResource;
    UploadEndAndWait;
    CreateShaderResourceView m_colorTexResource m_srvHeap 0;
    CreateShaderResourceView m_heightTexResource m_srvHeap 1;
    CreateCommittedResource cbSize m_cbUploadHeap; MapBuffer m_cbUploadHeap;
    ReadData "VertexShader.cso"; ReadData "HullShader.cso";
    ReadData "DomainShader.cso"; ReadData "PixelShader.cso";
    CreateGraphicsPipelineState;
    CreateCommittedResource vertexBufferSize m_vertexBuffer;
    MapBuffer m_vertexBuffer; UnmapBuffer m_vertexBuffer;
    CreateCommittedResource indexBufferSize m_indexBuffer;
    MapBuffer m_indexBuffer; UnmapBuffer m_indexBuffer;
    WaitForGpu; CreateFence (to_uint64 (GetCurrentFrameIndex w)) ].

(** The same surroundings with another keyboard state. *)
Definition with_keyboard (w : World) (kb : KeyboardState) : World :=
  {| keyboard := kb;
     mouse := mouse w;
     elapsedSeconds := elapsedSeconds w;
     GetCurrentFrameIndex := GetCurrentFrameIndex w;
     GetBackBufferCount := GetBackBufferCount w;
     GetCompletedValue := GetCompletedValue w;
     HighestShaderModel := HighestShaderModel w;
     GetDescriptorHandleIncrementSize := GetDescriptorHandleIncrementSize w;
     GetGPUVirtualAddress := GetGPUVirtualAddress w;
     hresult := hresult w |}.

(** Frame index back at 0 after a resize while the fence has completed 7. *)
Definition world_after_reset : World :=
  {| keyboard := keyboard GameInputs.world0;
     mouse := mouse GameInputs.world0;
     elapsedSeconds := elapsedSeconds GameInputs.world0;
     GetCurrentFrameIndex := 0;
     GetBackBufferCount := 2;
     GetCompletedValue := 7;
     HighestShaderModel := 96;
     GetDescriptorHandleIncrementSize := 32;
     GetGPUVirtualAddress := fun _ => 65536%Z;
     hresult := fun _ => 0%Z |}.

(** [world0] with a fence that refuses the event request. *)
Definition world_fence_fails : World :=
  {| keyboard := keyboard GameInputs.world0;
     mouse := mouse GameInputs.world0;
     elapsedSeconds := elapsedSeconds GameInputs.world0;
     GetCurrentFrameIndex := 5;
     GetBackBufferCount := 2;
     GetCompletedValue := 1;
     HighestShaderModel := 96;
     GetDescriptorHandleIncrementSize := 32;
     GetGPUVirtualAddress := fun _ => 65536%Z;
     hresult := fun c => match c with
                         | FenceSetEventOnCompletion _ => (-2147467259)%Z
                         | _ => 0%Z
                         end |}.

(** [world0] on a device that refuses to create the pipeline state, and a
    [Game] whose resource members are still zero. *)
Definition world_pipeline_fails : World :=
  {| keyboard := keyboard GameInputs.world0;
     mouse := mouse GameInputs.world0;
     elapsedSeconds := elapsedSeconds GameInputs.world0;
     GetCurrentFrameIndex := 0;
     GetBackBufferCount := 2;
     GetCompletedValue := 0;
     HighestShaderModel := 96;
     GetDescriptorHandleIncrementSize := 32;
     GetGPUVirtualAddress := fun _ => 65536%Z;
     hresult := fun c => match c with
                         | CreateGraphicsPipelineState => (-2147467259)%Z
                         | _ => 0%Z
                         end |}.

Definition game_fresh : Game := set_resource_members GameInputs.game0 0 0 0.

(** [world0] on a device whose highest shader model is 5.1. *)
Definition world_old_device : World :=
  {| keyboard := keyboard GameInputs.world0;
     mouse := mouse GameInputs.world0;
     elapsedSeconds := elapsedSeconds GameInputs.world0;
     GetCurrentFrameIndex := 0;
     GetBackBufferCount := 2;
     GetCompletedValue := 0;
     HighestShaderModel := 81;
     GetDescriptorHandleIncrementSize := 32;
     GetGPUVirtualAddress := fun _ => 65536%Z;
     hresult := fun _ => 0%Z |}.

(** Nothing pressed, the mouse at rest. *)
Definition idle_keyboard : KeyboardState :=
  {| Escape := false; key_W := false; key_S := false; key_A := false; key_D := false |}.

Definition world_idle : World :=
  {| keyboard := idle_keyboard;
     mouse := {| mouse_x := 0; mouse_y := 0 |};
     elapsedSeconds := elapsedSeconds GameInputs.world0;
     GetCurrentFrameIndex := 0;
     GetBackBufferCount := 2;
     GetCompletedValue := 0;
     HighestShaderModel := 96;
     GetDescriptorHandleIncrementSize := 32;
     GetGPUVirtualAddress := fun _ => 65536%Z;
     hresult := fun _ => 0%Z |}.

(** A window of 1280 by 720; the projection function is a stand-in. *)
Definition win0 : WindowExternals :=
  {| XMMatrixPerspectiveFovLH := fun _ _ _ _ => GameInputs.identity;
     XM_PIDIV4 := (Rtrigo1.PI / 4)%R;
     GetOutputSize_right := 1280;
     GetOutputSize_bottom := 720 |}.

End GameLifecycle.

(* ================================================================== *)
(** * Part II: properties                                              *)
(* ================================================================== *)

(** ** Facts about the intrinsics *)

Module HlslFacts.
Import Hlsl.
Local Open Scope R_scope.

Lemma saturate_range (x : R) : 0 <= saturate x <= 1.
Proof.
  unfold saturate. split.
  - apply Rmax_l.
  - apply Rmax_lub; [lra | apply Rmin_r].
Qed.

Lemma saturate_id (x : R) : 0 <= x <= 1 -> saturate x = x.
Proof.
  intros [H0 H1]. unfold saturate.
  rewrite Rmin_left by assumption. now rewrite Rmax_right.
Qed.

Lemma pow_half_sqrt (s : R) : 0 <= s -> pow s 0.5 = sqrt s.
Proof.
  intros Hs. unfold pow.
  destruct (Rlt_dec 0 s) as [Hpos | Hnpos].
  - replace 0.5 with (/ 2) by lra. now apply Rpower_sqrt.
  - assert (s = 0) by lra. subst s.
    destruct (Req_dec_T 0 0) as [_ | Hne]; [| now elim Hne].
    destruct (Rlt_dec 0 0.5) as [_ | Hn]; [| exfalso; lra].
    now rewrite sqrt_0.
Qed.

Lemma pow_two (y : R) : pow 2 y = Rpower 2 y.
Proof.
  unfold pow. destruct (Rlt_dec 0 2) as [_ | Hn]; [reflexivity | exfalso; lra].
Qed.

Lemma sqrt_unit (s : R) : 0 <= s <= 1 -> 0 <= sqrt s <= 1.
Proof.
  intros [H0 H1]. split; [apply sqrt_pos |].
  rewrite <- sqrt_1. now apply sqrt_le_1_alt.
Qed.

Lemma Rpower_2_range (e : R) : 0 <= e <= 8 -> 1 <= Rpower 2 e <= 256.
Proof.
  intros [H0 H8]. split.
  - rewrite <- (Rpower_O 2) by lra. apply Rle_Rpower; lra.
  - replace 256 with (Rpower 2 (INR 8)).
    + apply Rle_Rpower; [lra |]. simpl. lra.
    + rewrite Rpower_pow by lra. simpl. lra.
Qed.

Lemma atan_sign_neg (t : R) : t <= 0 -> atan t <= 0.
Proof.
  intros [Hlt | ->].
  - rewrite <- atan_0. left. now apply atan_increasing.
  - rewrite atan_0. lra.
Qed.

Lemma atan_sign_pos (t : R) : 0 < t -> 0 < atan t.
Proof. intros Hlt. rewrite <- atan_0. now apply atan_increasing. Qed.

Lemma atan2_range (y x : R) : - PI <= atan2 y x <= PI.
Proof.
  pose proof PI_RGT_0 as Hpi. unfold atan2.
  destruct (Rlt_dec 0 x) as [Hx | Hx].
  - pose proof (atan_bound (y / x)). lra.
  - destruct (Rlt_dec x 0) as [Hx' | Hx'].
    + pose proof (atan_bound (y / x)) as Hb.
      destruct (Rle_dec 0 y) as [Hy | Hy].
      * assert (y / x <= 0).
        { unfold Rdiv. assert (/ x < 0) by now apply Rinv_lt_0_compat. nra. }
        pose proof (atan_sign_neg _ H). lra.
      * assert (0 < y / x).
        { unfold Rdiv. assert (/ x < 0) by now apply Rinv_lt_0_compat. nra. }
        pose proof (atan_sign_pos _ H). lra.
    + destruct (Rlt_dec 0 y); [lra |]. destruct (Rlt_dec y 0); lra.
Qed.

Lemma floor_unit (x : R) : 0 <= x < 1 -> floor x = 0%Z.
Proof.
  intros H. unfold floor. symmetry. apply Int_part_spec. simpl. lra.
Qed.

Lemma round_unit (x : R) : 0 <= x < 1 -> round x = 0%Z \/ round x = 1%Z.
Proof.
  intros H. unfold round, frac. rewrite (floor_unit x H). simpl.
  destruct (Rlt_dec _ _); [now left |].
  destruct (Rlt_dec _ _); [now right | now left].
Qed.

Lemma round_low (x : R) : 0 <= x < 1 / 2 -> round x = 0%Z.
Proof.
  intros H. unfold round, frac. rewrite floor_unit by lra. simpl.
  destruct (Rlt_dec _ _) as [_ | Hn]; [reflexivity | exfalso; lra].
Qed.

Lemma round_high (x : R) : 1 / 2 < x < 1 -> round x = 1%Z.
Proof.
  intros H. unfold round, frac. rewrite floor_unit by lra. simpl.
  destruct (Rlt_dec _ _) as [Hl | _]; [exfalso; lra |].
  destruct (Rlt_dec _ _) as [_ | Hn]; [reflexivity | exfalso; lra].
Qed.

Lemma sign_minus_one (x : R) : (sign x =? -1)%Z = true <-> x < 0.
Proof.
  unfold sign. destruct (Rlt_dec x 0) as [H | H].
  - split; [intros _; assumption | reflexivity].
  - destruct (Rlt_dec 0 x); simpl; split; intros; try discriminate; lra.
Qed.
End HlslFacts.

(** ** The tessellation stage *)

Module ShaderFacts.
Import Hlsl Shader ShaderSpec HlslFacts Inputs.
Local Open Scope R_scope.

(** [CalcTessFactor] is the distance formula, at the distance from its
    argument to the camera. *)
Lemma CalcTessFactor_formula (env : Resources) (p : float3) :
  CalcTessFactor env p = tess_formula (distance3 p (xyz (cameraPosition (cb env)))).
Proof.
  unfold CalcTessFactor, tess_formula, near, far.
  rewrite pow_two, pow_half_sqrt by apply saturate_range.
  reflexivity.
Qed.

Lemma tess_formula_range (d : R) : 1 <= tess_formula d <= 256.
Proof.
  unfold tess_formula. apply Rpower_2_range.
  pose proof (sqrt_unit _ (saturate_range ((d - 20) / (150 - 20)))). lra.
Qed.

Lemma ds_level_range (t : R) (es ins : list R) :
  1 <= t <= 256 -> 0 <= ds_level {| edgeTess := t :: es; insideTess := ins |} <= 4.
Proof.
  intros [H1 H256]. unfold ds_level. simpl.
  assert (Hs : 1 <= sqrt t) by (rewrite <- sqrt_1; apply sqrt_le_1_alt; lra).
  split; [apply Rmax_l | apply Rmax_lub; lra].
Qed.

(** C10: for every point [p], [CalcTessFactor] returns a value in [[1, 256]],
    and for a patch whose first edge factor is such a value the height-map LOD
    level [max(0, 8 - sqrt(tess) - 3)] of the domain shader lies in [[0, 4]],
    inside the range 0..5 of the source comment. *)
Theorem C10_tess_factor_and_level_range
    (env : Resources) (p : float3) (es ins : list R) :
  1 <= CalcTessFactor env p <= 256 /\
  0 <= ds_level {| edgeTess := CalcTessFactor env p :: es; insideTess := ins |} <= 4 /\
  ds_level {| edgeTess := CalcTessFactor env p :: es; insideTess := ins |} <= 5.
Proof.
  assert (Hr : 1 <= CalcTessFactor env p <= 256)
    by (rewrite CalcTessFactor_formula; apply tess_formula_range).
  pose proof (ds_level_range _ es ins Hr) as Hl.
  repeat split; try tauto; lra.
Qed.

(** The factors [ConstantHS] writes: the formula at the distances to the
    points [hs_e0 .. hs_e3] and [hs_c], with both inside factors equal. *)
Lemma ConstantHS_factors (env : Resources) (patch : Patch4 VS_OUTPUT) (patchID : Z) :
  let cam := xyz (cameraPosition (cb env)) in
  edgeTess (ConstantHS env patch patchID) =
    [ tess_formula (distance3 (hs_e0 patch) cam);
      tess_formula (distance3 (hs_e1 patch) cam);
      tess_formula (distance3 (hs_e2 patch) cam);
      tess_formula (distance3 (hs_e3 patch) cam) ] /\
  insideTess (ConstantHS env patch patchID) =
    [ tess_formula (distance3 (hs_c env patch) cam);
      tess_formula (distance3 (hs_c env patch) cam) ].
Proof.
  unfold ConstantHS; simpl. now rewrite !CalcTessFactor_formula.
Qed.

(** With [w = 0] the four-component normalisation is the three-component
    one, and the control point lands on the sphere's projection. *)
Lemma hs_p_project150 (patch : Patch4 VS_OUTPUT) (i : nat) :
  w4 (vs_position (cp patch i)) = 0 ->
  hs_p patch i = project150 (xyz (vs_position (cp patch i))).
Proof.
  intros Hw. unfold hs_p, project150, normalize4, normalize3, length4, length3,
    dot4, dot3, scale4, scale3, xyz. simpl. rewrite Hw.
  replace (x4 (vs_position (cp patch i)) * x4 (vs_position (cp patch i)) +
           y4 (vs_position (cp patch i)) * y4 (vs_position (cp patch i)) +
           z4 (vs_position (cp patch i)) * z4 (vs_position (cp patch i)) + 0 * 0)
    with (x4 (vs_position (cp patch i)) * x4 (vs_position (cp patch i)) +
          y4 (vs_position (cp patch i)) * y4 (vs_position (cp patch i)) +
          z4 (vs_position (cp patch i)) * z4 (vs_position (cp patch i))) by ring.
  reflexivity.
Qed.

(** On control points with [w = 0] the hull constant function is the one the
    specification describes. *)
Lemma ConstantHS_spec_when_w_zero
    (env : Resources) (patch : Patch4 VS_OUTPUT) (patchID : Z) :
  (forall i, w4 (vs_position (cp patch i)) = 0) ->
  ConstantHS env patch patchID = spec_ConstantHS env patch.
Proof.
  intros Hw. unfold ConstantHS, spec_ConstantHS.
  rewrite !CalcTessFactor_formula.
  unfold hs_e0, hs_e1, hs_e2, hs_e3, edge_midpoint.
  now rewrite !hs_p_project150 by apply Hw.
Qed.

Lemma tess_formula_decreasing (d1 d2 : R) :
  20 <= d1 -> d1 < d2 -> d2 <= 150 -> tess_formula d2 < tess_formula d1.
Proof.
  intros Hlo Hlt Hhi. unfold tess_formula.
  rewrite !saturate_id by (split; lra).
  apply Rpower_lt; [lra |].
  assert (sqrt ((d1 - 20) / (150 - 20)) < sqrt ((d2 - 20) / (150 - 20)))
    by (apply sqrt_lt_1_alt; lra).
  lra.
Qed.

Lemma sqrt_between (lo x hi : R) :
  0 <= lo -> lo * lo < x -> x < hi * hi -> 0 <= hi -> lo < sqrt x < hi.
Proof.
  intros Hlo H1 H2 Hhi. split.
  - rewrite <- (sqrt_square lo) by assumption. apply sqrt_lt_1_alt.
    split; [nra | assumption].
  - rewrite <- (sqrt_square hi) by assumption. apply sqrt_lt_1_alt.
    split; [| assumption]. nra.
Qed.

Lemma distance3_on_x_axis (a c : R) :
  a <= c -> distance3 (F3 a 0 0) (F3 c 0 0) = c - a.
Proof.
  intros Hle. unfold distance3, length3, dot3, sub3. simpl.
  replace ((a - c) * (a - c) + (0 - 0) * (0 - 0) + (0 - 0) * (0 - 0))
    with ((c - a) * (c - a)) by ring.
  apply sqrt_square. lra.
Qed.

(** *** Polar texture coordinates *)

Lemma PI_below_macro : Rtrigo1.PI < 2 * PI.
Proof. pose proof PI_4. unfold PI. lra. Qed.

Lemma polar_theta_range (n : float3) : 0 <= polar_theta n < 2 * PI.
Proof.
  pose proof PI_below_macro as Hm. pose proof PI_RGT_0 as Hpi.
  pose proof (atan2_range (z3 n) (x3 n)) as Hr.
  unfold polar_theta.
  destruct (sign (atan2 (z3 n) (x3 n)) =? -1)%Z eqn:Hs.
  - apply sign_minus_one in Hs. lra.
  - assert (~ atan2 (z3 n) (x3 n) < 0).
    { intros Hneg. apply sign_minus_one in Hneg. congruence. }
    lra.
Qed.

Lemma gTexCoord_x_range (n : float3) : 0 <= x2 (gTexCoord_of n) < 1.
Proof.
  pose proof (polar_theta_range n) as [H0 H1]. unfold gTexCoord_of. simpl.
  assert (Hp : 0 < 2 * PI) by (unfold PI; lra).
  split.
  - apply Rmult_le_reg_r with (2 * PI); [assumption |].
    unfold Rdiv. rewrite Rmult_assoc, Rinv_l by lra. lra.
  - apply Rmult_lt_reg_r with (2 * PI); [assumption |].
    unfold Rdiv. rewrite Rmult_assoc, Rinv_l by lra. lra.
Qed.

Lemma ds_texIndex_cases (n : float3) :
  ds_texIndex (gTexCoord_of n) = 2%Z \/ ds_texIndex (gTexCoord_of n) = 3%Z.
Proof.
  unfold ds_texIndex.
  destruct (round_unit _ (gTexCoord_x_range n)) as [-> | ->]; [now left | now right].
Qed.

Lemma ds_sTexCoord (n : float3) :
  sTexCoord_of (ds_texIndex (gTexCoord_of n)) (gTexCoord_of n)
  = F2 ((x2 (gTexCoord_of n) - 0.5) * 2.0) (y2 (gTexCoord_of n)).
Proof.
  unfold sTexCoord_of.
  destruct (ds_texIndex_cases n) as [-> | ->]; reflexivity.
Qed.

Lemma DS_fetches (env : Resources) (input : Patch4 HS_OUT) (uv : float2) (patch : PatchTess) :
  let g := gTexCoord_of (normalize3 (ds_position_of input uv)) in
  fetches (DS env input uv patch)
  = [ FSampleLevel (texMap (ds_texIndex g)) (sTexCoord_of (ds_texIndex g) g)
        (ds_level patch) ].
Proof. reflexivity. Qed.

Lemma normalize3_x_axis : normalize3 (F3 1 0 0) = F3 1 0 0.
Proof.
  unfold normalize3, length3, dot3. simpl.
  replace (1 * 1 + 0 * 0 + 0 * 0) with 1 by lra. rewrite sqrt_1.
  f_equal; lra.
Qed.

Lemma normalize3_minus_z_axis : normalize3 (F3 0 0 (-1)) = F3 0 0 (-1).
Proof.
  unfold normalize3, length3, dot3. simpl.
  replace (0 * 0 + 0 * 0 + -1 * -1) with 1 by lra. rewrite sqrt_1.
  f_equal; lra.
Qed.

Lemma gTexCoord_x_axis : x2 (gTexCoord_of (F3 1 0 0)) = 0.
Proof.
  unfold gTexCoord_of, polar_theta, atan2. simpl.
  destruct (Rlt_dec 0 1) as [_ | Hn]; [| exfalso; lra].
  replace (0 / 1) with 0 by lra. rewrite atan_0.
  unfold sign. destruct (Rlt_dec 0 0) as [Hn | _]; [exfalso; lra |].
  simpl. lra.
Qed.

Lemma gTexCoord_minus_z_axis : 1 / 2 < x2 (gTexCoord_of (F3 0 0 (-1))) < 1.
Proof.
  pose proof PI_4 as H4. pose proof PI_RGT_0 as Hpi.
  split; [| apply gTexCoord_x_range].
  unfold gTexCoord_of, polar_theta, atan2. simpl.
  destruct (Rlt_dec 0 0) as [Hn | _]; [exfalso; lra |].
  destruct (Rlt_dec 0 (-1)) as [Hn | _]; [exfalso; lra |].
  destruct (Rlt_dec (-1) 0) as [_ | Hn]; [| exfalso; lra].
  destruct (sign (- Rtrigo1.PI / 2) =? -1)%Z eqn:Hs.
  - unfold PI. lra.
  - assert (Hneg : - Rtrigo1.PI / 2 < 0) by lra.
    apply sign_minus_one in Hneg. congruence.
Qed.

(** C9: in the domain shader [texIndex = round(gTexCoord.x) + 2] is 2 or 3 at
    every domain location, because [gTexCoord.x] lies in [[0, 1)]; the test
    [texIndex == 0] is false, [sTexCoord.x] is [(gTexCoord.x - 0.5) * 2] and
    the fetch uses it.  In the pixel shader, where [texIndex] has no [+ 2],
    both branches are taken: at [(1, 0, 0)] the first, at [(0, 0, -1)] the
    second. *)
Theorem C9_ds_texIndex_branch_unreachable
    (env : Resources) (input : Patch4 HS_OUT) (uv : float2) (patch : PatchTess) :
  let g := gTexCoord_of (normalize3 (ds_position_of input uv)) in
  0 <= x2 g < 1 /\
  (ds_texIndex g = 2%Z \/ ds_texIndex g = 3%Z) /\
  (ds_texIndex g =? 0)%Z = false /\
  x2 (sTexCoord_of (ds_texIndex g) g) = (x2 g - 0.5) * 2.0 /\
  fetches (DS env input uv patch)
    = [ FSampleLevel (texMap (ds_texIndex g)) (F2 ((x2 g - 0.5) * 2.0) (y2 g))
          (ds_level patch) ] /\
  (exists d : DS_OUT,
     let g' := gTexCoord_of (normalize3 (catPos d)) in
     ps_texIndex g' = 0%Z /\
     x2 (sTexCoord_of (ps_texIndex g') g') = x2 g' * 2) /\
  (exists d : DS_OUT,
     let g' := gTexCoord_of (normalize3 (catPos d)) in
     ps_texIndex g' = 1%Z /\
     x2 (sTexCoord_of (ps_texIndex g') g') = (x2 g' - 0.5) * 2.0).
Proof.
  intros g. subst g.
  set (n := normalize3 (ds_position_of input uv)).
  split; [apply gTexCoord_x_range |].
  split; [apply ds_texIndex_cases |].
  split; [destruct (ds_texIndex_cases n) as [-> | ->]; reflexivity |].
  split; [now rewrite ds_sTexCoord |].
  split; [rewrite <- ds_sTexCoord; apply DS_fetches |].
  split.
  - exists {| ds_position := F4 0 0 0 1; catPos := F3 1 0 0 |}. simpl.
    rewrite normalize3_x_axis.
    assert (Hi : ps_texIndex (gTexCoord_of (F3 1 0 0)) = 0%Z).
    { unfold ps_texIndex. rewrite gTexCoord_x_axis. apply round_low. lra. }
    split; [exact Hi |]. unfold sTexCoord_of. now rewrite Hi.
  - exists {| ds_position := F4 0 0 0 1; catPos := F3 0 0 (-1) |}. simpl.
    rewrite normalize3_minus_z_axis.
    assert (Hi : ps_texIndex (gTexCoord_of (F3 0 0 (-1))) = 1%Z).
    { unfold ps_texIndex. apply round_high, gTexCoord_minus_z_axis. }
    split; [exact Hi |]. unfold sTexCoord_of. now rewrite Hi.
Qed.

(** *** The domain shader

    C2: at every domain location the domain shader issues exactly one texture
    fetch, a [SampleLevel] of a height texture (slot 2 or 3 of [texMap]) whose
    mip level is [max(0, 8 - sqrt(tess) - 3)] for [tess = patch.edgeTess[0]];
    the fractional level handed to the sampler is the only level-of-detail
    blending. *)
Theorem C2_ds_single_height_lookup
    (env : Resources) (input : Patch4 HS_OUT) (uv : float2) (patch : PatchTess) :
  let tess := nth 0 (edgeTess patch) 0 in
  exists (t : Texture2D) (st : float2),
    fetches (DS env input uv patch)
      = [ FSampleLevel t st (Rmax 0 (8 - sqrt tess - 3)) ] /\
    (t = texMap 2 \/ t = texMap 3) /\
    List.length (fetches (DS env input uv patch)) = 1%nat.
Proof.
  intros tess.
  set (g := gTexCoord_of (normalize3 (ds_position_of input uv))).
  exists (texMap (ds_texIndex g)), (sTexCoord_of (ds_texIndex g) g).
  split; [apply DS_fetches |].
  split; [| reflexivity].
  unfold texMap. apply ds_texIndex_cases.
Qed.

Lemma length3_scale3 (k : R) (v : float3) :
  length3 (scale3 k v) = Rabs k * length3 v.
Proof.
  unfold length3, dot3, scale3. simpl.
  replace (k * x3 v * (k * x3 v) + k * y3 v * (k * y3 v) + k * z3 v * (k * z3 v))
    with (k² * (x3 v * x3 v + y3 v * y3 v + z3 v * z3 v)) by (unfold Rsqr; ring).
  rewrite sqrt_mult_alt by apply Rle_0_sqr.
  now rewrite sqrt_Rsqr_abs.
Qed.

Lemma normalize3_scale3 (v : float3) : normalize3 v = scale3 (/ length3 v) v.
Proof. unfold normalize3, scale3. f_equal; unfold Rdiv; ring. Qed.

Lemma length3_nonneg (v : float3) : 0 <= length3 v.
Proof. apply sqrt_pos. Qed.

Lemma length3_normalize3 (v : float3) :
  length3 v <> 0 -> length3 (normalize3 v) = 1.
Proof.
  intros Hne. pose proof (length3_nonneg v) as Hge.
  rewrite normalize3_scale3, length3_scale3.
  rewrite Rabs_right.
  - now apply Rinv_l.
  - apply Rle_ge. left. apply Rinv_0_lt_compat. lra.
Qed.

Lemma DS_value (env : Resources) (input : Patch4 HS_OUT) (uv : float2) (patch : PatchTess) :
  let n := normalize3 (ds_position_of input uv) in
  let g := gTexCoord_of n in
  let h := texSampleLevel (texels env (texMap (ds_texIndex g))) samAnisotropic
             (sTexCoord_of (ds_texIndex g) g) (ds_level patch) in
  let c := scale3 (150 + red h * 0.5) n in
  value (DS env input uv patch)
  = {| ds_position :=
         mul4 (mul4 (float4_of c 1) (worldMatrix (cb env))) (viewProjMatrix (cb env));
       catPos := c |}.
Proof. reflexivity. Qed.

Lemma polar_theta_eq (n : float3) :
  polar_theta n
  = if Rlt_dec (atan2 (z3 n) (x3 n)) 0
    then 2 * 3.1415926538 + atan2 (z3 n) (x3 n)
    else atan2 (z3 n) (x3 n).
Proof.
  unfold polar_theta, sign, PI.
  destruct (Rlt_dec (atan2 (z3 n) (x3 n)) 0); [reflexivity |].
  destruct (Rlt_dec 0 (atan2 (z3 n) (x3 n))); reflexivity.
Qed.

Lemma gTexCoord_of_eq (n : float3) :
  let a := atan2 (z3 n) (x3 n) in
  let theta := if Rlt_dec a 0 then 2 * 3.1415926538 + a else a in
  gTexCoord_of n = F2 (theta / (2 * 3.1415926538)) (acos (y3 n) / 3.1415926538).
Proof. unfold gTexCoord_of, polar_phi. rewrite polar_theta_eq. reflexivity. Qed.

Lemma mul4_rows (v : float4) (m : float4x4) :
  mul4 v m
  = F4 (x4 v * x4 (r4_0 m) + y4 v * x4 (r4_1 m) + z4 v * x4 (r4_2 m) + w4 v * x4 (r4_3 m))
       (x4 v * y4 (r4_0 m) + y4 v * y4 (r4_1 m) + z4 v * y4 (r4_2 m) + w4 v * y4 (r4_3 m))
       (x4 v * z4 (r4_0 m) + y4 v * z4 (r4_1 m) + z4 v * z4 (r4_2 m) + w4 v * z4 (r4_3 m))
       (x4 v * w4 (r4_0 m) + y4 v * w4 (r4_1 m) + z4 v * w4 (r4_2 m) + w4 v * w4 (r4_3 m)).
Proof. unfold mul4, add4, scale4. simpl. f_equal; ring. Qed.

(** C3: at every domain location [(u, v)] the domain shader interpolates the
    four control points bilinearly ([lerp] of the two [lerp]s along [u], along
    [v]), divides the result by its length, and scales it by
    [150 + height * 0.5].  [height] is the red channel of the one texel it
    fetches: from slot [round(gx) + 2] (2 or 3) of [texMap], at
    [((gx - 0.5) * 2, gy)] and the level of C2, where
    [gx = theta / (2 * 3.1415926538)], [gy = acos(n.y) / 3.1415926538] and
    [theta] is [atan2(n.z, n.x)], moved up by [2 * 3.1415926538] when
    negative.  The clip-space position is the row vector [(catPos, 1)] times
    the world matrix, times the view-projection matrix.  Unless the
    interpolated position is the origin, the displaced point is at distance
    [|150 + height * 0.5|] from the origin. *)
Theorem C3_ds_displaces_onto_sphere
    (env : Resources) (input : Patch4 HS_OUT) (uv : float2) (patch : PatchTess) :
  let p0 := hs_position (cp0 input) in
  let p1 := hs_position (cp1 input) in
  let p2 := hs_position (cp2 input) in
  let p3 := hs_position (cp3 input) in
  let u := x2 uv in
  let v := y2 uv in
  let px := (x3 p0 * (1 - u) + x3 p1 * u) * (1 - v) + (x3 p2 * (1 - u) + x3 p3 * u) * v in
  let py := (y3 p0 * (1 - u) + y3 p1 * u) * (1 - v) + (y3 p2 * (1 - u) + y3 p3 * u) * v in
  let pz := (z3 p0 * (1 - u) + z3 p1 * u) * (1 - v) + (z3 p2 * (1 - u) + z3 p3 * u) * v in
  let len := sqrt (px * px + py * py + pz * pz) in
  let nx := px / len in
  let ny := py / len in
  let nz := pz / len in
  let a := atan2 nz nx in
  let theta := if Rlt_dec a 0 then 2 * 3.1415926538 + a else a in
  let gx := theta / (2 * 3.1415926538) in
  let gy := acos ny / 3.1415926538 in
  let slot := (round gx + 2)%Z in
  let st := F2 ((gx - 0.5) * 2.0) gy in
  let level := Rmax 0 (8 - sqrt (nth 0 (edgeTess patch) 0) - 3) in
  let height := x4 (texSampleLevel (texels env slot) samAnisotropic st level) in
  let k := 150 + height * 0.5 in
  let rows (r : float4) (m : float4x4) :=
    F4 (x4 r * x4 (r4_0 m) + y4 r * x4 (r4_1 m) + z4 r * x4 (r4_2 m) + w4 r * x4 (r4_3 m))
       (x4 r * y4 (r4_0 m) + y4 r * y4 (r4_1 m) + z4 r * y4 (r4_2 m) + w4 r * y4 (r4_3 m))
       (x4 r * z4 (r4_0 m) + y4 r * z4 (r4_1 m) + z4 r * z4 (r4_2 m) + w4 r * z4 (r4_3 m))
       (x4 r * w4 (r4_0 m) + y4 r * w4 (r4_1 m) + z4 r * w4 (r4_2 m) + w4 r * w4 (r4_3 m)) in
  let out := value (DS env input uv patch) in
  fetches (DS env input uv patch) = [ FSampleLevel slot st level ] /\
  (slot = 2 \/ slot = 3)%Z /\
  catPos out = F3 (k * nx) (k * ny) (k * nz) /\
  ds_position out
    = rows (rows (F4 (k * nx) (k * ny) (k * nz) 1) (worldMatrix (cb env)))
        (viewProjMatrix (cb env)) /\
  (len <> 0 ->
   sqrt (x3 (catPos out) * x3 (catPos out) + y3 (catPos out) * y3 (catPos out)
         + z3 (catPos out) * z3 (catPos out)) = Rabs k).
Proof.
  intros p0 p1 p2 p3 u v px py pz len nx ny nz a theta gx gy slot st level height k
    rows out.
  set (n := normalize3 (ds_position_of input uv)).
  assert (Hn : n = F3 nx ny nz) by reflexivity.
  assert (Hg : gTexCoord_of n = F2 gx gy).
  { rewrite gTexCoord_of_eq, Hn. reflexivity. }
  assert (Hslot : ds_texIndex (gTexCoord_of n) = slot) by (now rewrite Hg).
  assert (Hst : sTexCoord_of (ds_texIndex (gTexCoord_of n)) (gTexCoord_of n) = st).
  { rewrite ds_sTexCoord, Hg. reflexivity. }
  assert (Hf : fetches (DS env input uv patch) = [ FSampleLevel slot st level ]).
  { rewrite DS_fetches. fold n. rewrite Hst, Hslot. reflexivity. }
  assert (Hc : catPos out = F3 (k * nx) (k * ny) (k * nz)).
  { subst out. rewrite DS_value. cbn [catPos]. fold n. rewrite Hst, Hslot, Hn.
    reflexivity. }
  split; [exact Hf |].
  split; [rewrite <- Hslot; apply ds_texIndex_cases |].
  split; [exact Hc |].
  split.
  - subst out rows. cbv beta. rewrite <- !mul4_rows, DS_value. cbn [ds_position].
    fold n. rewrite Hst, Hslot, Hn. reflexivity.
  - intros Hlen. rewrite Hc. cbn [x3 y3 z3].
    change (sqrt (k * nx * (k * nx) + k * ny * (k * ny) + k * nz * (k * nz)))
      with (length3 (scale3 k n)).
    rewrite length3_scale3. unfold n. rewrite length3_normalize3; [ring | exact Hlen].
Qed.

(** C3 at the centre [uv = (0.5, 0.5)] of the face patch, over the ramp
    texture: the interpolated position is [(150, 0, 25)], the angle
    [atan(1/6)], the polar angle a right angle, the level 1, and the fetch
    goes to slot 2. *)
Lemma C3_ds_on_sphere_witness :
  let gx := atan (1 / 6) / (2 * PI) in
  let gy := Rtrigo1.PI / 2 / PI in
  let height := (gx - 0.5) * 2.0 + gy + 1 in
  fetches (DS env_ramp face_patch_hs (F2 0.5 0.5) tess16)
    = [ FSampleLevel (texMap 2) (F2 ((gx - 0.5) * 2.0) gy) 1 ] /\
  length3 (catPos (value (DS env_ramp face_patch_hs (F2 0.5 0.5) tess16)))
    = 150 + height * 0.5.
Proof.
  intros gx gy height.
  pose proof (C3_ds_displaces_onto_sphere env_ramp face_patch_hs (F2 0.5 0.5) tess16)
    as H.
  cbv zeta in H.
  cbn [face_patch_hs hs_position cp0 cp1 cp2 cp3 x2 y2 x3 y3 z3 tess16 edgeTess nth
       env_ramp texels ramp_texture texSampleLevel x4] in H.
  replace ((150 * (1 - 0.5) + 150 * 0.5) * (1 - 0.5)
           + (150 * (1 - 0.5) + 150 * 0.5) * 0.5) with 150 in H by lra.
  replace ((50 * (1 - 0.5) + 50 * 0.5) * (1 - 0.5)
           + (-50 * (1 - 0.5) + -50 * 0.5) * 0.5) with 0 in H by lra.
  replace ((0 * (1 - 0.5) + 50 * 0.5) * (1 - 0.5)
           + (0 * (1 - 0.5) + 50 * 0.5) * 0.5) with 25 in H by lra.
  replace (150 * 150 + 0 * 0 + 25 * 25) with 23125 in H by lra.
  assert (Hs : 0 < sqrt 23125) by (apply sqrt_lt_R0; lra).
  replace (0 / sqrt 23125) with 0 in H by lra.
  rewrite acos_0 in H.
  assert (Ha : atan2 (25 / sqrt 23125) (150 / sqrt 23125) = atan (1 / 6)).
  { unfold atan2.
    destruct (Rlt_dec 0 (150 / sqrt 23125)) as [_ | Hn].
    - f_equal. field. lra.
    - exfalso. apply Hn. apply Rdiv_lt_0_compat; lra. }
  rewrite Ha in H.
  assert (Hpos : 0 < atan (1 / 6)).
  { rewrite <- atan_0. apply atan_increasing. lra. }
  destruct (Rlt_dec (atan (1 / 6)) 0) as [Hneg | _]; [exfalso; lra |].
  assert (Hgx : 0 <= atan (1 / 6) / (2 * 3.1415926538) < 1 / 2).
  { pose proof (atan_bound (1 / 6)) as [_ Hup]. pose proof PI_below_macro as Hm.
    unfold PI in Hm. split.
    - apply Rmult_le_reg_r with (2 * 3.1415926538); [lra |].
      unfold Rdiv. rewrite Rmult_assoc, Rinv_l by lra. lra.
    - apply Rmult_lt_reg_r with (2 * 3.1415926538); [lra |].
      unfold Rdiv at 1. rewrite Rmult_assoc, Rinv_l by lra. lra. }
  rewrite (round_low _ Hgx) in H.
  replace (sqrt 16) with 4 in H
    by (replace 16 with (4 * 4) by lra; now rewrite sqrt_square by lra).
  replace (Rmax 0 (8 - 4 - 3)) with 1 in H by (rewrite Rmax_right; lra).
  destruct H as (Hf & _ & _ & _ & Hsphere).
  split; [exact Hf |].
  unfold length3, dot3. rewrite Hsphere by lra.
  assert (Hgy : 0 < Rtrigo1.PI / 2 / 3.1415926538).
  { pose proof PI_RGT_0. apply Rdiv_lt_0_compat; lra. }
  subst height gx gy. unfold PI. rewrite Rabs_right; lra.
Defined.

(** *** The pixel stage *)

Lemma value_bind {A B : Type} (m : Sh A) (f : A -> Sh B) :
  value (bind m f) = value (f (value m)).
Proof. destruct m as [a l]. unfold bind, value. simpl. now destruct (f a). Qed.

Lemma fetches_bind {A B : Type} (m : Sh A) (f : A -> Sh B) :
  fetches (bind m f) = fetches m ++ fetches (f (value m)).
Proof. destruct m as [a l]. unfold bind, fetches, value. simpl. now destruct (f a). Qed.

Section Shadow.
Variable env : Resources.
Variables (xy : float2) (depth : R).

Let coord (o : float2) : float2 := saturate2 (add2 xy o).
Let sample (uv : float2) : R :=
  texSampleCmpLevelZero (texels env (texMap 4)) samShadow uv depth.

Lemma shadow_loop_fetches (offsets : list float2) (acc : R) :
  fetches (shadow_loop env xy depth offsets acc)
  = map (fun o => FSampleCmpLevelZero (texMap 4) (coord o) depth) offsets.
Proof.
  revert acc. induction offsets as [| o rest IH]; intros acc; [reflexivity |].
  cbn [shadow_loop map]. rewrite fetches_bind, IH. reflexivity.
Qed.

Lemma shadow_loop_value (offsets : list float2) (acc : R) :
  value (shadow_loop env xy depth offsets acc)
  = acc + fold_right Rplus 0 (map (fun o => sample (coord o)) offsets).
Proof.
  revert acc. induction offsets as [| o rest IH]; intros acc.
  - simpl. unfold value, ret. simpl. lra.
  - cbn [shadow_loop map fold_right]. rewrite value_bind, IH.
    unfold SampleCmpLevelZero, value, sample, coord. simpl. lra.
Qed.

End Shadow.

Lemma shadow_offsets_grid (dx : R) :
  shadow_offsets dx
  = [ F2 (- dx) (- dx); F2 0 (- dx); F2 dx (- dx);
      F2 (- dx) 0;      F2 0 0;      F2 dx 0;
      F2 (- dx) dx;     F2 0 dx;     F2 dx dx ].
Proof. unfold shadow_offsets. replace 0.0 with 0 by lra. reflexivity. Qed.

Lemma CalcShadowFactor_fetches (env : Resources) (shadowPosH : float4) :
  let xy := F2 (x4 shadowPosH / w4 shadowPosH) (y4 shadowPosH / w4 shadowPosH) in
  let depth := z4 shadowPosH / w4 shadowPosH - shadowBias (cb env) in
  let dx := 1 / IZR (texWidth (texels env (texMap 4))) in
  fetches (CalcShadowFactor env shadowPosH)
  = map (fun o => FSampleCmpLevelZero (texMap 4) (saturate2 (add2 xy o)) depth)
        (shadow_offsets dx).
Proof.
  intros xy depth dx. unfold CalcShadowFactor. unfold xy4. cbn [x4 y4 z4 w4].
  replace (1.0 / IZR (texWidth (texels env (texMap 4)))) with dx
    by (subst dx; f_equal; lra).
  rewrite fetches_bind, shadow_loop_fetches.
  change (fetches (ret ?a)) with (@nil Fetch).
  now rewrite app_nil_r.
Qed.

Lemma CalcShadowFactor_value (env : Resources) (shadowPosH : float4) :
  let xy := F2 (x4 shadowPosH / w4 shadowPosH) (y4 shadowPosH / w4 shadowPosH) in
  let depth := z4 shadowPosH / w4 shadowPosH - shadowBias (cb env) in
  let dx := 1 / IZR (texWidth (texels env (texMap 4))) in
  value (CalcShadowFactor env shadowPosH)
  = fold_right Rplus 0
      (map (fun o => texSampleCmpLevelZero (texels env (texMap 4)) samShadow
                       (saturate2 (add2 xy o)) depth)
           (shadow_offsets dx)) / 9.
Proof.
  intros xy depth dx. unfold CalcShadowFactor. unfold xy4. cbn [x4 y4 z4 w4].
  replace (1.0 / IZR (texWidth (texels env (texMap 4)))) with dx
    by (subst dx; f_equal; lra).
  rewrite value_bind, shadow_loop_value.
  change (value (ret ?a)) with a.
  replace 9.0 with 9 by lra. replace 0.0 with 0 by lra.
  now rewrite Rplus_0_l.
Qed.

(** C5 (amended): [CalcShadowFactor] returns the arithmetic mean of exactly
    nine depth-comparison samples of the shadow map [texMap[4]], each compared
    against the NDC depth [z/w] minus the shadow bias: the sum of the nine
    samples divided by 9.  The samples are taken at the projected shadow
    position [xy/w] offset by the 3x3 grid of one-texel offsets (texel size
    [1/width]) and then clamped to [[0, 1]] in each coordinate by
    [saturate]. *)
Theorem C5_shadow_factor_mean_of_nine (env : Resources) (shadowPosH : float4) :
  let xy := F2 (x4 shadowPosH / w4 shadowPosH) (y4 shadowPosH / w4 shadowPosH) in
  let depth := z4 shadowPosH / w4 shadowPosH - shadowBias (cb env) in
  let dx := 1 / IZR (texWidth (texels env (texMap 4))) in
  let grid := [ F2 (- dx) (- dx); F2 0 (- dx); F2 dx (- dx);
                F2 (- dx) 0;      F2 0 0;      F2 dx 0;
                F2 (- dx) dx;     F2 0 dx;     F2 dx dx ] in
  let coords := map (fun o => saturate2 (add2 xy o)) grid in
  let sample uv := texSampleCmpLevelZero (texels env (texMap 4)) samShadow uv depth in
  List.length coords = 9%nat /\
  fetches (CalcShadowFactor env shadowPosH)
    = map (fun uv => FSampleCmpLevelZero (texMap 4) uv depth) coords /\
  value (CalcShadowFactor env shadowPosH)
    = fold_right Rplus 0 (map sample coords) / 9.
Proof.
  intros xy depth dx grid coords sample.
  split; [reflexivity |].
  subst coords grid. rewrite <- shadow_offsets_grid, !map_map.
  split; [apply CalcShadowFactor_fetches | apply CalcShadowFactor_value].
Qed.

(** C5 as stated fails: for a shadow position outside the unit square the
    samples are not taken at the offset positions but at their clamped
    images.  At [xy/w = (2, 2)] the first sample is taken at [(1, 1)], not at
    [(2 - dx, 2 - dx)]. *)
Lemma C5_shadow_samples_are_clamped :
  fetches (CalcShadowFactor env0 (F4 2 2 0.5 1))
  <> spec_shadow_fetches env0 (F4 2 2 0.5 1).
Proof.
  rewrite CalcShadowFactor_fetches.
  unfold spec_shadow_fetches, shadow_offsets. simpl.
  intros Heq. injection Heq as Hx _. clear - Hx.
  unfold saturate in Hx.
  rewrite Rmin_right in Hx by lra. rewrite Rmax_right in Hx by lra. lra.
Qed.

Section NormalFromHeight.
Variable env : Resources.
Variables (tex : Texture2D) (st : float2) (m : R).

Let texel : R := m / 11520.
Let left_uv : float2 := F2 (x2 st - texel) (y2 st).
Let right_uv : float2 := F2 (x2 st + texel) (y2 st).
Let up_uv : float2 := F2 (x2 st) (y2 st - texel).
Let down_uv : float2 := F2 (x2 st) (y2 st + texel).
Let height (uv : float2) : R := red (texSample (texels env tex) samAnisotropic uv).

Lemma GetNormalFromHeight_offsets :
  add2 st (scale2 m (F2 (x3 off / x2 nTex) (y3 off / y2 nTex))) = left_uv /\
  add2 st (scale2 m (F2 (z3 off / x2 nTex) (y3 off / y2 nTex))) = right_uv /\
  add2 st (scale2 m (F2 (y3 off / x2 nTex) (x3 off / y2 nTex))) = up_uv /\
  add2 st (scale2 m (F2 (y3 off / x2 nTex) (z3 off / y2 nTex))) = down_uv.
Proof.
  unfold left_uv, right_uv, up_uv, down_uv, texel, add2, scale2, off, nTex. simpl.
  repeat split; f_equal; lra.
Qed.

Lemma GetNormalFromHeight_fetches :
  fetches (GetNormalFromHeight env tex st m)
  = [ FSample tex left_uv; FSample tex right_uv; FSample tex up_uv; FSample tex down_uv ].
Proof.
  destruct GetNormalFromHeight_offsets as (Ha & Hb & Hc & Hd).
  unfold GetNormalFromHeight. rewrite Ha, Hb, Hc, Hd. reflexivity.
Qed.

Lemma GetNormalFromHeight_value :
  value (GetNormalFromHeight env tex st m)
  = normalize3
      (cross (normalize3 (F3 2 0 ((height right_uv - height left_uv) / 2)))
             (normalize3 (F3 0 2 ((height down_uv - height up_uv) / 2)))).
Proof.
  destruct GetNormalFromHeight_offsets as (Ha & Hb & Hc & Hd).
  unfold GetNormalFromHeight. rewrite Ha, Hb, Hc, Hd.
  unfold value, bind, Sample, ret, size, height. simpl.
  f_equal. f_equal; f_equal; f_equal; lra.
Qed.

End NormalFromHeight.

Lemma ps_blend_weights (n1 n2 n3 : float3) :
  ps_blend n1 n2 n3
  = F3 ((3 * x3 n1 + 2 * x3 n2 + 1 * x3 n3) / 6)
       ((3 * y3 n1 + 2 * y3 n2 + 1 * y3 n3) / 6)
       ((3 * z3 n1 + 2 * z3 n2 + 1 * z3 n3) / 6).
Proof. unfold ps_blend, scale3, add3. simpl. f_equal; lra. Qed.

Lemma ps_normal_value (env : Resources) (input : DS_OUT) :
  let normCatPos := normalize3 (catPos input) in
  let g := gTexCoord_of normCatPos in
  let tex := texMap (ps_texIndex g + 2) in
  let st := sTexCoord_of (ps_texIndex g) g in
  let n k := value (GetNormalFromHeight env tex st k) in
  value (ps_normal env input)
  = normalize3 (mul3x3 (normalize3 (ps_blend (n 1) (n 2) (n 3))) (ps_TBN normCatPos)).
Proof.
  intros normCatPos g tex st n. unfold ps_normal.
  rewrite !value_bind. change (value (ret ?a)) with a.
  fold normCatPos. fold g. fold tex. fold st.
  subst n. cbv beta.
  replace 1.0 with 1 by lra. replace 2.0 with 2 by lra. replace 3.0 with 3 by lra.
  reflexivity.
Qed.

Lemma ps_normal_fetches (env : Resources) (input : DS_OUT) :
  let normCatPos := normalize3 (catPos input) in
  let g := gTexCoord_of normCatPos in
  let tex := texMap (ps_texIndex g + 2) in
  let st := sTexCoord_of (ps_texIndex g) g in
  fetches (ps_normal env input)
  = fetches (GetNormalFromHeight env tex st 1)
    ++ fetches (GetNormalFromHeight env tex st 2)
    ++ fetches (GetNormalFromHeight env tex st 3).
Proof.
  intros normCatPos g tex st. unfold ps_normal.
  rewrite !fetches_bind. change (fetches (ret ?a)) with (@nil Fetch).
  fold normCatPos. fold g. fold tex. fold st.
  replace 1.0 with 1 by lra. replace 2.0 with 2 by lra. replace 3.0 with 3 by lra.
  now rewrite app_nil_r.
Qed.

Lemma PS_fetches (env : Resources) (input : DS_OUT) :
  let g := gTexCoord_of (normalize3 (catPos input)) in
  fetches (PS env input)
  = fetches (ps_normal env input)
    ++ FSample (texMap (ps_texIndex g)) (sTexCoord_of (ps_texIndex g) g)
    :: fetches (CalcShadowFactor env
                  (mul4 (float4_of (catPos input) 1.0) (shadowTransform (cb env)))).
Proof.
  intros g. unfold PS. rewrite !fetches_bind.
  change (fetches (ret ?a)) with (@nil Fetch). rewrite app_nil_r.
  reflexivity.
Qed.

(** C6: [GetNormalFromHeight] takes four height samples, one texel
    ([1/11520], scaled by the multiplier) to the left, right, above and
    below, forms the normalised vectors [(2, 0, (b-a)/2)] and
    [(0, 2, (d-c)/2)] and returns their normalised cross product.  The pixel
    shader takes three such normals of the height texture [texMap[texIndex+2]]
    at multipliers 1, 2 and 3, at the texture coordinates of the pixel's
    direction [N], averages them with weights 3:2:1 and normalises the
    average.  It then multiplies that row vector by the matrix whose rows are
    the normalised tangent [T = (-sin theta, 0, cos theta)], the normalised
    bitangent [cross(N, T)] and the normalised [N], and normalises the
    product.  The twelve samples are the first fetches of [PS]. *)
Theorem C6_normal_from_height_differences
    (env : Resources) (tex : Texture2D) (st : float2) (m : R) (input : DS_OUT) :
  let texel := m / 11520 in
  let h uv := red (texSample (texels env tex) samAnisotropic uv) in
  let a := h (F2 (x2 st - texel) (y2 st)) in
  let b := h (F2 (x2 st + texel) (y2 st)) in
  let c := h (F2 (x2 st) (y2 st - texel)) in
  let d := h (F2 (x2 st) (y2 st + texel)) in
  let taps (t : Texture2D) (s : float2) (k : R) :=
    [ FSample t (F2 (x2 s - k / 11520) (y2 s));
      FSample t (F2 (x2 s + k / 11520) (y2 s));
      FSample t (F2 (x2 s) (y2 s - k / 11520));
      FSample t (F2 (x2 s) (y2 s + k / 11520)) ] in
  let N := normalize3 (catPos input) in
  let angle := atan2 (z3 N) (x3 N) in
  let theta := if Rlt_dec angle 0 then 2 * 3.1415926538 + angle else angle in
  let gx := theta / (2 * 3.1415926538) in
  let gy := acos (y3 N) / 3.1415926538 in
  let texIndex := round gx in
  let sTexCoord := F2 (if (texIndex =? 0)%Z then gx * 2 else (gx - 0.5) * 2.0) gy in
  let n k := value (GetNormalFromHeight env (texIndex + 2)%Z sTexCoord k) in
  let localNormal :=
    normalize3 (F3 ((3 * x3 (n 1) + 2 * x3 (n 2) + 1 * x3 (n 3)) / 6)
                   ((3 * y3 (n 1) + 2 * y3 (n 2) + 1 * y3 (n 3)) / 6)
                   ((3 * z3 (n 1) + 2 * z3 (n 2) + 1 * z3 (n 3)) / 6)) in
  let T := normalize3 (F3 (- sin theta) 0 (cos theta)) in
  let B := normalize3 (cross N (F3 (- sin theta) 0 (cos theta))) in
  let N' := normalize3 N in
  let l := localNormal in
  fetches (GetNormalFromHeight env tex st m) = taps tex st m /\
  value (GetNormalFromHeight env tex st m)
    = normalize3 (cross (normalize3 (F3 2 0 ((b - a) / 2)))
                        (normalize3 (F3 0 2 ((d - c) / 2)))) /\
  value (ps_normal env input)
    = normalize3 (F3 (x3 l * x3 T + y3 l * x3 B + z3 l * x3 N')
                     (x3 l * y3 T + y3 l * y3 B + z3 l * y3 N')
                     (x3 l * z3 T + y3 l * z3 B + z3 l * z3 N')) /\
  fetches (ps_normal env input)
    = taps (texIndex + 2)%Z sTexCoord 1 ++ taps (texIndex + 2)%Z sTexCoord 2
      ++ taps (texIndex + 2)%Z sTexCoord 3 /\
  List.length (fetches (ps_normal env input)) = 12%nat /\
  firstn 12 (fetches (PS env input)) = fetches (ps_normal env input).
Proof.
  intros texel h a b c d taps N angle theta gx gy texIndex sTexCoord n localNormal
    T B N' l.
  split; [apply GetNormalFromHeight_fetches |].
  split; [apply GetNormalFromHeight_value |].
  assert (Hg : gTexCoord_of N = F2 gx gy) by apply gTexCoord_of_eq.
  assert (Hst : sTexCoord_of (ps_texIndex (gTexCoord_of N)) (gTexCoord_of N) = sTexCoord).
  { rewrite Hg. reflexivity. }
  assert (Hidx : ps_texIndex (gTexCoord_of N) = texIndex) by (now rewrite Hg).
  assert (Htheta : polar_theta N = theta) by apply polar_theta_eq.
  assert (Hlen : List.length (fetches (ps_normal env input)) = 12%nat).
  { rewrite ps_normal_fetches, !GetNormalFromHeight_fetches. reflexivity. }
  split; [| split; [| split; [exact Hlen |]]].
  - rewrite ps_normal_value. fold N. rewrite Hst, Hidx.
    unfold ps_TBN. rewrite Htheta, ps_blend_weights. reflexivity.
  - rewrite ps_normal_fetches, !GetNormalFromHeight_fetches. fold N.
    rewrite Hst, Hidx. reflexivity.
  - rewrite PS_fetches, <- Hlen, firstn_app, firstn_all, Nat.sub_diag.
    now rewrite firstn_O, app_nil_r.
Qed.

(** *** The hull constant function on control points with [w = 1] *)

Lemma code_e0_face_patch : hs_e0 face_patch = F3 (22500 / sqrt 25001) 0 0.
Proof.
  unfold hs_e0, hs_p, normalize4, length4, dot4, scale4, scale3, add3, xyz. simpl.
  replace (150 * 150 + 50 * 50 + 0 * 0 + 1 * 1) with 25001 by lra.
  replace (150 * 150 + - 50 * - 50 + 0 * 0 + 1 * 1) with 25001 by lra.
  f_equal; lra.
Qed.

Lemma spec_e0_face_patch : edge_midpoint face_patch 0 2 = F3 (22500 / sqrt 25000) 0 0.
Proof.
  unfold edge_midpoint, project150, normalize3, length3, dot3, scale3, add3, xyz. simpl.
  replace (150 * 150 + 50 * 50 + 0 * 0) with 25000 by lra.
  replace (150 * 150 + - 50 * - 50 + 0 * 0) with 25000 by lra.
  f_equal; lra.
Qed.

Lemma quotient_between (k s lo hi : R) :
  0 < s -> lo * s < k -> k < hi * s -> lo < k / s < hi.
Proof.
  intros Hs Hlo Hhi. unfold Rdiv. split.
  - apply Rmult_lt_reg_r with s; [assumption |].
    rewrite Rmult_assoc, Rinv_l by lra. lra.
  - apply Rmult_lt_reg_r with s; [assumption |].
    rewrite Rmult_assoc, Rinv_l by lra. lra.
Qed.

(** C1 (divergence): [ConstantHS] computes every factor by the formula
    [2^(-8 * sqrt(saturate((d - 20)/130)) + 8)] and the two inside factors are
    equal ([ConstantHS_factors]), but the points whose midpoints give the edge
    distances are [normalize(patch[i].position) * 150] with the four-component
    normalisation of the [float4] position.  For control points with [w = 1]
    they lie inside the sphere of radius 150: on [face_patch], seen from
    [(200, 0, 0)], the first edge factor is strictly smaller than the formula
    gives at the midpoint of the control points projected to that sphere. *)
Theorem C1_edge_factor_off_sphere :
  nth 0 (edgeTess (ConstantHS env0 face_patch 0)) 0
  < nth 0 (edgeTess (spec_ConstantHS env0 face_patch)) 0.
Proof.
  destruct (ConstantHS_factors env0 face_patch 0) as [He _].
  rewrite He. unfold spec_ConstantHS. simpl nth.
  rewrite code_e0_face_patch, spec_e0_face_patch.
  unfold xyz; cbn [x4 y4 z4].
  assert (H1 : 158 < sqrt 25001 < 159) by (apply sqrt_between; lra).
  assert (H0 : 158 < sqrt 25000 < 159) by (apply sqrt_between; lra).
  assert (Hs : sqrt 25000 < sqrt 25001) by (apply sqrt_lt_1_alt; lra).
  assert (Q1 : 141 < 22500 / sqrt 25001 < 143) by (apply quotient_between; lra).
  assert (Q0 : 141 < 22500 / sqrt 25000 < 143) by (apply quotient_between; lra).
  assert (Q : 22500 / sqrt 25001 < 22500 / sqrt 25000).
  { unfold Rdiv. apply Rmult_lt_compat_l; [lra |].
    apply Rinv_lt_contravar; [nra | assumption]. }
  rewrite !distance3_on_x_axis by lra.
  apply tess_formula_decreasing; lra.
Qed.

End ShaderFacts.

(** ** The frame loop *)

Module GameFacts.
Import Hlsl Game GameInputs.
Local Open Scope Z_scope.

Lemma to_uint64_small (z : Z) : 0 <= z < 18446744073709551616 -> to_uint64 z = z.
Proof. intros H. unfold to_uint64. now apply Z.mod_small. Qed.

Lemma to_uint32_small (z : Z) : 0 <= z < 4294967296 -> to_uint32 z = z.
Proof. intros H. unfold to_uint32. now apply Z.mod_small. Qed.

Lemma to_int32_small (z : Z) : -2147483648 <= z < 2147483648 -> to_int32 z = z.
Proof. intros H. unfold to_int32. rewrite Z.mod_small; lia. Qed.

(** On non-negative [int] operands the test of [Render] is the comparison of
    the mathematical difference with the back-buffer count. *)
Lemma gpu_behind_spec (frameIdx numBackBuffers completedValue : Z) :
  0 <= frameIdx < 2147483648 ->
  0 <= numBackBuffers < 2147483648 ->
  0 <= completedValue < 18446744073709551616 ->
  gpu_behind frameIdx numBackBuffers completedValue = true
  <-> frameIdx - completedValue > numBackBuffers.
Proof.
  intros Hf Hn Hc. unfold gpu_behind.
  rewrite (to_uint64_small frameIdx), (to_uint64_small numBackBuffers) by lia.
  rewrite andb_true_iff. split.
  - intros [H1 H2]. apply Z.gtb_lt in H1.
    rewrite to_uint64_small in H2 by lia. apply Z.gtb_lt in H2. lia.
  - intros H. assert (completedValue < frameIdx) by lia.
    rewrite to_uint64_small by lia. split; apply Z.gtb_lt; lia.
Qed.

Section Frame.
Variable ext : Externals.
Variable w : World.

Let frameIdx := GetCurrentFrameIndex w.
Let numBackBuffers := GetBackBufferCount w.
Let completedValue := GetCompletedValue w.
Let wait_request : Call :=
  FenceSetEventOnCompletion (to_uint64 (to_int32 (frameIdx - numBackBuffers))).

Lemma Render_before_first_update (g : Game) :
  frameCount (m_timer g) = 0%N -> Render ext w g = (Some tt, g, []).
Proof. intros H. unfold Render, bind, get. now rewrite H. Qed.

Lemma Render_trace (g : Game) :
  frameCount (m_timer g) <> 0%N ->
  trace (Render ext w g)
  = FenceGetCompletedValue ::
    (if gpu_behind frameIdx numBackBuffers completedValue then
       wait_request ::
       (if FAILED (hresult w wait_request) then []
        else WaitForSingleObjectEx :: frame_calls ext w g)
     else frame_calls ext w g).
Proof.
  intros H. apply N.eqb_neq in H.
  unfold Render, bind, get. rewrite H.
  fold frameIdx numBackBuffers completedValue.
  destruct (gpu_behind frameIdx numBackBuffers completedValue).
  - unfold ThrowIfFailed, bind, call. fold wait_request.
    destruct (FAILED (hresult w wait_request)); reflexivity.
  - reflexivity.
Qed.

Lemma Render_result (g : Game) :
  frameCount (m_timer g) <> 0%N ->
  result (Render ext w g)
  = if gpu_behind frameIdx numBackBuffers completedValue
       && FAILED (hresult w wait_request)
    then None else Some tt.
Proof.
  intros H. apply N.eqb_neq in H.
  unfold Render, bind, get. rewrite H.
  fold frameIdx numBackBuffers completedValue.
  destruct (gpu_behind frameIdx numBackBuffers completedValue).
  - unfold ThrowIfFailed, bind, call. fold wait_request.
    destruct (FAILED (hresult w wait_request)); reflexivity.
  - reflexivity.
Qed.


Lemma frame_calls_no_wait (g : Game) :
  filter is_wait (frame_calls ext w g) = []
  /\ filter is_fence_wait_request (frame_calls ext w g) = [].
Proof. split; reflexivity. Qed.

End Frame.

(** C4: one call of [Render], with the frame index, the back-buffer count
    (at least one buffer) and the fence value in the ranges of their types,
    makes exactly these calls: none before the first update; otherwise it
    reads the fence's completed value and, when the frame index exceeds it by
    more than the back-buffer count, asks the fence for an event at
    [frameIdx - numBackBuffers] and blocks on that event once (or leaves by
    an exception when the request fails); then it records the frame and ends
    with [Present] followed by the queue signalling the fence with the frame
    index.  So the CPU blocks at most once, on that event only, and only in
    that case; otherwise it neither asks nor waits, and the only calls on the
    fence are the read of the completed value and the signal. *)
Theorem C4_render_single_fence_wait (ext : Externals) (w : World) (g : Game) :
  let frameIdx := GetCurrentFrameIndex w in
  let numBackBuffers := GetBackBufferCount w in
  let completedValue := GetCompletedValue w in
  let request := FenceSetEventOnCompletion (frameIdx - numBackBuffers) in
  let cbIndex := to_uint32 (c_numDrawCalls ext * (frameIdx mod numBackBuffers)) in
  let frame :=
    [ Prepare; OMSetRenderTargets; ClearRenderTargetView; ClearDepthStencilView;
      RSSetViewports; RSSetScissorRects; SetGraphicsRootSignature; SetPipelineState;
      SetDescriptorHeaps [m_srvHeap]; SetGraphicsRootDescriptorTable 0 m_srvHeap 0;
      SetGraphicsRootConstantBufferView 1
        (to_uint64 (m_cbGpuAddress g + sizeof_PaddedConstantBuffer ext * cbIndex));
      IASetPrimitiveTopology; IASetVertexBuffers; IASetIndexBuffer;
      DrawIndexedInstanced (m_indexCount g) 1 0 0 0;
      Present; QueueSignal frameIdx ] in
  let t := trace (Render ext w g) in
  0 <= frameIdx < 2147483648 ->
  0 < numBackBuffers < 2147483648 ->
  0 <= completedValue < 18446744073709551616 ->
  t = (if (frameCount (m_timer g) =? 0)%N then []
       else if frameIdx - completedValue >? numBackBuffers then
         if FAILED (hresult w request) then [FenceGetCompletedValue; request]
         else FenceGetCompletedValue :: request :: WaitForSingleObjectEx :: frame
       else FenceGetCompletedValue :: frame) /\
  result (Render ext w g)
    = (if negb (frameCount (m_timer g) =? 0)%N
          && (frameIdx - completedValue >? numBackBuffers)
          && FAILED (hresult w request)
       then None else Some tt) /\
  (List.length (filter is_blocking t) <= 1)%nat /\
  filter is_blocking t = filter is_wait t /\
  (List.length (filter is_wait t) <= 1)%nat /\
  (In WaitForSingleObjectEx t ->
     frameIdx - completedValue > numBackBuffers /\
     exists pre post, t = pre ++ [request; WaitForSingleObjectEx] ++ post) /\
  (frameIdx - completedValue <= numBackBuffers ->
     filter is_blocking t = [] /\
     filter is_wait t = [] /\ filter is_fence_wait_request t = [] /\
     (frameCount (m_timer g) <> 0%N ->
      filter is_fence_call t = [FenceGetCompletedValue; QueueSignal frameIdx])) /\
  (frameCount (m_timer g) <> 0%N ->
   frameIdx - completedValue > numBackBuffers ->
   FAILED (hresult w request) = false ->
     filter is_wait t = [WaitForSingleObjectEx] /\
     filter is_fence_call t = [FenceGetCompletedValue; request; QueueSignal frameIdx]) /\
  (frameCount (m_timer g) <> 0%N ->
   result (Render ext w g) = Some tt ->
     exists pre, t = pre ++ [Present; QueueSignal frameIdx]).
Proof.
  intros frameIdx numBackBuffers completedValue request cbIndex frame t Hf Hn Hc.
  assert (Hn' : 0 <= numBackBuffers < 2147483648) by lia.
  pose proof (gpu_behind_spec frameIdx numBackBuffers completedValue Hf Hn' Hc) as Hspec.
  assert (Hframe : frame_calls ext w g = frame).
  { unfold frame_calls. fold frameIdx numBackBuffers.
    rewrite Z.rem_mod_nonneg by lia.
    pose proof (Z.mod_pos_bound frameIdx numBackBuffers) as Hm.
    rewrite (to_uint32_small (frameIdx mod numBackBuffers)) by lia.
    rewrite (to_uint64_small frameIdx) by lia. reflexivity. }
  assert (Hreq : FenceSetEventOnCompletion
                   (to_uint64 (to_int32 (frameIdx - numBackBuffers))) = request
                 \/ ~ frameIdx - completedValue > numBackBuffers).
  { destruct (Z_gt_dec (frameIdx - completedValue) numBackBuffers) as [Hgt | Hle];
      [left | now right].
    subst request. rewrite to_int32_small, to_uint64_small by lia. reflexivity. }
  assert (Htrace :
    t = (if (frameCount (m_timer g) =? 0)%N then []
         else if frameIdx - completedValue >? numBackBuffers then
           if FAILED (hresult w request) then [FenceGetCompletedValue; request]
           else FenceGetCompletedValue :: request :: WaitForSingleObjectEx :: frame
         else FenceGetCompletedValue :: frame)
    /\ result (Render ext w g)
       = (if negb (frameCount (m_timer g) =? 0)%N
             && (frameIdx - completedValue >? numBackBuffers)
             && FAILED (hresult w request)
          then None else Some tt)).
  { destruct (frameCount (m_timer g) =? 0)%N eqn:Hz.
    - apply N.eqb_eq in Hz. subst t.
      rewrite (Render_before_first_update ext w g Hz). now split.
    - apply N.eqb_neq in Hz. subst t.
      rewrite (Render_trace ext w g Hz), (Render_result ext w g Hz).
      fold frameIdx numBackBuffers completedValue. rewrite Hframe.
      destruct (gpu_behind frameIdx numBackBuffers completedValue) eqn:Hb.
      + assert (Hgt : frameIdx - completedValue > numBackBuffers) by now apply Hspec.
        destruct Hreq as [Hreq | Hno]; [| contradiction].
        rewrite Hreq. 
        replace (frameIdx - completedValue >? numBackBuffers) with true
          by (symmetry; apply Z.gtb_lt; lia).
        destruct (FAILED (hresult w request)); split; reflexivity.
      + assert (Hle : ~ frameIdx - completedValue > numBackBuffers).
        { intros Hgt. apply Hspec in Hgt. congruence. }
        replace (frameIdx - completedValue >? numBackBuffers) with false
          by (symmetry; rewrite Z.gtb_ltb; apply Z.ltb_ge; lia).
        split; reflexivity. }
  destruct Htrace as [Htrace Hresult].
  split; [exact Htrace |]. split; [exact Hresult |].
  rewrite Hresult. rewrite Htrace. clear Htrace Hresult Hframe Hreq Hspec.
  destruct (frameCount (m_timer g) =? 0)%N eqn:Hz.
  { apply N.eqb_eq in Hz. simpl. repeat split; intros; try contradiction; auto. }
  destruct (frameIdx - completedValue >? numBackBuffers) eqn:Hb.
  - assert (Hgt : frameIdx - completedValue > numBackBuffers) by (apply Z.gtb_lt in Hb; lia).
    destruct (FAILED (hresult w request)) eqn:Hfail; simpl.
    + refine (conj _ (conj _ (conj _ (conj _ (conj _ (conj _ _)))))).
      * lia.
      * reflexivity.
      * lia.
      * unfold request. intros [Hx | [Hx | []]]; discriminate.
      * lia.
      * discriminate.
      * discriminate.
    + refine (conj _ (conj _ (conj _ (conj _ (conj _ (conj _ _)))))).
      * lia.
      * reflexivity.
      * lia.
      * intros _. split; [exact Hgt |].
        exists [FenceGetCompletedValue], frame. reflexivity.
      * lia.
      * intros _ _ _. split; reflexivity.
      * intros _ _.
        eexists (_ :: _ :: _ :: _ :: _ :: _ :: _ :: _ :: _ :: _ :: _ :: _ :: _ :: _ :: _
                 :: _ :: _ :: [_]).
        reflexivity.
  - assert (Hle : frameIdx - completedValue <= numBackBuffers).
    { rewrite Z.gtb_ltb in Hb. apply Z.ltb_ge in Hb. lia. }
    simpl.
    refine (conj _ (conj _ (conj _ (conj _ (conj _ (conj _ _)))))).
    + lia.
    + reflexivity.
    + lia.
    + intros Hin. exfalso. unfold frame in Hin. simpl in Hin. intuition discriminate.
    + intros _. repeat split; reflexivity.
    + intros _ Hgt. lia.
    + intros _ _.
      eexists (_ :: _ :: _ :: _ :: _ :: _ :: _ :: _ :: _ :: _ :: _ :: _ :: _ :: _ :: _
               :: [_]).
      reflexivity.
Qed.

(** C4 at frame 5 with two back buffers and a fence that completed 1: the
    fence is asked for 3, the CPU waits once, and the trace ends with
    [Present] and the signal of 5. *)
Lemma C4_render_waits_once_witness :
  filter is_blocking (trace (Render ext0 world0 game1)) = [WaitForSingleObjectEx]
  /\ filter is_fence_call (trace (Render ext0 world0 game1))
     = [FenceGetCompletedValue; FenceSetEventOnCompletion 3; QueueSignal 5]
  /\ exists pre, trace (Render ext0 world0 game1) = pre ++ [Present; QueueSignal 5].
Proof.
  destruct (C4_render_single_fence_wait ext0 world0 game1)
    as (_ & _ & _ & Hblock & _ & _ & _ & Hwait & Hsignal);
    [simpl; lia | simpl; lia | simpl; lia |].
  destruct Hwait as [Hw Hfence]; [discriminate | simpl; lia | reflexivity |].
  split; [rewrite Hblock; exact Hw |].
  split; [exact Hfence |].
  apply Hsignal; [discriminate | reflexivity].
Defined.

Section Tick.
Variable ext : Externals.
Variable w : World.

Lemma trace_bind {A B : Type} (m : M A) (f : A -> M B) (g : Game) (a : A) :
  result (m g) = Some a ->
  trace (bind m f g) = trace (m g) ++ trace (f a (state (m g))).
Proof.
  unfold bind, result, state, trace. destruct (m g) as [[r g1] t1]. simpl.
  intros ->. now destruct (f a g1) as [[r2 g2] t2].
Qed.

Lemma result_bind {A B : Type} (m : M A) (f : A -> M B) (g : Game) (a : A) :
  result (m g) = Some a ->
  result (bind m f g) = result (f a (state (m g))).
Proof.
  unfold bind, result, state. destruct (m g) as [[r g1] t1]. simpl.
  intros ->. now destruct (f a g1) as [[r2 g2] t2].
Qed.

Lemma state_bind {A B : Type} (m : M A) (f : A -> M B) (g : Game) (a : A) :
  result (m g) = Some a ->
  state (bind m f g) = state (f a (state (m g))).
Proof.
  unfold bind, result, state. destruct (m g) as [[r g1] t1]. simpl.
  intros ->. now destruct (f a g1) as [[r2 g2] t2].
Qed.

Lemma Update_result (timer : StepTimer) (g : Game) :
  result (Update ext w timer g) = Some tt.
Proof. unfold Update, bind, call, get, put, result. now destruct (Escape (keyboard w)). Qed.

Lemma Update_trace (timer : StepTimer) (g : Game) :
  trace (Update ext w timer g)
  = KeyboardGetState :: (if Escape (keyboard w) then [ExitGame] else [])
    ++ [MouseGetState].
Proof. unfold Update, bind, call, get, put, trace. now destruct (Escape (keyboard w)). Qed.

Lemma timer_tick_result (g : Game) :
  result (StepTimer_Tick w (Update ext w) g) = Some tt.
Proof.
  unfold StepTimer_Tick, bind, get, put. 
  match goal with |- context [Update ext w ?t ?g'] =>
    pose proof (Update_result t g') as H; 
    destruct (Update ext w t g') as [[r g2] t2] end.
  unfold result in *. simpl in *. exact H.
Qed.

Lemma timer_tick_trace (g : Game) :
  trace (StepTimer_Tick w (Update ext w) g)
  = KeyboardGetState :: (if Escape (keyboard w) then [ExitGame] else [])
    ++ [MouseGetState].
Proof.
  unfold StepTimer_Tick, bind, get, put. 
  match goal with |- context [Update ext w ?t ?g'] =>
    pose proof (Update_trace t g') as H; 
    destruct (Update ext w t g') as [[r g2] t2] end.
  unfold trace in *. simpl in *. exact H.
Qed.


Lemma timer_tick_state (g : Game) :
  let t := {| frameCount := (frameCount (m_timer g) + 1)%N;
              timerElapsedSeconds := elapsedSeconds w |} in
  let dt := elapsedSeconds w in
  let kb := keyboard w in
  let verticalMove :=
    ((if key_W kb then 1.0 else if key_S kb then -1.0 else 0.0) * dt * 5.0)%R in
  let horizontalMove :=
    ((if key_A kb then -1.0 else if key_D kb then 1.0 else 0.0) * dt * 5.0)%R in
  let yaw := (m_camYaw g + IZR (mouse_x (mouse w)) * dt / 10.0)%R in
  let pitch := (m_camPitch g + IZR (mouse_y (mouse w)) * dt / 10.0)%R in
  let rot := XMMatrixRotationRollPitchYaw ext pitch yaw 0.0%R in
  let right := XMVector3TransformCoord ext (DEFAULT_RIGHT_VECTOR ext) rot in
  let up := XMVector3TransformCoord ext (DEFAULT_UP_VECTOR ext) rot in
  let forward := XMVector3TransformCoord ext (DEFAULT_FORWARD_VECTOR ext) rot in
  let position :=
    add4 (add4 (m_camPosition g) (scale4 horizontalMove right))
         (scale4 verticalMove forward) in
  let look := add4 position (XMVector3Normalize ext forward) in
  state (StepTimer_Tick w (Update ext w) g)
  = set_camera (set_timer g t) yaw pitch rot look right up forward position
      (XMMatrixLookAtLH ext position look up).
Proof.
  unfold StepTimer_Tick, Update, bind, call, get, put, state.
  now destruct (Escape (keyboard w)).
Qed.

End Tick.

(** C7: every [Tick] first advances the timer, which runs [Update] once: the
    keyboard and then the mouse are polled, the frame is counted, and yaw,
    pitch, position, look target, up vector and view matrix of the free-fly
    camera are recomputed from the input and the elapsed time.  Then it runs
    [Render] on the updated state.  Unless the GPU is behind and the fence
    refuses the event request, the [Tick] returns normally and its calls
    contain exactly one draw, the indexed draw of the mesh; in that one case
    [Render] leaves by an exception and the [Tick] contains no draw. *)
Theorem C7_tick_updates_then_draws_once (ext : Externals) (w : World) (g : Game) :
  let dt := elapsedSeconds w in
  let kb := keyboard w in
  let verticalMove :=
    ((if key_W kb then 1.0 else if key_S kb then -1.0 else 0.0) * dt * 5.0)%R in
  let horizontalMove :=
    ((if key_A kb then -1.0 else if key_D kb then 1.0 else 0.0) * dt * 5.0)%R in
  let updated := state (StepTimer_Tick w (Update ext w) g) in
  let rot :=
    XMMatrixRotationRollPitchYaw ext (m_camPitch updated) (m_camYaw updated) 0.0%R in
  let frameIdx := GetCurrentFrameIndex w in
  let numBackBuffers := GetBackBufferCount w in
  let completedValue := GetCompletedValue w in
  let request :=
    FenceSetEventOnCompletion (to_uint64 (to_int32 (frameIdx - numBackBuffers))) in
  let refused :=
    (to_uint64 frameIdx >? completedValue)
    && (to_uint64 (to_uint64 frameIdx - completedValue) >? to_uint64 numBackBuffers)
    && FAILED (hresult w request) in
  trace (Tick ext w g)
    = KeyboardGetState :: (if Escape kb then [ExitGame] else [])
      ++ MouseGetState :: trace (Render ext w updated) /\
  result (Tick ext w g) = (if refused then None else Some tt) /\
  state (Tick ext w g) = state (Render ext w updated) /\
  frameCount (m_timer updated) = (frameCount (m_timer g) + 1)%N /\
  m_camYaw updated = (m_camYaw g + IZR (mouse_x (mouse w)) * dt / 10.0)%R /\
  m_camPitch updated = (m_camPitch g + IZR (mouse_y (mouse w)) * dt / 10.0)%R /\
  m_camPosition updated
    = add4 (add4 (m_camPosition g)
              (scale4 horizontalMove
                 (XMVector3TransformCoord ext (DEFAULT_RIGHT_VECTOR ext) rot)))
           (scale4 verticalMove
              (XMVector3TransformCoord ext (DEFAULT_FORWARD_VECTOR ext) rot)) /\
  m_camUp updated = XMVector3TransformCoord ext (DEFAULT_UP_VECTOR ext) rot /\
  m_camLookTarget updated
    = add4 (m_camPosition updated)
        (XMVector3Normalize ext
           (XMVector3TransformCoord ext (DEFAULT_FORWARD_VECTOR ext) rot)) /\
  m_viewMatrix updated
    = XMMatrixLookAtLH ext (m_camPosition updated) (m_camLookTarget updated)
        (m_camUp updated) /\
  filter is_draw (trace (Tick ext w g))
    = (if refused then [] else [DrawIndexedInstanced (m_indexCount g) 1 0 0 0]) /\
  (result (Tick ext w g) = Some tt ->
   filter is_draw (trace (Tick ext w g)) = [DrawIndexedInstanced (m_indexCount g) 1 0 0 0]) /\
  (result (Tick ext w g) = None ->
   filter is_draw (trace (Tick ext w g)) = []).
Proof.
  intros dt kb verticalMove horizontalMove updated rot frameIdx numBackBuffers
    completedValue request refused.
  pose proof (timer_tick_result ext w g) as Hu.
  pose proof (timer_tick_state ext w g) as Hst. cbv zeta in Hst. fold updated in Hst.
  assert (Htr : trace (Tick ext w g)
                = KeyboardGetState :: (if Escape kb then [ExitGame] else [])
                  ++ MouseGetState :: trace (Render ext w updated)).
  { unfold Tick. rewrite (trace_bind _ _ g tt Hu), timer_tick_trace.
    fold updated. fold kb. simpl. now rewrite <- app_assoc. }
  assert (Hcount : frameCount (m_timer updated) <> 0%N).
  { rewrite Hst. simpl. lia. }
  assert (Hres : result (Tick ext w g) = (if refused then None else Some tt)).
  { unfold Tick. rewrite (result_bind _ _ g tt Hu). fold updated.
    rewrite Render_result by assumption. reflexivity. }
  assert (Hidx : m_indexCount updated = m_indexCount g) by now rewrite Hst.
  assert (Hdraw : filter is_draw (trace (Tick ext w g))
                  = (if refused then []
                     else [DrawIndexedInstanced (m_indexCount g) 1 0 0 0])).
  { rewrite Htr.
    assert (Hr : filter is_draw (trace (Render ext w updated))
                 = (if refused then []
                    else [DrawIndexedInstanced (m_indexCount g) 1 0 0 0])).
    { rewrite Render_trace by assumption. subst refused.
      fold frameIdx numBackBuffers completedValue. fold request.
      change ((to_uint64 frameIdx >? completedValue)
              && (to_uint64 (to_uint64 frameIdx - completedValue)
                  >? to_uint64 numBackBuffers))
        with (gpu_behind frameIdx numBackBuffers completedValue).
      destruct (gpu_behind frameIdx numBackBuffers completedValue); simpl.
      - destruct (FAILED (hresult w request)); simpl; [reflexivity | now rewrite Hidx].
      - now rewrite Hidx. }
    destruct (Escape kb); simpl; exact Hr. }
  split; [exact Htr |].
  split; [exact Hres |].
  split; [unfold Tick; now rewrite (state_bind _ _ g tt Hu) |].
  split; [now rewrite Hst |].
  split; [now rewrite Hst |].
  split; [now rewrite Hst |].
  split; [subst rot; now rewrite Hst |].
  split; [subst rot; now rewrite Hst |].
  split; [subst rot; now rewrite Hst |].
  split; [now rewrite Hst |].
  split; [exact Hdraw |].
  rewrite Hdraw, Hres.
  split; destruct refused; intros; try discriminate; reflexivity.
Qed.

(** C7 on the first [Tick] of [game0]: it returns normally, with one draw of
    the 864 indices. *)
Lemma C7_tick_witness :
  result (Tick ext0 world0 game0) = Some tt
  /\ filter is_draw (trace (Tick ext0 world0 game0)) = [DrawIndexedInstanced 864 1 0 0 0].
Proof.
  destruct (C7_tick_updates_then_draws_once ext0 world0 game0)
    as (_ & Hr & _ & _ & _ & _ & _ & _ & _ & _ & _ & Hd & _).
  split; [exact Hr | exact (Hd Hr)].
Defined.

(** A [Tick] with no draw: frame 5, two back buffers, a fence that completed 1
    and refuses the event request.  [Render] throws, so "exactly one draw per
    frame" does not hold of every [Tick]. *)
Lemma C7_tick_without_draw :
  result (Tick ext0 GameLifecycle.world_fence_fails game0) = None
  /\ List.length (filter is_draw (trace (Tick ext0 GameLifecycle.world_fence_fails game0)))
     <> 1%nat.
Proof. split; [reflexivity | discriminate]. Qed.

(** *** Device-dependent resources *)

Section Device.
Variable ext : Externals.
Variable w : World.

Let cbSize : Z :=
  to_uint64 (to_uint32 (c_numDrawCalls ext * GetBackBufferCount w)
             * sizeof_PaddedConstantBuffer ext).
Let vertexBufferSize : Z :=
  to_uint64 (to_int32 (sizeof_VertexPositionNormalTexture ext
                       * CreateQuadBox_vertexCount ext)).
Let indexBufferSize : Z := to_uint64 (to_int32 (2 * CreateQuadBox_indexCount ext)).

Lemma CreateDeviceDependentResources_trace (g : Game) :
  result (CreateDeviceDependentResources ext w g) = Some tt ->
  trace (CreateDeviceDependentResources ext w g)
  = [ CheckFeatureSupport;
      SerializeRootSignature [DescriptorTableSRV 2 0; RootConstantBufferView 0 0] 1; CreateRootSignature;
      CreateDescriptorHeap 2 true m_srvHeap;
      UploadBegin; CreateDDSTextureFromFile "colormap.dds" m_colorTexResource;
      UploadEndAndWait;
      UploadBegin; CreateDDSTextureFromFile "displacement.dds" m_heightTexResource;
      UploadEndAndWait;
      CreateShaderResourceView m_colorTexResource m_srvHeap 0;
      CreateShaderResourceView m_heightTexResource m_srvHeap 1;
      CreateCommittedResource cbSize m_cbUploadHeap; MapBuffer m_cbUploadHeap;
      ReadData "VertexShader.cso"; ReadData "HullShader.cso";
      ReadData "DomainShader.cso"; ReadData "PixelShader.cso";
      CreateGraphicsPipelineState;
      CreateCommittedResource vertexBufferSize m_vertexBuffer;
      MapBuffer m_vertexBuffer; UnmapBuffer m_vertexBuffer;
      CreateCommittedResource indexBufferSize m_indexBuffer;
      MapBuffer m_indexBuffer; UnmapBuffer m_indexBuffer;
      WaitForGpu; CreateFence (to_uint64 (GetCurrentFrameIndex w)) ].
Proof.
  unfold CreateDeviceDependentResources.
  fold cbSize vertexBufferSize indexBufferSize.
  cbv beta iota zeta delta [ThrowIfFailed bind call ret throw get put result trace fst snd app].
  destruct (FAILED (hresult w CheckFeatureSupport) || _); [discriminate |].
  repeat match goal with
  | |- context [FAILED (hresult w ?c)] =>
      destruct (FAILED (hresult w c)); [discriminate |]
  end.
  reflexivity.
Qed.

Lemma CreateDeviceDependentResources_state (g : Game) :
  result (CreateDeviceDependentResources ext w g) = Some tt ->
  state (CreateDeviceDependentResources ext w g)
  = set_initial_camera ext
      (set_resource_members g (GetDescriptorHandleIncrementSize w)
         (GetGPUVirtualAddress w m_cbUploadHeap)
         (to_uint32 (CreateQuadBox_indexCount ext))).
Proof.
  unfold CreateDeviceDependentResources.
  cbv beta iota zeta delta [ThrowIfFailed bind call ret throw get put result state fst snd].
  destruct (FAILED (hresult w CheckFeatureSupport) || _); [discriminate |].
  repeat match goal with
  | |- context [FAILED (hresult w ?c)] =>
      destruct (FAILED (hresult w c)); [discriminate |]
  end.
  reflexivity.
Qed.
End Device.

End GameFacts.

(** ** More on the tessellation stage *)

Module TessFacts.
Import Hlsl Shader ShaderSpec ShaderObs HlslFacts ShaderFacts Inputs.
Local Open Scope R_scope.

Lemma saturate_low (x : R) : x <= 0 -> saturate x = 0.
Proof.
  intros H. unfold saturate. rewrite Rmin_left by lra. now rewrite Rmax_left.
Qed.

Lemma saturate_high (x : R) : 1 <= x -> saturate x = 1.
Proof.
  intros H. unfold saturate. rewrite Rmin_right by assumption.
  rewrite Rmax_right; lra.
Qed.

Lemma saturate_monotone (x y : R) : x <= y -> saturate x <= saturate y.
Proof.
  intros H. unfold saturate.
  apply Rmax_lub; [apply Rmax_l |].
  apply Rle_trans with (Rmin y 1); [| apply Rmax_r].
  apply Rmin_glb; [apply Rle_trans with x; [apply Rmin_l | assumption] | apply Rmin_r].
Qed.

Lemma Rpower_2_8 : Rpower 2 8 = 256.
Proof.
  replace 8 with (INR 8) by (simpl; lra).
  rewrite Rpower_pow by lra. simpl. lra.
Qed.

Lemma tess_formula_near (d : R) : d <= 20 -> tess_formula d = 256.
Proof.
  intros H. unfold tess_formula.
  rewrite saturate_low.
  - rewrite sqrt_0. replace (-8 * 0 + 8) with 8 by lra. apply Rpower_2_8.
  - unfold Rdiv. assert (0 < / (150 - 20)) by (apply Rinv_0_lt_compat; lra). nra.
Qed.

Lemma tess_formula_far (d : R) : 150 <= d -> tess_formula d = 1.
Proof.
  intros H. unfold tess_formula.
  rewrite saturate_high.
  - rewrite sqrt_1. replace (-8 * 1 + 8) with 0 by lra. apply Rpower_O. lra.
  - apply Rmult_le_reg_r with (150 - 20); [lra |].
    unfold Rdiv. rewrite Rmult_assoc, Rinv_l by lra. lra.
Qed.

Lemma tess_formula_antitone (d1 d2 : R) :
  d1 <= d2 -> tess_formula d2 <= tess_formula d1.
Proof.
  intros H. unfold tess_formula. apply Rle_Rpower; [lra |].
  assert (Hs : saturate ((d1 - 20) / (150 - 20)) <= saturate ((d2 - 20) / (150 - 20))).
  { apply saturate_monotone. unfold Rdiv.
    apply Rmult_le_compat_r; [| lra].
    left. apply Rinv_0_lt_compat. lra. }
  apply sqrt_le_1_alt in Hs. lra.
Qed.

(** X1: [CalcTessFactor] saturates at both ends of its range: a point within
    20 units of the camera gets the factor 256, a point at 150 units or
    farther gets the factor 1. *)
Theorem X1_tess_factor_saturates (env : Resources) (p : float3) :
  let d := distance3 p (xyz (cameraPosition (cb env))) in
  (d <= 20 -> CalcTessFactor env p = 256) /\
  (150 <= d -> CalcTessFactor env p = 1).
Proof.
  intros d. rewrite CalcTessFactor_formula. fold d.
  split; [apply tess_formula_near | apply tess_formula_far].
Qed.

Lemma X1_tess_factor_witness :
  CalcTessFactor env0 (F3 190 0 0) = 256 /\ CalcTessFactor env0 (F3 0 0 0) = 1.
Proof.
  split.
  - apply (X1_tess_factor_saturates env0 (F3 190 0 0)).
    unfold env0, xyz; cbn [cb cameraPosition x4 y4 z4].
    rewrite distance3_on_x_axis; lra.
  - apply (X1_tess_factor_saturates env0 (F3 0 0 0)).
    unfold env0, xyz; cbn [cb cameraPosition x4 y4 z4].
    rewrite distance3_on_x_axis; lra.
Defined.

(** X2: the tessellation factor never grows with distance: of two points,
    the one farther from the camera gets the smaller (or equal) factor. *)
Theorem X2_tess_factor_antitone (env : Resources) (p q : float3) :
  let cam := xyz (cameraPosition (cb env)) in
  distance3 p cam <= distance3 q cam ->
  CalcTessFactor env q <= CalcTessFactor env p.
Proof.
  intros cam H. rewrite !CalcTessFactor_formula. now apply tess_formula_antitone.
Qed.

Lemma X2_tess_factor_antitone_witness :
  CalcTessFactor env0 (F3 100 0 0) <= CalcTessFactor env0 (F3 150 0 0).
Proof.
  apply (X2_tess_factor_antitone env0 (F3 150 0 0) (F3 100 0 0)).
  unfold env0, xyz; cbn [cb cameraPosition x4 y4 z4].
  rewrite !distance3_on_x_axis; lra.
Defined.

(** X3: whatever the patch and the camera, [ConstantHS] fills the four edge
    factors and the two inside factors with values in [[1, 256]], and the
    two inside factors are the same. *)
Theorem X3_patch_factors_in_range
    (env : Resources) (patch : Patch4 VS_OUTPUT) (patchID : Z) :
  let out := ConstantHS env patch patchID in
  List.length (edgeTess out) = 4%nat /\
  List.length (insideTess out) = 2%nat /\
  Forall (fun t => 1 <= t <= 256) (edgeTess out) /\
  Forall (fun t => 1 <= t <= 256) (insideTess out) /\
  nth 0 (insideTess out) 0 = nth 1 (insideTess out) 0.
Proof.
  intros out. destruct (ConstantHS_factors env patch patchID) as [He Hi].
  subst out. rewrite He, Hi.
  repeat split; try reflexivity;
    repeat (apply Forall_cons; [apply tess_formula_range |]); apply Forall_nil.
Qed.

Lemma ds_level_near (es ins : list R) :
  ds_level {| edgeTess := 256 :: es; insideTess := ins |} = 0.
Proof.
  unfold ds_level. simpl.
  replace 256 with (16 * 16) by lra. rewrite sqrt_square by lra.
  apply Rmax_left. lra.
Qed.

Lemma ds_level_far (es ins : list R) :
  ds_level {| edgeTess := 1 :: es; insideTess := ins |} = 4.
Proof.
  unfold ds_level. simpl. rewrite sqrt_1. rewrite Rmax_right; lra.
Qed.

Lemma ds_level_antitone (t1 t2 : R) (es ins es' ins' : list R) :
  t1 <= t2 ->
  ds_level {| edgeTess := t2 :: es; insideTess := ins |}
  <= ds_level {| edgeTess := t1 :: es'; insideTess := ins' |}.
Proof.
  intros H. unfold ds_level. simpl.
  apply sqrt_le_1_alt in H.
  apply Rmax_lub; [apply Rmax_l |].
  apply Rle_trans with (8 - sqrt t1 - 3); [lra | apply Rmax_r].
Qed.

(** X4: the height-map mip level the domain shader derives from a factor of
    [CalcTessFactor] is 0 (finest) for a point within 20 units of the camera,
    4 for a point at 150 units or farther, and never decreases with the
    distance. *)
Theorem X4_level_follows_distance
    (env : Resources) (p q : float3) (es ins : list R) :
  let cam := xyz (cameraPosition (cb env)) in
  let level r := ds_level {| edgeTess := CalcTessFactor env r :: es; insideTess := ins |} in
  (distance3 p cam <= 20 -> level p = 0) /\
  (150 <= distance3 p cam -> level p = 4) /\
  (distance3 p cam <= distance3 q cam -> level p <= level q).
Proof.
  intros cam level. subst level. cbv beta.
  rewrite !CalcTessFactor_formula. fold cam.
  split; [| split]; intros H.
  - rewrite tess_formula_near by assumption. apply ds_level_near.
  - rewrite tess_formula_far by assumption. apply ds_level_far.
  - apply ds_level_antitone. now apply tess_formula_antitone.
Qed.

Lemma X4_level_witness :
  ds_level {| edgeTess := CalcTessFactor env0 (F3 190 0 0) :: []; insideTess := [] |} = 0
  /\ ds_level {| edgeTess := CalcTessFactor env0 (F3 0 0 0) :: []; insideTess := [] |} = 4.
Proof.
  destruct (X4_level_follows_distance env0 (F3 190 0 0) (F3 0 0 0) [] []) as (Hnear & _ & _).
  destruct (X4_level_follows_distance env0 (F3 0 0 0) (F3 0 0 0) [] []) as (_ & Hfar & _).
  split.
  - apply Hnear. unfold env0, xyz; cbn [cb cameraPosition x4 y4 z4].
    rewrite distance3_on_x_axis; lra.
  - apply Hfar. unfold env0, xyz; cbn [cb cameraPosition x4 y4 z4].
    rewrite distance3_on_x_axis; lra.
Defined.

End TessFacts.

(** ** The two texture halves *)

Module PolarFacts.
Import Hlsl Shader ShaderSpec ShaderObs HlslFacts ShaderFacts Inputs.
Local Open Scope R_scope.

(** The macro [PI] is not below the number pi, so an angle of at most pi,
    divided by the macro, is at most 1. *)
Lemma PI_macro_not_below : Rtrigo1.PI <= PI.
Proof.
  pose proof (PI_2_3_7_ineq 6) as [_ H].
  unfold sum_f_R0, tg_alt, PI_2_3_7_tg, Ratan_seq in H. simpl in H.
  unfold PI. lra.
Qed.

Lemma atan_neg_iff (t : R) : atan t < 0 <-> t < 0.
Proof.
  split; intros H.
  - destruct (Rlt_dec t 0) as [Hlt | Hge]; [assumption |].
    assert (0 <= atan t).
    { destruct (Req_dec t 0) as [-> | Hne]; [rewrite atan_0; lra |].
      left. apply atan_sign_pos. lra. }
    lra.
  - rewrite <- atan_0. now apply atan_increasing.
Qed.

Lemma atan2_neg_iff (y x : R) : atan2 y x < 0 <-> y < 0.
Proof.
  pose proof PI_RGT_0 as Hpi. unfold atan2.
  destruct (Rlt_dec 0 x) as [Hx | Hx].
  - rewrite atan_neg_iff. unfold Rdiv.
    assert (0 < / x) by now apply Rinv_0_lt_compat.
    split; intros; nra.
  - destruct (Rlt_dec x 0) as [Hx' | Hx'].
    + pose proof (atan_bound (y / x)) as Hb.
      destruct (Rle_dec 0 y) as [Hy | Hy]; split; intros; lra.
    + destruct (Rlt_dec 0 y); [split; intros; lra |].
      destruct (Rlt_dec y 0); split; intros; lra.
Qed.

Lemma polar_theta_halves (n : float3) :
  (0 <= z3 n -> 0 <= polar_theta n <= Rtrigo1.PI) /\
  (z3 n < 0 -> 2 * PI - Rtrigo1.PI <= polar_theta n < 2 * PI).
Proof.
  pose proof (atan2_range (z3 n) (x3 n)) as Hr.
  pose proof (atan2_neg_iff (z3 n) (x3 n)) as Hs.
  unfold polar_theta.
  destruct (sign (atan2 (z3 n) (x3 n)) =? -1)%Z eqn:E.
  - apply sign_minus_one in E. split; intros; lra.
  - assert (~ atan2 (z3 n) (x3 n) < 0).
    { intros Hneg. apply sign_minus_one in Hneg. congruence. }
    split; intros; lra.
Qed.

Lemma quotient_le (t lo hi d : R) :
  0 < d -> lo * d <= t -> t <= hi * d -> lo <= t / d <= hi.
Proof.
  intros Hd Hlo Hhi.
  assert (Hq : t / d * d = t) by (unfold Rdiv; rewrite Rmult_assoc, Rinv_l; lra).
  split; apply Rmult_le_reg_r with d; lra.
Qed.

Lemma quotient_lt (t lo hi d : R) :
  0 < d -> lo * d < t -> t < hi * d -> lo < t / d < hi.
Proof.
  intros Hd Hlo Hhi.
  assert (Hq : t / d * d = t) by (unfold Rdiv; rewrite Rmult_assoc, Rinv_l; lra).
  split; apply Rmult_lt_reg_r with d; lra.
Qed.

(** The two halves meet at the seam [gTexCoord.x = 1/2]. *)
Lemma gTexCoord_x_halves (n : float3) :
  (0 <= z3 n -> 0 <= x2 (gTexCoord_of n) <= 1 / 2) /\
  (z3 n < 0 -> 1 / 2 <= x2 (gTexCoord_of n) <= 1).
Proof.
  pose proof PI_macro_not_below as Hm. pose proof PI_RGT_0 as Hpi.
  destruct (polar_theta_halves n) as [Hpos Hneg].
  assert (Hp : 0 < 2 * PI) by (unfold PI; lra).
  unfold gTexCoord_of. cbn [x2].
  split; intros Hz.
  - specialize (Hpos Hz). apply (quotient_le _ 0 (1 / 2) _ Hp); lra.
  - specialize (Hneg Hz). apply (quotient_le _ (1 / 2) 1 _ Hp); lra.
Qed.

Lemma gTexCoord_y_closed (n : float3) : 0 <= y2 (gTexCoord_of n) <= 1.
Proof.
  pose proof PI_macro_not_below as Hm. pose proof PI_RGT_0 as Hpi.
  pose proof (acos_bound (y3 n)) as Hb.
  unfold gTexCoord_of, polar_phi. cbn [y2].
  assert (Hp : 0 < PI) by lra.
  apply (quotient_le _ 0 1 _ Hp); lra.
Qed.

(** [round] on the unit interval: 0 up to the tie at 1/2, 1 from it on. *)
Lemma round_unit_halves (x : R) :
  0 <= x < 1 ->
  (round x = 0%Z -> x <= 1 / 2) /\ (round x = 1%Z -> 1 / 2 <= x).
Proof.
  intros H. unfold round, frac. rewrite (floor_unit x H). simpl.
  destruct (Rlt_dec (x - 0) (1 / 2)) as [Hlo | Hlo].
  - split; [intros _; lra | discriminate].
  - destruct (Rlt_dec (1 / 2) (x - 0)) as [Hhi | Hhi].
    + split; [discriminate | intros _; lra].
    + split; intros _; lra.
Qed.

Lemma ps_texIndex_bit (n : float3) :
  ps_texIndex (gTexCoord_of n) = 0%Z \/ ps_texIndex (gTexCoord_of n) = 1%Z.
Proof. unfold ps_texIndex. apply round_unit, gTexCoord_x_range. Qed.

(** *** Away from the seam

    The seam of the two texture halves lies over the negative x axis.  A
    direction is taken to be off the seam when it is outside the quarter
    [x < -|z|] around that axis; its angle [atan2(z, x)] then stays within
    three quarters of pi of zero. *)

Lemma atan_minus_one : atan (-1) = - (Rtrigo1.PI / 4).
Proof. replace (-1) with (Ropp 1) by lra. rewrite atan_opp, atan_1. reflexivity. Qed.

Lemma atan2_off_seam (z x : R) :
  - x <= Rabs z ->
  (0 <= z -> 0 <= atan2 z x <= 3 * Rtrigo1.PI / 4) /\
  (z < 0 -> - (3 * Rtrigo1.PI / 4) <= atan2 z x < 0).
Proof.
  intros Hoff. pose proof PI_RGT_0 as Hpi.
  pose proof (atan2_neg_iff z x) as Hsign.
  pose proof (atan2_range z x) as Hrange.
  split; intros Hz.
  - split; [apply Rnot_lt_le; intros Hneg; apply Hsign in Hneg; lra |].
    rewrite Rabs_right in Hoff by lra.
    unfold atan2.
    destruct (Rlt_dec 0 x) as [Hx | Hx].
    + pose proof (atan_bound (z / x)). lra.
    + destruct (Rlt_dec x 0) as [Hx' | Hx'].
      * destruct (Rle_dec 0 z) as [_ | Hn]; [| lra].
        assert (Hq : z / x <= -1).
        { apply Rmult_le_reg_r with (- x); [lra |].
          unfold Rdiv. replace (z * / x * - x) with (- z * (/ x * x)) by ring.
          rewrite Rinv_l by lra. lra. }
        assert (Ha : atan (z / x) <= atan (-1)).
        { destruct Hq as [Hlt | ->]; [left; now apply atan_increasing | right; reflexivity]. }
        rewrite atan_minus_one in Ha. lra.
      * destruct (Rlt_dec 0 z); [lra |]. destruct (Rlt_dec z 0); lra.
  - split; [| now apply Hsign].
    rewrite Rabs_left in Hoff by lra.
    unfold atan2.
    destruct (Rlt_dec 0 x) as [Hx | Hx].
    + pose proof (atan_bound (z / x)). lra.
    + destruct (Rlt_dec x 0) as [Hx' | Hx'].
      * destruct (Rle_dec 0 z) as [Hn | _]; [lra |].
        assert (Hq : 1 <= z / x).
        { apply Rmult_le_reg_r with (- x); [lra |].
          unfold Rdiv. replace (z * / x * - x) with (- z * (/ x * x)) by ring.
          rewrite Rinv_l by lra. lra. }
        assert (Ha : atan 1 <= atan (z / x)).
        { destruct Hq as [Hlt | <-]; [left; now apply atan_increasing | right; reflexivity]. }
        rewrite atan_1 in Ha. lra.
      * destruct (Rlt_dec 0 z); [lra |]. destruct (Rlt_dec z 0); lra.
Qed.

Lemma gTexCoord_x_off_seam (n : float3) :
  - x3 n <= Rabs (z3 n) ->
  (0 <= z3 n -> 0 <= x2 (gTexCoord_of n) < 1 / 2) /\
  (z3 n < 0 -> 1 / 2 < x2 (gTexCoord_of n) < 1).
Proof.
  intros Hoff. pose proof PI_4 as H4. pose proof PI_RGT_0 as Hpi.
  destruct (atan2_off_seam _ _ Hoff) as [Hpos Hneg].
  assert (Hp : 0 < 2 * 3.1415926538) by lra.
  rewrite gTexCoord_of_eq. cbn [x2].
  split; intros Hz.
  - specialize (Hpos Hz).
    destruct (Rlt_dec (atan2 (z3 n) (x3 n)) 0) as [Hlt | _]; [lra |].
    split.
    + apply (quotient_le _ 0 1 _ Hp); lra.
    + apply (quotient_lt _ (-1) (1 / 2) _ Hp); lra.
  - specialize (Hneg Hz).
    destruct (Rlt_dec (atan2 (z3 n) (x3 n)) 0) as [_ | Hge]; [| lra].
    apply (quotient_lt _ _ _ _ Hp); lra.
Qed.

(** Normalisation keeps the sign of [z] and the side of the seam. *)
Lemma normalize3_off_seam (p : float3) :
  - x3 p <= Rabs (z3 p) ->
  - x3 (normalize3 p) <= Rabs (z3 (normalize3 p)) /\
  (0 <= z3 p -> 0 <= z3 (normalize3 p)) /\
  (z3 p < 0 -> z3 (normalize3 p) < 0).
Proof.
  intros Hoff. pose proof (length3_nonneg p) as Hl.
  unfold normalize3. cbn [x3 z3]. unfold Rdiv.
  destruct (Req_dec (length3 p) 0) as [Hzero | Hne].
  - assert (Hp : z3 p = 0).
    { unfold length3, dot3 in Hzero. apply sqrt_eq_0 in Hzero; nra. }
    rewrite Hzero, Rinv_0, !Rmult_0_r, Rabs_R0. lra.
  - assert (Hi : 0 < / length3 p) by (apply Rinv_0_lt_compat; lra).
    rewrite Rabs_mult, (Rabs_right (/ length3 p)) by lra.
    repeat split; intros; nra.
Qed.

(** X5: for every direction the polar texture coordinates lie in the closed
    unit square.  The half [z >= 0] maps to [gTexCoord.x <= 1/2] and the half
    [z < 0] to [1/2 <= gTexCoord.x]; the bounds are closed, since the seam
    value 1/2 and the pole value 1 are the quotients of pi by the macro
    [PI] and by twice it. *)
Theorem X5_polar_coordinates_in_unit_square (n : float3) :
  0 <= x2 (gTexCoord_of n) <= 1 /\
  0 <= y2 (gTexCoord_of n) <= 1 /\
  (0 <= z3 n -> x2 (gTexCoord_of n) <= 1 / 2) /\
  (z3 n < 0 -> 1 / 2 <= x2 (gTexCoord_of n)).
Proof.
  destruct (gTexCoord_x_halves n) as [Hpos Hneg].
  pose proof (gTexCoord_x_range n) as Hx.
  split; [lra |]. split; [apply gTexCoord_y_closed |].
  split; intros Hz; [apply Hpos, Hz | apply Hneg, Hz].
Qed.

(** X6: away from the seam the texture half is chosen by the sign of [z]:
    for a position outside the quarter [x < -|z|], with [z >= 0] the pixel
    shader uses slot 0 for the colour and the domain shader slot 2 for the
    height; with [z < 0] they use slots 1 and 3.  Everywhere the domain
    shader's slot is the pixel shader's [texIndex + 2]. *)
Theorem X6_texture_half_by_sign_of_z (p : float3) :
  let g := gTexCoord_of (normalize3 p) in
  - x3 p <= Rabs (z3 p) ->
  (0 <= z3 p -> ps_texIndex g = 0%Z /\ ds_texIndex g = 2%Z) /\
  (z3 p < 0 -> ps_texIndex g = 1%Z /\ ds_texIndex g = 3%Z) /\
  ds_texIndex g = (ps_texIndex g + 2)%Z.
Proof.
  intros g Hoff.
  destruct (normalize3_off_seam p Hoff) as (Hoff' & Hzpos & Hzneg).
  destruct (gTexCoord_x_off_seam (normalize3 p) Hoff') as [Hpos Hneg].
  fold g in Hpos, Hneg.
  split; [| split; [| reflexivity]].
  - intros Hz. unfold ds_texIndex. fold (ps_texIndex g).
    assert (H0 : ps_texIndex g = 0%Z).
    { unfold ps_texIndex. apply round_low. specialize (Hpos (Hzpos Hz)). lra. }
    rewrite H0. split; reflexivity.
  - intros Hz. unfold ds_texIndex. fold (ps_texIndex g).
    assert (H1 : ps_texIndex g = 1%Z).
    { unfold ps_texIndex. apply round_high. apply Hneg, Hzneg, Hz. }
    rewrite H1. split; reflexivity.
Qed.

Lemma X6_texture_half_witness :
  ps_texIndex (gTexCoord_of (normalize3 (F3 150 50 0))) = 0%Z
  /\ ds_texIndex (gTexCoord_of (normalize3 (F3 (-50) 50 (-150)))) = 3%Z.
Proof.
  destruct (X6_texture_half_by_sign_of_z (F3 150 50 0)) as (Hpos & _ & _).
  { simpl. rewrite Rabs_R0. lra. }
  destruct (X6_texture_half_by_sign_of_z (F3 (-50) 50 (-150))) as (_ & Hneg & _).
  { simpl. rewrite Rabs_left; lra. }
  split.
  - apply Hpos. simpl. lra.
  - apply Hneg. simpl. lra.
Defined.

(** X7: where the two shaders sample.  The coordinates [sTexCoord] of the
    pixel shader lie in the closed unit square; its colour fetch, the
    thirteenth of [PS], is made there, and its twelve height samples are
    within 3 texels ([3/11520]) of it in each direction.  The domain shader
    samples the other branch of the remapping: where the pixel shader's
    [texIndex] is 1 at the same coordinates, where it is 0 one whole period
    to the left, at [u - 1 <= 0]. *)
Theorem X7_remapped_coordinates (env : Resources) (pixel : DS_OUT) :
  let g := gTexCoord_of (normalize3 (catPos pixel)) in
  let ps_uv := sTexCoord_of (ps_texIndex g) g in
  let ds_uv := sTexCoord_of (ds_texIndex g) g in
  let near_ps_uv (f : Fetch) :=
    Rabs (x2 (fetch_uv f) - x2 ps_uv) <= 3 / 11520 /\
    Rabs (y2 (fetch_uv f) - y2 ps_uv) <= 3 / 11520 in
  0 <= x2 ps_uv <= 1 /\
  0 <= y2 ps_uv <= 1 /\
  y2 ds_uv = y2 ps_uv /\
  -1 <= x2 ds_uv <= 1 /\
  (ps_texIndex g = 0%Z -> x2 ds_uv = x2 ps_uv - 1 /\ x2 ds_uv <= 0) /\
  (ps_texIndex g = 1%Z -> x2 ds_uv = x2 ps_uv /\ 0 <= x2 ds_uv) /\
  nth_error (fetches (PS env pixel)) 12 = Some (FSample (texMap (ps_texIndex g)) ps_uv) /\
  firstn 12 (fetches (PS env pixel)) = fetches (ps_normal env pixel) /\
  Forall near_ps_uv (fetches (ps_normal env pixel)).
Proof.
  intros g ps_uv ds_uv near_ps_uv.
  set (n := normalize3 (catPos pixel)) in *.
  pose proof (gTexCoord_x_range n) as Hx. fold g in Hx.
  pose proof (gTexCoord_y_closed n) as Hy. fold g in Hy.
  destruct (round_unit_halves (x2 g) Hx) as [Hlow Hhigh].
  assert (Hds : x2 ds_uv = (x2 g - 0.5) * 2.0).
  { subst ds_uv g. now rewrite ds_sTexCoord. }
  assert (Hyy : y2 ds_uv = y2 g /\ y2 ps_uv = y2 g) by (split; reflexivity).
  assert (Hlen : List.length (fetches (ps_normal env pixel)) = 12%nat).
  { rewrite ps_normal_fetches, !GetNormalFromHeight_fetches. reflexivity. }
  assert (Hps : (ps_texIndex g = 0%Z /\ x2 ps_uv = x2 g * 2 /\ x2 g <= 1 / 2)
                \/ (ps_texIndex g = 1%Z /\ x2 ps_uv = (x2 g - 0.5) * 2.0 /\ 1 / 2 <= x2 g)).
  { destruct (ps_texIndex_bit n) as [H0 | H1]; fold g in H0 || fold g in H1.
    - left. split; [exact H0 |]. split; [subst ps_uv; now rewrite H0 |].
      apply Hlow, H0.
    - right. split; [exact H1 |]. split; [subst ps_uv; now rewrite H1 |].
      apply Hhigh, H1. }
  destruct Hyy as [Hdy Hpy].
  split; [destruct Hps as [(_ & -> & ?) | (_ & -> & ?)]; lra |].
  split; [rewrite Hpy; exact Hy |].
  split; [now rewrite Hdy, Hpy |].
  split; [rewrite Hds; lra |].
  split.
  { intros H0. destruct Hps as [(_ & Hp & ?) | (H1 & _)]; [| congruence].
    rewrite Hds, Hp. lra. }
  split.
  { intros H1. destruct Hps as [(H0 & _) | (_ & Hp & ?)]; [congruence |].
    rewrite Hds, Hp. lra. }
  split.
  { rewrite PS_fetches. fold n. fold g. fold ps_uv.
    rewrite nth_error_app2 by (rewrite Hlen; apply le_n).
    rewrite Hlen. reflexivity. }
  split.
  { rewrite PS_fetches, <- Hlen, firstn_app, firstn_all, Nat.sub_diag.
    now rewrite firstn_O, app_nil_r. }
  rewrite ps_normal_fetches, !GetNormalFromHeight_fetches.
  fold n. fold g. fold ps_uv.
  cbn [app]. subst near_ps_uv.
  repeat (constructor; [cbn [fetch_uv x2 y2]; split; apply Rabs_le; lra |]).
  constructor.
Qed.

Lemma X7_remapped_coordinates_witness :
  let pixel := {| ds_position := F4 0 0 0 1; catPos := F3 1 0 0 |} in
  let g := gTexCoord_of (normalize3 (catPos pixel)) in
  x2 (sTexCoord_of (ds_texIndex g) g) = -1
  /\ nth_error (fetches (PS env0 pixel)) 12 = Some (FSample (texMap 0) (F2 0 (1 / 2 * (Rtrigo1.PI / PI)))).
Proof.
  intros pixel g.
  assert (Hg : x2 g = 0).
  { subst g pixel. cbn [catPos]. rewrite normalize3_x_axis. apply gTexCoord_x_axis. }
  assert (H0 : ps_texIndex g = 0%Z).
  { unfold ps_texIndex. rewrite Hg. apply round_low. lra. }
  destruct (X7_remapped_coordinates env0 pixel)
    as (_ & _ & _ & _ & Hfront & _ & Hcolour & _).
  fold g in Hfront, Hcolour.
  destruct (Hfront H0) as [Hds _].
  split.
  - rewrite Hds. unfold sTexCoord_of. rewrite H0. cbn [x2 Z.eqb]. rewrite Hg. lra.
  - rewrite Hcolour, H0. do 2 f_equal.
    unfold sTexCoord_of. cbn [Z.eqb]. rewrite Hg.
    subst g pixel. cbn [catPos]. rewrite normalize3_x_axis.
    unfold gTexCoord_of, polar_phi. cbn [y2 y3]. rewrite acos_0.
    f_equal; lra.
Defined.

Lemma normalize3_unit (v : float3) : length3 v = 1 -> normalize3 v = v.
Proof.
  intros H. unfold normalize3. rewrite H. destruct v as [a b c]. cbn [x3 y3 z3].
  f_equal; lra.
Qed.

Lemma normalize3_scale3_pos (k : R) (v : float3) :
  0 < k -> length3 v = 1 -> normalize3 (scale3 k v) = v.
Proof.
  intros Hk Hv. unfold normalize3.
  rewrite length3_scale3, Hv, Rabs_right by lra.
  destruct v as [a b c]. unfold scale3. cbn [x3 y3 z3].
  f_equal; field; lra.
Qed.

Lemma distance3_origin (v : float3) : distance3 v (F3 0 0 0) = length3 v.
Proof.
  unfold distance3. f_equal. destruct v as [a b c]. unfold sub3. cbn [x3 y3 z3].
  f_equal; lra.
Qed.

(** X8: the pixel shader recovers what the domain shader used.  When the
    interpolated position is not the origin and the displaced radius
    [150 + height * 0.5] is positive, normalising the [catPos] the domain
    shader outputs gives back the normalised position, the pixel shader's
    [h = distance(catPos, 0) - 150] is the displacement [height * 0.5], and
    the height texture [texMap[texIndex + 2]] of the pixel shader is the slot
    the domain shader sampled. *)
Theorem X8_pixel_shader_recovers_direction
    (env : Resources) (input : Patch4 HS_OUT) (uv : float2) (patch : PatchTess) :
  let position := ds_position_of input uv in
  let g := gTexCoord_of (normalize3 position) in
  let height :=
    red (texSampleLevel (texels env (texMap (ds_texIndex g))) samAnisotropic
           (sTexCoord_of (ds_texIndex g) g) (ds_level patch)) in
  let out := value (DS env input uv patch) in
  length3 position <> 0 ->
  0 < 150 + height * 0.5 ->
  normalize3 (catPos out) = normalize3 position /\
  distance3 (catPos out) (F3 0 0 0) - 150.0 = height * 0.5 /\
  texMap (ps_texIndex (gTexCoord_of (normalize3 (catPos out))) + 2)
    = texMap (ds_texIndex g).
Proof.
  intros position g height out Hne Hk.
  assert (Hunit : length3 (normalize3 position) = 1) by now apply length3_normalize3.
  assert (Hc : catPos out = scale3 (150 + height * 0.5) (normalize3 position)).
  { subst out. rewrite DS_value. reflexivity. }
  assert (Hn : normalize3 (catPos out) = normalize3 position).
  { rewrite Hc. now apply normalize3_scale3_pos. }
  split; [exact Hn |]. split.
  - rewrite distance3_origin, Hc, length3_scale3, Hunit, Rabs_right; lra.
  - rewrite Hn. reflexivity.
Qed.

Lemma X8_pixel_shader_recovers_witness :
  distance3 (catPos (value (DS env0 face_patch_hs (F2 0 0) tess16))) (F3 0 0 0) - 150.0
  = 1 * 0.5.
Proof.
  destruct (X8_pixel_shader_recovers_direction env0 face_patch_hs (F2 0 0) tess16)
    as (_ & Hh & _).
  - apply Rgt_not_eq. unfold length3. apply sqrt_lt_R0.
    unfold dot3, ds_position_of, lerp3, lerp. simpl. lra.
  - simpl. lra.
  - exact Hh.
Defined.

(** X9: no fetch leaves the array [texMap[5]].  The domain shader issues one
    fetch and the pixel shader twenty-two (twelve height samples, one colour
    sample, nine shadow samples), all on slots 0 to 4. *)
Theorem X9_fetches_stay_in_texMap
    (env : Resources) (input : Patch4 HS_OUT) (uv : float2) (patch : PatchTess)
    (pixel : DS_OUT) :
  Forall (fun f => slot_in_bounds (fetch_slot f)) (fetches (DS env input uv patch)) /\
  List.length (fetches (PS env pixel)) = 22%nat /\
  Forall (fun f => slot_in_bounds (fetch_slot f)) (fetches (PS env pixel)).
Proof.
  split; [| split].
  - rewrite DS_fetches. constructor; [| constructor].
    unfold slot_in_bounds, fetch_slot, texMap.
    destruct (ds_texIndex_cases (normalize3 (ds_position_of input uv))) as [-> | ->]; lia.
  - rewrite PS_fetches, ps_normal_fetches, !GetNormalFromHeight_fetches,
      CalcShadowFactor_fetches. reflexivity.
  - rewrite PS_fetches, ps_normal_fetches, !GetNormalFromHeight_fetches,
      CalcShadowFactor_fetches.
    unfold shadow_offsets, texMap. cbn [map app].
    destruct (ps_texIndex_bit (normalize3 (catPos pixel))) as [-> | ->];
      repeat (constructor; [unfold slot_in_bounds, fetch_slot; lia |]);
      constructor.
Qed.

End PolarFacts.

(** ** More on the pixel stage *)

Module PixelFacts.
Import Hlsl Shader ShaderSpec ShaderObs HlslFacts ShaderFacts PolarFacts Inputs.
Local Open Scope R_scope.

Lemma length3_slope_pos (p : R) : 2 <= length3 (F3 2 0 p) /\ 2 <= length3 (F3 0 2 p).
Proof.
  unfold length3, dot3. cbn [x3 y3 z3].
  split; rewrite <- (sqrt_square 2) at 1 by lra; apply sqrt_le_1_alt; nra.
Qed.

Lemma cross_slopes_z (p q : R) :
  0 < z3 (cross (normalize3 (F3 2 0 p)) (normalize3 (F3 0 2 q))).
Proof.
  destruct (length3_slope_pos p) as [Hp _]. destruct (length3_slope_pos q) as [_ Hq].
  unfold cross, normalize3. cbn [x3 y3 z3].
  set (a := length3 (F3 2 0 p)) in *. set (b := length3 (F3 0 2 q)) in *.
  assert (Ha : 0 < / a) by (apply Rinv_0_lt_compat; lra).
  assert (Hb : 0 < / b) by (apply Rinv_0_lt_compat; lra).
  unfold Rdiv. nra.
Qed.

Lemma length3_pos_of_z_pos (v : float3) : 0 < z3 v -> 0 < length3 v.
Proof. intros Hz. unfold length3, dot3. apply sqrt_lt_R0. nra. Qed.

Lemma z3_normalize3_pos (v : float3) : 0 < z3 v -> 0 < z3 (normalize3 v).
Proof.
  intros Hz. pose proof (length3_pos_of_z_pos v Hz) as Hl.
  unfold normalize3. cbn [z3]. unfold Rdiv.
  apply Rmult_lt_0_compat; [assumption | now apply Rinv_0_lt_compat].
Qed.

(** X10: whatever the height texture holds, the normal [GetNormalFromHeight]
    returns has length 1 and a positive third component: the reconstructed
    normal never degenerates and never points below the surface. *)
Theorem X10_height_normal_is_unit_and_upward
    (env : Resources) (tex : Texture2D) (st : float2) (m : R) :
  let n := value (GetNormalFromHeight env tex st m) in
  length3 n = 1 /\ 0 < z3 n.
Proof.
  intros n. subst n. rewrite GetNormalFromHeight_value.
  match goal with
  | |- context [cross (normalize3 (F3 2 0 ?p)) (normalize3 (F3 0 2 ?q))] =>
      pose proof (cross_slopes_z p q) as Hz
  end.
  split.
  - apply length3_normalize3. apply Rgt_not_eq. now apply length3_pos_of_z_pos.
  - now apply z3_normalize3_pos.
Qed.

Lemma flat_normal :
  normalize3 (cross (normalize3 (F3 2 0 0)) (normalize3 (F3 0 2 0))) = F3 0 0 1.
Proof.
  assert (H2 : length3 (F3 2 0 0) = 2 /\ length3 (F3 0 2 0) = 2).
  { unfold length3, dot3. cbn [x3 y3 z3]. split.
    - replace (2 * 2 + 0 * 0 + 0 * 0) with (2 * 2) by lra. apply sqrt_square. lra.
    - replace (0 * 0 + 2 * 2 + 0 * 0) with (2 * 2) by lra. apply sqrt_square. lra. }
  destruct H2 as [Ha Hb].
  assert (Hc : cross (normalize3 (F3 2 0 0)) (normalize3 (F3 0 2 0)) = F3 0 0 1).
  { unfold cross, normalize3. rewrite Ha, Hb. cbn [x3 y3 z3]. f_equal; lra. }
  rewrite Hc. apply normalize3_unit.
  unfold length3, dot3. cbn [x3 y3 z3].
  replace (0 * 0 + 0 * 0 + 1 * 1) with 1 by lra. apply sqrt_1.
Qed.

Lemma GetNormalFromHeight_flat
    (env : Resources) (tex : Texture2D) (st : float2) (m : R) :
  let h uv := red (texSample (texels env tex) samAnisotropic uv) in
  h (F2 (x2 st - m / 11520) (y2 st)) = h (F2 (x2 st + m / 11520) (y2 st)) ->
  h (F2 (x2 st) (y2 st - m / 11520)) = h (F2 (x2 st) (y2 st + m / 11520)) ->
  value (GetNormalFromHeight env tex st m) = F3 0 0 1.
Proof.
  intros h Hx Hy. rewrite GetNormalFromHeight_value.
  fold (h (F2 (x2 st - m / 11520) (y2 st))). fold (h (F2 (x2 st + m / 11520) (y2 st))).
  fold (h (F2 (x2 st) (y2 st - m / 11520))). fold (h (F2 (x2 st) (y2 st + m / 11520))).
  rewrite Hx, Hy.
  replace ((h (F2 (x2 st + m / 11520) (y2 st)) - h (F2 (x2 st + m / 11520) (y2 st))) / 2)
    with 0 by lra.
  replace ((h (F2 (x2 st) (y2 st + m / 11520)) - h (F2 (x2 st) (y2 st + m / 11520))) / 2)
    with 0 by lra.
  apply flat_normal.
Qed.

(** X11: where the height does not change from the left to the right sample
    and from the upper to the lower one, [GetNormalFromHeight] returns the
    unperturbed normal [(0, 0, 1)]. *)
Theorem X11_flat_height_gives_up_normal
    (env : Resources) (tex : Texture2D) (st : float2) (m : R) :
  let h uv := red (texSample (texels env tex) samAnisotropic uv) in
  h (F2 (x2 st - m / 11520) (y2 st)) = h (F2 (x2 st + m / 11520) (y2 st)) ->
  h (F2 (x2 st) (y2 st - m / 11520)) = h (F2 (x2 st) (y2 st + m / 11520)) ->
  value (GetNormalFromHeight env tex st m) = F3 0 0 1.
Proof. apply GetNormalFromHeight_flat. Qed.

Lemma X11_flat_height_witness :
  value (GetNormalFromHeight env0 (texMap 2) (F2 0.25 0.5) 1) = F3 0 0 1.
Proof.
  apply (X11_flat_height_gives_up_normal env0 (texMap 2) (F2 0.25 0.5) 1); reflexivity.
Defined.

Lemma mul3x3_third_row (m : float3x3) : mul3x3 (F3 0 0 1) m = r3_2 m.
Proof.
  unfold mul3x3, add3, scale3. cbn [x3 y3 z3].
  destruct (r3_2 m) as [a b c]. cbn [x3 y3 z3]. f_equal; lra.
Qed.

(** X12: over a height texture whose red channel is the same everywhere, the
    shading normal of the pixel shader is the normal of the sphere: for a
    [catPos] other than the origin, the normal it computes is
    [normalize(catPos)]. *)
Theorem X12_flat_texture_shades_with_sphere_normal
    (env : Resources) (input : DS_OUT) (c : R) :
  let g := gTexCoord_of (normalize3 (catPos input)) in
  (forall uv,
     red (texSample (texels env (texMap (ps_texIndex g + 2))) samAnisotropic uv) = c) ->
  length3 (catPos input) <> 0 ->
  value (ps_normal env input) = normalize3 (catPos input).
Proof.
  intros g Hflat Hne. rewrite ps_normal_value. fold g.
  rewrite !GetNormalFromHeight_flat by (now rewrite !Hflat).
  assert (Hup : normalize3 (ps_blend (F3 0 0 1) (F3 0 0 1) (F3 0 0 1)) = F3 0 0 1).
  { rewrite ps_blend_weights. cbn [x3 y3 z3].
    replace ((3 * 0 + 2 * 0 + 1 * 0) / 6) with 0 by lra.
    replace ((3 * 1 + 2 * 1 + 1 * 1) / 6) with 1 by lra.
    apply normalize3_unit. unfold length3, dot3. cbn [x3 y3 z3].
    replace (0 * 0 + 0 * 0 + 1 * 1) with 1 by lra. apply sqrt_1. }
  rewrite Hup, mul3x3_third_row. unfold ps_TBN. cbn [r3_2].
  assert (Hunit : length3 (normalize3 (catPos input)) = 1) by now apply length3_normalize3.
  now rewrite !(normalize3_unit _ Hunit).
Qed.

Lemma X12_flat_texture_witness :
  value (ps_normal env0 {| ds_position := F4 0 0 150 1; catPos := F3 0 0 150 |})
  = normalize3 (F3 0 0 150).
Proof.
  apply (X12_flat_texture_shades_with_sphere_normal env0
           {| ds_position := F4 0 0 150 1; catPos := F3 0 0 150 |} 1).
  - reflexivity.
  - apply Rgt_not_eq. unfold length3. apply sqrt_lt_R0. unfold dot3. simpl. lra.
Defined.

Lemma saturate2_in_unit_square (uv : float2) : in_unit_square (saturate2 uv).
Proof. unfold in_unit_square, saturate2. cbn [x2 y2]. split; apply saturate_range. Qed.

Lemma sum_unit_bound (l : list R) :
  Forall (fun s => 0 <= s <= 1) l ->
  0 <= fold_right Rplus 0 l <= INR (List.length l).
Proof.
  induction 1 as [| s l Hs _ IH].
  - simpl. lra.
  - cbn [fold_right List.length]. rewrite S_INR. lra.
Qed.

(** X13: the shadow filter never samples outside the shadow map: each of its
    fetches addresses slot 4 at coordinates in the unit square.  If every
    depth comparison yields a value between 0 and 1, so does the shadow
    factor. *)
Theorem X13_shadow_factor_is_a_fraction (env : Resources) (shadowPosH : float4) :
  Forall (fun f => fetch_slot f = 4%Z /\ in_unit_square (fetch_uv f))
         (fetches (CalcShadowFactor env shadowPosH)) /\
  ((forall uv depth,
      0 <= texSampleCmpLevelZero (texels env (texMap 4)) samShadow uv depth <= 1) ->
   0 <= value (CalcShadowFactor env shadowPosH) <= 1).
Proof.
  split.
  - rewrite CalcShadowFactor_fetches. apply Forall_map, Forall_forall.
    intros o _. cbn [fetch_slot fetch_uv]. split; [reflexivity |].
    apply saturate2_in_unit_square.
  - intros Hcmp. rewrite CalcShadowFactor_value.
    match goal with
    | |- _ <= fold_right Rplus 0 ?l / 9 <= _ =>
        assert (Hsum : 0 <= fold_right Rplus 0 l <= INR (List.length l))
    end.
    { apply sum_unit_bound, Forall_map, Forall_forall. intros o _. apply Hcmp. }
    rewrite length_map in Hsum. unfold shadow_offsets in Hsum at 3.
    cbn [List.length] in Hsum. 
    replace (INR 9) with 9 in Hsum by (simpl; lra). lra.
Qed.

Lemma X13_shadow_factor_witness :
  0 <= value (CalcShadowFactor env0 (F4 2 2 0.5 1)) <= 1.
Proof.
  destruct (X13_shadow_factor_is_a_fraction env0 (F4 2 2 0.5 1)) as [_ H].
  apply H. intros uv depth. simpl. lra.
Defined.

Lemma frac_range (x : R) : 0 <= frac x < 1.
Proof.
  unfold frac, floor. destruct (base_Int_part x) as [H1 H2]. lra.
Qed.

Lemma smoothstep_range (f : R) : 0 <= f <= 1 -> 0 <= f * f * (3.0 - 2.0 * f) <= 1.
Proof.
  intros [H0 H1]. split.
  - apply Rmult_le_pos; [nra | lra].
  - assert (0 <= (1 - f) * (1 - f) * (1 + 2 * f)) by (apply Rmult_le_pos; [nra | lra]).
    nra.
Qed.

Lemma bilinear_range (a b c d u v : R) :
  0 <= a < 1 -> 0 <= b < 1 -> 0 <= c < 1 -> 0 <= d < 1 ->
  0 <= u <= 1 -> 0 <= v <= 1 ->
  0 <= lerp a b u + (c - a) * v * (1.0 - u) + (d - b) * u * v < 1.
Proof.
  intros Ha Hb Hc Hd Hu Hv. unfold lerp.
  assert (Huv : 0 <= u * v) by (apply Rmult_le_pos; lra).
  assert (Hw1 : 0 <= (1 - u) * (1 - v)) by (apply Rmult_le_pos; lra).
  assert (Hw2 : 0 <= u * (1 - v)) by (apply Rmult_le_pos; lra).
  assert (Hw3 : 0 <= (1 - u) * v) by (apply Rmult_le_pos; lra).
  replace (a * (1 - u) + b * u + (c - a) * v * (1.0 - u) + (d - b) * u * v)
    with (a * ((1 - u) * (1 - v)) + b * (u * (1 - v)) + c * ((1 - u) * v) + d * (u * v))
    by lra.
  set (w1 := (1 - u) * (1 - v)) in *. set (w2 := u * (1 - v)) in *.
  set (w3 := (1 - u) * v) in *. set (w4 := u * v) in *.
  assert (Hsum : w1 + w2 + w3 + w4 = 1) by (subst w1 w2 w3 w4; lra).
  split.
  - assert (0 <= a * w1) by (apply Rmult_le_pos; lra).
    assert (0 <= b * w2) by (apply Rmult_le_pos; lra).
    assert (0 <= c * w3) by (apply Rmult_le_pos; lra).
    assert (0 <= d * w4) by (apply Rmult_le_pos; lra).
    lra.
  - set (m := Rmax (Rmax a b) (Rmax c d)).
    assert (Hm : a <= m /\ b <= m /\ c <= m /\ d <= m /\ m < 1).
    { subst m. repeat split.
      - eapply Rle_trans; [apply Rmax_l | apply Rmax_l].
      - eapply Rle_trans; [apply Rmax_r | apply Rmax_l].
      - eapply Rle_trans; [apply Rmax_l | apply Rmax_r].
      - eapply Rle_trans; [apply Rmax_r | apply Rmax_r].
      - repeat apply Rmax_lub_lt; lra. }
    destruct Hm as (Ma & Mb & Mc & Md & M1).
    assert (a * w1 <= m * w1) by (apply Rmult_le_compat_r; lra).
    assert (b * w2 <= m * w2) by (apply Rmult_le_compat_r; lra).
    assert (c * w3 <= m * w3) by (apply Rmult_le_compat_r; lra).
    assert (d * w4 <= m * w4) by (apply Rmult_le_compat_r; lra).
    assert (m * w1 + m * w2 + m * w3 + m * w4 = m) by (rewrite <- !Rmult_plus_distr_l, Hsum; lra).
    lra.
Qed.

(** X14: [hash] and [noise] return values in [[0, 1)]: the noise is a
    weighted mean of four hash values with weights that are non-negative and
    add up to 1. *)
Theorem X14_noise_in_unit_interval (x : float2) :
  0 <= hash x < 1 /\ 0 <= noise x < 1.
Proof.
  split; [apply frac_range |].
  unfold noise. cbn [x2 y2].
  apply bilinear_range; try apply frac_range;
    apply smoothstep_range; pose proof (frac_range (x2 x)); pose proof (frac_range (y2 x)); lra.
Qed.

End PixelFacts.

(** ** More on the frame loop *)

Module FrameFacts.
Import Hlsl Game GameInputs GameLifecycle GameFacts.
Local Open Scope Z_scope.

(** X15: the first half of the test in [Render] guards the unsigned
    difference.  When the frame index has fallen below the fence's completed
    value (as after a reset to zero), the difference taken in [uint64_t]
    wraps to a huge number and alone would exceed the back-buffer count, yet
    [Render] neither asks the fence for an event nor waits. *)
Theorem X15_frame_index_reset_does_not_wait (ext : Externals) (w : World) (g : Game) :
  let frameIdx := GetCurrentFrameIndex w in
  let numBackBuffers := GetBackBufferCount w in
  let completedValue := GetCompletedValue w in
  0 <= frameIdx < 2147483648 ->
  0 <= numBackBuffers < 2147483648 ->
  0 <= completedValue < 9223372036854775808 ->
  frameIdx < completedValue ->
  (to_uint64 (to_uint64 frameIdx - completedValue) >? to_uint64 numBackBuffers) = true /\
  gpu_behind frameIdx numBackBuffers completedValue = false /\
  filter is_wait (trace (Render ext w g)) = [] /\
  filter is_fence_wait_request (trace (Render ext w g)) = [].
Proof.
  intros frameIdx numBackBuffers completedValue Hf Hn Hc Hlt.
  assert (Hwrap : to_uint64 (to_uint64 frameIdx - completedValue)
                  = frameIdx - completedValue + 18446744073709551616).
  { rewrite (to_uint64_small frameIdx) by lia. unfold to_uint64.
    rewrite <- (Z.mod_add _ 1) by lia. rewrite Z.mod_small; lia. }
  assert (Hb : gpu_behind frameIdx numBackBuffers completedValue = false).
  { unfold gpu_behind. rewrite (to_uint64_small frameIdx) by lia.
    replace (frameIdx >? completedValue) with false; [reflexivity |].
    symmetry. rewrite Z.gtb_ltb. apply Z.ltb_ge. lia. }
  split; [| split; [exact Hb |]].
  - rewrite Hwrap, (to_uint64_small numBackBuffers) by lia. apply Z.gtb_lt. lia.
  - destruct (N.eq_dec (frameCount (m_timer g)) 0) as [Hzero | Hrun].
    + rewrite Render_before_first_update by assumption. split; reflexivity.
    + rewrite Render_trace by assumption.
      fold frameIdx numBackBuffers completedValue. rewrite Hb.
      cbn [filter is_wait is_fence_wait_request].
      apply frame_calls_no_wait.
Qed.

Lemma X15_frame_index_reset_witness :
  filter is_wait (trace (Render ext0 world_after_reset game1)) = [].
Proof.
  destruct (X15_frame_index_reset_does_not_wait ext0 world_after_reset game1)
    as (_ & _ & H & _); try (simpl; lia).
  exact H.
Defined.

Section Drawing.
Variable ext : Externals.
Variable w : World.

Let frameIdx := GetCurrentFrameIndex w.
Let numBackBuffers := GetBackBufferCount w.
Let cbIndex : Z :=
  to_uint32 (c_numDrawCalls ext * to_uint32 (Z.rem frameIdx numBackBuffers)).

Lemma Render_state (g : Game) :
  frameCount (m_timer g) <> 0%N ->
  result (Render ext w g) = Some tt ->
  state (Render ext w g)
  = set_cbMappedData g cbIndex
      {| cb_worldMatrix := XMMatrixTranspose ext (m_worldMatrix g);
         cb_viewMatrix := XMMatrixTranspose ext (m_viewMatrix g);
         cb_projectionMatrix := XMMatrixTranspose ext (m_projectionMatrix g);
         cb_cameraPosition := m_camPosition g |}.
Proof.
  intros H. apply N.eqb_neq in H.
  unfold Render, bind, get. rewrite H.
  destruct (gpu_behind _ _ _).
  - unfold ThrowIfFailed, bind, call.
    destruct (FAILED _); [discriminate | reflexivity].
  - reflexivity.
Qed.

Lemma cbIndex_in_ring :
  0 <= frameIdx < 2147483648 ->
  0 < numBackBuffers < 2147483648 ->
  1 <= c_numDrawCalls ext ->
  c_numDrawCalls ext * numBackBuffers < 4294967296 ->
  cbIndex = c_numDrawCalls ext * (frameIdx mod numBackBuffers)
  /\ 0 <= cbIndex
  /\ cbIndex + c_numDrawCalls ext <= c_numDrawCalls ext * numBackBuffers.
Proof.
  intros Hf Hn Hc Hring. unfold cbIndex.
  rewrite Z.rem_mod_nonneg by lia.
  pose proof (Z.mod_pos_bound frameIdx numBackBuffers ltac:(lia)) as Hm.
  rewrite (to_uint32_small (frameIdx mod numBackBuffers)) by lia.
  rewrite to_uint32_small by nia.
  repeat split; nia.
Qed.

End Drawing.

(** X16: a [Render] that draws writes the frame's constants into the slot
    [c_numDrawCalls * (frameIdx mod numBackBuffers)], and that slot, with the
    [c_numDrawCalls] slots reserved for the frame, lies inside the ring of
    [c_numDrawCalls * numBackBuffers] blocks that
    [CreateDeviceDependentResources] allocates.  It binds the root constant
    buffer view to that block, leaves every other slot as it was, and does
    not touch the camera or the timer. *)
Theorem X16_constants_stay_in_ring (ext : Externals) (w : World) (g : Game) :
  let frameIdx := GetCurrentFrameIndex w in
  let numBackBuffers := GetBackBufferCount w in
  let slot := c_numDrawCalls ext * (frameIdx mod numBackBuffers) in
  let after := state (Render ext w g) in
  frameCount (m_timer g) <> 0%N ->
  result (Render ext w g) = Some tt ->
  0 <= frameIdx < 2147483648 ->
  0 < numBackBuffers < 2147483648 ->
  1 <= c_numDrawCalls ext ->
  c_numDrawCalls ext * numBackBuffers < 4294967296 ->
  0 <= slot /\
  slot + c_numDrawCalls ext <= c_numDrawCalls ext * numBackBuffers /\
  m_cbMappedData after slot
    = Some {| cb_worldMatrix := XMMatrixTranspose ext (m_worldMatrix g);
              cb_viewMatrix := XMMatrixTranspose ext (m_viewMatrix g);
              cb_projectionMatrix := XMMatrixTranspose ext (m_projectionMatrix g);
              cb_cameraPosition := m_camPosition g |} /\
  (forall j, j <> slot -> m_cbMappedData after j = m_cbMappedData g j) /\
  filter is_root_cbv (trace (Render ext w g))
    = [ SetGraphicsRootConstantBufferView 1
          (to_uint64 (m_cbGpuAddress g + sizeof_PaddedConstantBuffer ext * slot)) ] /\
  m_camPosition after = m_camPosition g /\
  m_viewMatrix after = m_viewMatrix g /\
  m_timer after = m_timer g.
Proof.
  intros frameIdx numBackBuffers slot after Hrun Hres Hf Hn Hc Hring.
  destruct (cbIndex_in_ring ext w Hf Hn Hc Hring) as (Hslot & H0 & H1).
  assert (Hst := Render_state ext w g Hrun Hres).
  rewrite Hslot in Hst, H0, H1. fold frameIdx numBackBuffers in Hst, H0, H1, Hslot.
  fold slot in Hst, H0, H1, Hslot. fold after in Hst.
  split; [exact H0 |]. split; [exact H1 |].
  split; [rewrite Hst; cbn [m_cbMappedData set_cbMappedData]; now rewrite Z.eqb_refl |].
  split.
  { intros j Hj. rewrite Hst. cbn [m_cbMappedData set_cbMappedData].
    apply Z.eqb_neq in Hj. now rewrite Hj. }
  split.
  { rewrite Render_result in Hres by assumption.
    rewrite Render_trace by assumption.
    unfold frame_calls. fold frameIdx numBackBuffers. rewrite Hslot.
    destruct (gpu_behind _ _ _); cbn [andb] in Hres.
    - destruct (FAILED _); [discriminate | reflexivity].
    - reflexivity. }
  rewrite Hst. repeat split.
Qed.

Lemma X16_constants_witness :
  filter is_root_cbv (trace (Render ext0 world0 game1))
  = [SetGraphicsRootConstantBufferView 1 66048].
Proof.
  destruct (X16_constants_stay_in_ring ext0 world0 game1) as (_ & _ & _ & _ & H & _);
    [discriminate | reflexivity | simpl; lia | simpl; lia | simpl; lia | simpl; lia |].
  exact H.
Defined.

(** X17: [Render] never draws with unbound state.  In a [Render] that
    completes, the only draw is the third call from the end, followed by
    [Present] and the fence signal; the command list has been prepared and
    cleared, and root signature, pipeline state, descriptor heap, descriptor
    table, root constant buffer view, topology, vertex and index buffers
    have all been set before it. *)
Theorem X17_draw_comes_after_binding (ext : Externals) (w : World) (g : Game) :
  frameCount (m_timer g) <> 0%N ->
  result (Render ext w g) = Some tt ->
  exists pre address,
    trace (Render ext w g)
      = pre ++ [ DrawIndexedInstanced (m_indexCount g) 1 0 0 0;
                 Present; QueueSignal (to_uint64 (GetCurrentFrameIndex w)) ] /\
    filter is_draw pre = [] /\
    In Prepare pre /\ In ClearRenderTargetView pre /\ In ClearDepthStencilView pre /\
    In SetGraphicsRootSignature pre /\ In SetPipelineState pre /\
    In (SetDescriptorHeaps [m_srvHeap]) pre /\
    In (SetGraphicsRootDescriptorTable 0 m_srvHeap 0) pre /\
    In (SetGraphicsRootConstantBufferView 1 address) pre /\
    In IASetPrimitiveTopology pre /\ In IASetVertexBuffers pre /\ In IASetIndexBuffer pre.
Proof.
  intros Hrun Hres.
  rewrite Render_result in Hres by assumption.
  rewrite Render_trace by assumption. unfold frame_calls.
  destruct (gpu_behind _ _ _); cbn [andb] in Hres.
  - destruct (FAILED _); [discriminate |].
    eexists (_ :: _ :: _ :: _ :: _ :: _ :: _ :: _ :: _ :: _ :: _ :: _ :: _ :: _ :: _ :: _ :: [_]), _.
    split; [reflexivity |]. split; [reflexivity |]. simpl. intuition.
  - eexists (_ :: _ :: _ :: _ :: _ :: _ :: _ :: _ :: _ :: _ :: _ :: _ :: _ :: _ :: [_]), _.
    split; [reflexivity |]. split; [reflexivity |]. simpl. intuition.
Qed.

Lemma X17_draw_order_witness :
  exists pre,
    trace (Render ext0 world0 game1)
    = pre ++ [DrawIndexedInstanced 864 1 0 0 0; Present; QueueSignal 5].
Proof.
  destruct (X17_draw_comes_after_binding ext0 world0 game1) as (pre & address & H & _);
    [discriminate | reflexivity |].
  exists pre. exact H.
Defined.


Section Updating.
Variable ext : Externals.
Local Open Scope R_scope.

Lemma Update_state (w : World) (timer : StepTimer) (g : Game) :
  let dt := timerElapsedSeconds timer in
  let kb := keyboard w in
  let verticalMove := (if key_W kb then 1.0 else if key_S kb then -1.0 else 0.0) * dt * 5.0 in
  let horizontalMove := (if key_A kb then -1.0 else if key_D kb then 1.0 else 0.0) * dt * 5.0 in
  let yaw := m_camYaw g + IZR (mouse_x (mouse w)) * dt / 10.0 in
  let pitch := m_camPitch g + IZR (mouse_y (mouse w)) * dt / 10.0 in
  let rot := XMMatrixRotationRollPitchYaw ext pitch yaw 0.0 in
  let right := XMVector3TransformCoord ext (DEFAULT_RIGHT_VECTOR ext) rot in
  let up := XMVector3TransformCoord ext (DEFAULT_UP_VECTOR ext) rot in
  let forward := XMVector3TransformCoord ext (DEFAULT_FORWARD_VECTOR ext) rot in
  let position :=
    add4 (add4 (m_camPosition g) (scale4 horizontalMove right))
         (scale4 verticalMove forward) in
  let look := add4 position (XMVector3Normalize ext forward) in
  state (Update ext w timer g)
  = set_camera g yaw pitch rot look right up forward position
      (XMMatrixLookAtLH ext position look up).
Proof.
  unfold Update, bind, call, get, put, state.
  now destruct (Escape (keyboard w)).
Qed.

Lemma add4_zero_steps (p r f : float4) (a b : R) :
  a = 0 -> b = 0 -> add4 (add4 p (scale4 a r)) (scale4 b f) = p.
Proof.
  intros -> ->. destruct p as [x y z t]. unfold add4, scale4. cbn [x4 y4 z4 w4].
  f_equal; lra.
Qed.

End Updating.

(** X18: with no movement key down and the mouse at rest, [Update] leaves
    yaw, pitch and position of the camera exactly as they were, whatever the
    elapsed time. *)
Theorem X18_idle_input_keeps_camera
    (ext : Externals) (w : World) (timer : StepTimer) (g : Game) :
  let after := state (Update ext w timer g) in
  key_W (keyboard w) = false -> key_S (keyboard w) = false ->
  key_A (keyboard w) = false -> key_D (keyboard w) = false ->
  mouse_x (mouse w) = 0 -> mouse_y (mouse w) = 0 ->
  m_camYaw after = m_camYaw g /\
  m_camPitch after = m_camPitch g /\
  m_camPosition after = m_camPosition g.
Proof.
  intros after HW HS HA HD Hx Hy. subst after.
  rewrite Update_state. cbn [m_camYaw m_camPitch m_camPosition set_camera].
  rewrite HW, HS, HA, HD, Hx, Hy.
  split; [simpl; lra |]. split; [simpl; lra |].
  apply add4_zero_steps; lra.
Qed.

Lemma X18_idle_input_witness :
  m_camPosition (state (Update ext0 world_idle (m_timer game1) game1)) = F4 0 0 200 0.
Proof.
  destruct (X18_idle_input_keeps_camera ext0 world_idle (m_timer game1) game1)
    as (_ & _ & H); try reflexivity.
  exact H.
Defined.

(** X19: the keys have priorities and Escape does not cut the update short.
    [Update] calls [ExitGame] exactly when Escape is down, and the state it
    reaches does not depend on Escape, nor on S while W is down, nor on D
    while A is down. *)
Theorem X19_key_priorities
    (ext : Externals) (w : World) (timer : StepTimer) (g : Game)
    (kb1 kb2 : KeyboardState) :
  key_W kb1 = key_W kb2 ->
  key_A kb1 = key_A kb2 ->
  (key_W kb1 = true \/ key_S kb1 = key_S kb2) ->
  (key_A kb1 = true \/ key_D kb1 = key_D kb2) ->
  state (Update ext (with_keyboard w kb1) timer g)
    = state (Update ext (with_keyboard w kb2) timer g) /\
  (In ExitGame (trace (Update ext (with_keyboard w kb1) timer g))
   <-> Escape kb1 = true) /\
  result (Update ext (with_keyboard w kb1) timer g) = Some tt.
Proof.
  intros HW HA HS HD.
  split; [| split].
  - rewrite !Update_state. cbn [keyboard mouse with_keyboard].
    rewrite <- HW, <- HA.
    destruct (key_W kb1), (key_A kb1);
      destruct HS as [HS | HS]; destruct HD as [HD | HD];
      try discriminate; try rewrite <- HS; try rewrite <- HD; reflexivity.
  - rewrite Update_trace. cbn [keyboard with_keyboard].
    destruct (Escape kb1); simpl; intuition discriminate.
  - apply Update_result.
Qed.

Lemma X19_key_priorities_witness :
  state (Update ext0
           (with_keyboard world0
              {| Escape := true; key_W := true; key_S := true;
                 key_A := false; key_D := false |})
           (m_timer game1) game1)
  = state (Update ext0 (with_keyboard world0 (keyboard world0)) (m_timer game1) game1).
Proof.
  apply (X19_key_priorities ext0 world0 (m_timer game1) game1
           {| Escape := true; key_W := true; key_S := true;
              key_A := false; key_D := false |} (keyboard world0));
    try reflexivity; [left | right]; reflexivity.
Defined.


Ltac setup_failure_case :=
  cbv beta iota zeta delta [fst snd app];
  eexists; split; [reflexivity |];
  split; [discriminate |];
  simpl; intuition discriminate.

(** Whatever fails, the calls made are an initial part of the full sequence,
    and the sequence is complete when nothing failed. *)
Lemma device_setup_prefix (ext : Externals) (w : World) (g : Game) :
  exists rest,
    device_setup_calls ext w = trace (CreateDeviceDependentResources ext w g) ++ rest /\
    (result (CreateDeviceDependentResources ext w g) = Some tt -> rest = []) /\
    (In CreateGraphicsPipelineState (trace (CreateDeviceDependentResources ext w g)) ->
     In CreateRootSignature (trace (CreateDeviceDependentResources ext w g))) /\
    (In (CreateShaderResourceView m_heightTexResource m_srvHeap 1)
        (trace (CreateDeviceDependentResources ext w g)) ->
     In (CreateDescriptorHeap 2 true m_srvHeap) (trace (CreateDeviceDependentResources ext w g)) /\
     In (CreateDDSTextureFromFile "displacement.dds" m_heightTexResource)
        (trace (CreateDeviceDependentResources ext w g))) /\
    m_projectionMatrix (state (CreateDeviceDependentResources ext w g))
      = m_projectionMatrix g.
Proof.
  unfold CreateDeviceDependentResources, device_setup_calls.
  cbv beta iota zeta delta [ThrowIfFailed bind call ret throw get put result trace state].
  destruct (FAILED (hresult w CheckFeatureSupport) || _); [setup_failure_case |].
  destruct (FAILED (hresult w (SerializeRootSignature [DescriptorTableSRV 2 0; RootConstantBufferView 0 0] 1))); [setup_failure_case |].
  destruct (FAILED (hresult w CreateRootSignature)); [setup_failure_case |].
  destruct (FAILED (hresult w (CreateDescriptorHeap 2 true m_srvHeap))); [setup_failure_case |].
  destruct (FAILED (hresult w (CreateDDSTextureFromFile "colormap.dds" _)));
    [setup_failure_case |].
  destruct (FAILED (hresult w (CreateDDSTextureFromFile "displacement.dds" _)));
    [setup_failure_case |].
  destruct (FAILED (hresult w (CreateCommittedResource _ m_cbUploadHeap)));
    [setup_failure_case |].
  destruct (FAILED (hresult w (MapBuffer m_cbUploadHeap))); [setup_failure_case |].
  destruct (FAILED (hresult w (ReadData "VertexShader.cso"))); [setup_failure_case |].
  destruct (FAILED (hresult w (ReadData "HullShader.cso"))); [setup_failure_case |].
  destruct (FAILED (hresult w (ReadData "DomainShader.cso"))); [setup_failure_case |].
  destruct (FAILED (hresult w (ReadData "PixelShader.cso"))); [setup_failure_case |].
  destruct (FAILED (hresult w CreateGraphicsPipelineState)); [setup_failure_case |].
  destruct (FAILED (hresult w (CreateCommittedResource _ m_vertexBuffer)));
    [setup_failure_case |].
  destruct (FAILED (hresult w (MapBuffer m_vertexBuffer))); [setup_failure_case |].
  destruct (FAILED (hresult w (CreateCommittedResource _ m_indexBuffer)));
    [setup_failure_case |].
  destruct (FAILED (hresult w (MapBuffer m_indexBuffer))); [setup_failure_case |].
  destruct (FAILED (hresult w (CreateFence _))); [setup_failure_case |].
  cbv beta iota zeta delta [fst snd app].
  exists []. split; [reflexivity |]. split; [reflexivity |].
  simpl. intuition.
Qed.

(** X20: on a device without Shader Model 6.0, or when the feature query
    itself fails, [CreateDeviceDependentResources] throws right after
    [CheckFeatureSupport]: nothing is created and [Game] is left as it
    was. *)
Theorem X20_unsupported_shader_model_stops_setup
    (ext : Externals) (w : World) (g : Game) :
  FAILED (hresult w CheckFeatureSupport) = true
  \/ HighestShaderModel w < D3D_SHADER_MODEL_6_0 ext ->
  CreateDeviceDependentResources ext w g = (None, g, [CheckFeatureSupport]).
Proof.
  intros H.
  assert (Hb : FAILED (hresult w CheckFeatureSupport)
               || (HighestShaderModel w <? D3D_SHADER_MODEL_6_0 ext) = true).
  { apply orb_true_iff. destruct H as [H | H]; [now left | right; now apply Z.ltb_lt]. }
  unfold CreateDeviceDependentResources.
  cbv beta iota zeta delta [bind call ret throw]. now rewrite Hb.
Qed.

Lemma X20_unsupported_shader_model_witness :
  CreateDeviceDependentResources ext0 world_old_device game0
  = (None, game0, [CheckFeatureSupport]).
Proof.
  apply (X20_unsupported_shader_model_stops_setup ext0 world_old_device game0).
  right. simpl. lia.
Defined.

(** X21: device set-up stops at the first failure.  Whichever call fails,
    the calls made are an initial part of the full set-up sequence, and a
    normal return means the whole sequence was made.  So the pipeline state
    is never created without the root signature, and the height map's view
    never without the descriptor heap and the height texture. *)
Theorem X21_setup_stops_at_first_failure (ext : Externals) (w : World) (g : Game) :
  let t := trace (CreateDeviceDependentResources ext w g) in
  exists rest,
    device_setup_calls ext w = t ++ rest /\
    (result (CreateDeviceDependentResources ext w g) = Some tt -> rest = []) /\
    (In CreateGraphicsPipelineState t -> In CreateRootSignature t) /\
    (In (CreateShaderResourceView m_heightTexResource m_srvHeap 1) t ->
     In (CreateDescriptorHeap 2 true m_srvHeap) t /\
     In (CreateDDSTextureFromFile "displacement.dds" m_heightTexResource) t).
Proof.
  intros t. destruct (device_setup_prefix ext w g) as (rest & H1 & H2 & H3 & H4 & _).
  exists rest. auto.
Qed.


Lemma bind_failed {A B : Type} (m : M A) (f : A -> M B) (g : Game) :
  result (m g) = None ->
  result (bind m f g) = None
  /\ trace (bind m f g) = trace (m g)
  /\ state (bind m f g) = state (m g).
Proof.
  unfold bind, result, state, trace. destruct (m g) as [[r g1] t1]. simpl.
  intros ->. auto.
Qed.


(** X22: [OnDeviceRestored] signals the fence only after creating it, and
    with the value it was created with: when device set-up succeeds, the
    calls are the set-up sequence followed by one signal of the current frame
    index, and the projection matrix is rebuilt from the output size; when
    set-up throws, no signal is queued and the projection matrix is left as
    it was. *)
Theorem X22_device_restored
    (ext : Externals) (w : World) (win : WindowExternals) (g : Game) :
  let setup := CreateDeviceDependentResources ext w g in
  let restored := OnDeviceRestored ext w win g in
  let v := to_uint64 (GetCurrentFrameIndex w) in
  (result setup = Some tt ->
     result restored = Some tt /\
     trace restored = device_setup_calls ext w ++ [QueueSignal v] /\
     In (CreateFence v) (device_setup_calls ext w) /\
     m_projectionMatrix (state restored)
       = XMMatrixPerspectiveFovLH win (XM_PIDIV4 win)
           (IZR (GetOutputSize_right win) / IZR (GetOutputSize_bottom win))%R
           0.01%R 100.0%R) /\
  (result setup = None ->
     result restored = None /\
     (forall u, ~ In (QueueSignal u) (trace restored)) /\
     m_projectionMatrix (state restored) = m_projectionMatrix g).
Proof.
  intros setup restored v.
  destruct (device_setup_prefix ext w g) as (rest & Hpre & Hall & _ & _ & Hproj).
  fold setup in Hpre, Hall, Hproj.
  split.
  - intros Hok. specialize (Hall Hok). subst rest. rewrite app_nil_r in Hpre.
    subst restored. unfold OnDeviceRestored.
    rewrite (result_bind (CreateDeviceDependentResources ext w) _ g tt Hok),
      (trace_bind (CreateDeviceDependentResources ext w) _ g tt Hok),
      (state_bind (CreateDeviceDependentResources ext w) _ g tt Hok).
    fold setup. rewrite <- Hpre.
    repeat split.
    unfold device_setup_calls. simpl. subst v. auto 30.
  - intros Hfail. subst restored. unfold OnDeviceRestored.
    destruct (bind_failed (CreateDeviceDependentResources ext w)
                (fun _ => CreateWindowSizeDependentResources w win) g Hfail)
      as (Hr & Ht & Hs).
    rewrite Hr, Ht, Hs. fold setup.
    split; [reflexivity |]. split; [| exact Hproj].
    intros u Hin.
    assert (Hfull : In (QueueSignal u) (device_setup_calls ext w)).
    { rewrite Hpre. apply in_or_app. now left. }
    unfold device_setup_calls in Hfull. simpl in Hfull. intuition discriminate.
Qed.

Lemma X22_device_restored_witness :
  result (OnDeviceRestored ext0 world0 win0 game0) = Some tt
  /\ result (OnDeviceRestored ext0 world_old_device win0 game0) = None.
Proof.
  destruct (X22_device_restored ext0 world0 win0 game0) as [Hok _].
  destruct (X22_device_restored ext0 world_old_device win0 game0) as [_ Hfail].
  split.
  - apply Hok. reflexivity.
  - apply Hfail. reflexivity.
Defined.

Lemma Render_request_fails (ext : Externals) (w : World) (g : Game) :
  frameCount (m_timer g) <> 0%N ->
  gpu_behind (GetCurrentFrameIndex w) (GetBackBufferCount w) (GetCompletedValue w) = true ->
  FAILED (hresult w (FenceSetEventOnCompletion
                       (to_uint64 (to_int32 (GetCurrentFrameIndex w - GetBackBufferCount w)))))
    = true ->
  Render ext w g
  = (None, g,
     [ FenceGetCompletedValue;
       FenceSetEventOnCompletion
         (to_uint64 (to_int32 (GetCurrentFrameIndex w - GetBackBufferCount w))) ]).
Proof.
  intros H Hb Hf. apply N.eqb_neq in H.
  unfold Render, bind, get. rewrite H, Hb.
  unfold ThrowIfFailed, bind, call. now rewrite Hf.
Qed.

(** X23: when the GPU is behind and the fence refuses the event request,
    the exception leaves [Tick] after [Update] has run: the frame is counted
    and the camera moved, but nothing is drawn or presented, and the last
    call is the refused request. *)
Theorem X23_failed_fence_request_aborts_frame (ext : Externals) (w : World) (g : Game) :
  let frameIdx := GetCurrentFrameIndex w in
  let numBackBuffers := GetBackBufferCount w in
  let completedValue := GetCompletedValue w in
  let request := FenceSetEventOnCompletion (frameIdx - numBackBuffers) in
  0 <= frameIdx < 2147483648 ->
  0 <= numBackBuffers < 2147483648 ->
  0 <= completedValue < 18446744073709551616 ->
  frameIdx - completedValue > numBackBuffers ->
  FAILED (hresult w request) = true ->
  result (Tick ext w g) = None /\
  trace (Tick ext w g)
    = KeyboardGetState :: (if Escape (keyboard w) then [ExitGame] else [])
      ++ [MouseGetState; FenceGetCompletedValue; request] /\
  filter is_draw (trace (Tick ext w g)) = [] /\
  ~ In Present (trace (Tick ext w g)) /\
  state (Tick ext w g) = state (StepTimer_Tick w (Update ext w) g).
Proof.
  intros frameIdx numBackBuffers completedValue request Hf Hn Hc Hgt Hfail.
  pose proof (timer_tick_result ext w g) as Hu.
  pose proof (timer_tick_state ext w g) as Hst. cbv zeta in Hst.
  set (updated := state (StepTimer_Tick w (Update ext w) g)) in *.
  assert (Hcount : frameCount (m_timer updated) <> 0%N).
  { rewrite Hst. simpl. lia. }
  assert (Hb : gpu_behind frameIdx numBackBuffers completedValue = true)
    by now apply gpu_behind_spec.
  assert (Hreq : FenceSetEventOnCompletion
                   (to_uint64 (to_int32 (frameIdx - numBackBuffers))) = request).
  { subst request. rewrite to_int32_small, to_uint64_small by lia. reflexivity. }
  assert (Hrender : Render ext w updated
                    = (None, updated, [FenceGetCompletedValue; request])).
  { rewrite <- Hreq. apply Render_request_fails; [assumption | assumption |].
    fold frameIdx numBackBuffers. now rewrite Hreq. }
  assert (Htr : trace (Tick ext w g)
                = KeyboardGetState :: (if Escape (keyboard w) then [ExitGame] else [])
                  ++ [MouseGetState; FenceGetCompletedValue; request]).
  { unfold Tick. rewrite (trace_bind _ _ g tt Hu), timer_tick_trace.
    fold updated. rewrite Hrender. cbn [trace snd].
    simpl. now rewrite <- app_assoc. }
  split; [| split; [exact Htr | split; [| split]]].
  - unfold Tick. rewrite (result_bind _ _ g tt Hu). fold updated. now rewrite Hrender.
  - rewrite Htr. subst request. destruct (Escape (keyboard w)); reflexivity.
  - rewrite Htr. subst request. destruct (Escape (keyboard w)); simpl; intuition discriminate.
  - unfold Tick. rewrite (state_bind _ _ g tt Hu). fold updated. now rewrite Hrender.
Qed.

Lemma X23_failed_fence_request_witness :
  result (Tick ext0 world_fence_fails game0) = None
  /\ filter is_draw (trace (Tick ext0 world_fence_fails game0)) = [].
Proof.
  destruct (X23_failed_fence_request_aborts_frame ext0 world_fence_fails game0)
    as (Hr & _ & Hd & _); try (simpl; lia); try reflexivity.
  split; assumption.
Defined.

End FrameFacts.

(** ** Device set-up and the draw that uses it *)

Module DeviceFacts.
Import Hlsl Game GameInputs GameLifecycle GameFacts FrameFacts.
Local Open Scope Z_scope.

(** C8: when [CreateDeviceDependentResources] returns normally it has created
    exactly one root signature, serialised with two root parameters (at
    index 0 a descriptor table of two SRVs from register [t0], at index 1 a
    root CBV at [b0]) and one static sampler; one pipeline state object; one
    descriptor heap ([m_srvHeap], shader visible, two descriptors); two
    textures (the colour map from [colormap.dds] and the displacement map from
    [displacement.dds], with one SRV each in slots 0 and 1 of [m_srvHeap]);
    and three buffers: the constant-buffer ring of [c_numDrawCalls] times the
    back-buffer count blocks of [sizeof(PaddedConstantBuffer)] bytes, one
    vertex buffer and one index buffer.  (The fence of the frame loop is
    created here as well.)  It leaves the GPU address of the ring in
    [m_cbGpuAddress] and the index count of the mesh in [m_indexCount].

    A [Render] that draws from a state with these two members makes one draw,
    of that index count, and before it binds exactly one descriptor table, at
    root parameter 0 and starting at slot 0 of [m_srvHeap] (the two SRVs of
    the two textures), and exactly one root constant buffer view, at root
    parameter 1, whose address is a block of the ring. *)
Theorem C8_device_dependent_resources (ext : Externals) (w : World) (g : Game) :
  let setup := CreateDeviceDependentResources ext w g in
  let t := trace setup in
  let ring := c_numDrawCalls ext * GetBackBufferCount w in
  let blockSize := sizeof_PaddedConstantBuffer ext in
  let base := GetGPUVirtualAddress w m_cbUploadHeap in
  let indexCount := to_uint32 (CreateQuadBox_indexCount ext) in
  let vertexBufferSize :=
    to_uint64 (to_int32 (sizeof_VertexPositionNormalTexture ext
                         * CreateQuadBox_vertexCount ext)) in
  let indexBufferSize := to_uint64 (to_int32 (2 * CreateQuadBox_indexCount ext)) in
  result setup = Some tt ->
  0 <= ring < 4294967296 ->
  0 <= ring * blockSize < 18446744073709551616 ->
  filter creates_root_signature t = [CreateRootSignature] /\
  In (SerializeRootSignature [DescriptorTableSRV 2 0; RootConstantBufferView 0 0] 1) t /\
  filter serializes_root_signature t
    = [SerializeRootSignature [DescriptorTableSRV 2 0; RootConstantBufferView 0 0] 1] /\
  filter creates_pipeline_state t = [CreateGraphicsPipelineState] /\
  filter creates_descriptor_heap t = [CreateDescriptorHeap 2 true m_srvHeap] /\
  filter creates_texture t
    = [ CreateDDSTextureFromFile "colormap.dds" m_colorTexResource;
        CreateDDSTextureFromFile "displacement.dds" m_heightTexResource ] /\
  filter creates_view t
    = [ CreateShaderResourceView m_colorTexResource m_srvHeap 0;
        CreateShaderResourceView m_heightTexResource m_srvHeap 1 ] /\
  filter creates_buffer t
    = [ CreateCommittedResource (ring * blockSize) m_cbUploadHeap;
        CreateCommittedResource vertexBufferSize m_vertexBuffer;
        CreateCommittedResource indexBufferSize m_indexBuffer ] /\
  filter creates_fence t = [CreateFence (to_uint64 (GetCurrentFrameIndex w))] /\
  m_cbGpuAddress (state setup) = base /\
  m_indexCount (state setup) = indexCount /\
  m_cbvsrvDescSize (state setup) = GetDescriptorHandleIncrementSize w /\
  (forall (w' : World) (g' : Game),
     let frameIdx := GetCurrentFrameIndex w' in
     let numBackBuffers := GetBackBufferCount w' in
     let slot := c_numDrawCalls ext * (frameIdx mod numBackBuffers) in
     let address := base + blockSize * slot in
     let t' := trace (Render ext w' g') in
     m_cbGpuAddress g' = m_cbGpuAddress (state setup) ->
     m_indexCount g' = m_indexCount (state setup) ->
     numBackBuffers = GetBackBufferCount w ->
     frameCount (m_timer g') <> 0%N ->
     result (Render ext w' g') = Some tt ->
     0 <= frameIdx < 2147483648 ->
     0 < numBackBuffers ->
     1 <= c_numDrawCalls ext ->
     0 <= blockSize ->
     0 <= base ->
     base + ring * blockSize < 18446744073709551616 ->
     (exists pre,
        t' = pre ++ [ SetDescriptorHeaps [m_srvHeap];
                      SetGraphicsRootDescriptorTable 0 m_srvHeap 0;
                      SetGraphicsRootConstantBufferView 1 address;
                      IASetPrimitiveTopology; IASetVertexBuffers; IASetIndexBuffer;
                      DrawIndexedInstanced indexCount 1 0 0 0;
                      Present; QueueSignal frameIdx ]) /\
     filter is_root_table t' = [SetGraphicsRootDescriptorTable 0 m_srvHeap 0] /\
     filter is_root_cbv t' = [SetGraphicsRootConstantBufferView 1 address] /\
     filter is_draw t' = [DrawIndexedInstanced indexCount 1 0 0 0] /\
     0 <= slot /\ slot + c_numDrawCalls ext <= ring /\
     base <= address /\ address + blockSize <= base + ring * blockSize).
Proof.
  intros setup t ring blockSize base indexCount vertexBufferSize indexBufferSize
    Hres Hring Hsize.
  assert (Hstate := CreateDeviceDependentResources_state ext w g Hres).
  fold setup in Hstate.
  assert (Ha : m_cbGpuAddress (state setup) = base) by now rewrite Hstate.
  assert (Hi : m_indexCount (state setup) = indexCount) by now rewrite Hstate.
  subst t setup. rewrite (CreateDeviceDependentResources_trace ext w g Hres).
  fold ring. fold blockSize.
  rewrite (to_uint32_small ring), to_uint64_small by assumption.
  do 9 (split; [simpl; auto 10 |]).
  split; [exact Ha |]. split; [exact Hi |]. split; [now rewrite Hstate |].
  intros w' g' frameIdx numBackBuffers slot address t' Hga Hgi Hnb Hcount Hrender
    Hf Hn Hc Hb0 Hbase Hend.
  rewrite Ha in Hga. rewrite Hi in Hgi.
  pose proof (Z.mod_pos_bound frameIdx numBackBuffers Hn) as Hm.
  assert (Hnbr : c_numDrawCalls ext * numBackBuffers = ring) by (subst ring; now rewrite Hnb).
  assert (Hslot : 0 <= slot /\ slot + c_numDrawCalls ext <= ring).
  { subst slot. rewrite <- Hnbr. split; nia. }
  assert (Haddr : base <= address /\ address + blockSize <= base + ring * blockSize).
  { subst address. split; nia. }
  assert (Hframe :
    frame_calls ext w' g'
    = [ Prepare; OMSetRenderTargets; ClearRenderTargetView; ClearDepthStencilView;
        RSSetViewports; RSSetScissorRects; SetGraphicsRootSignature; SetPipelineState;
        SetDescriptorHeaps [m_srvHeap]; SetGraphicsRootDescriptorTable 0 m_srvHeap 0;
        SetGraphicsRootConstantBufferView 1 address;
        IASetPrimitiveTopology; IASetVertexBuffers; IASetIndexBuffer;
        DrawIndexedInstanced indexCount 1 0 0 0;
        Present; QueueSignal frameIdx ]).
  { unfold frame_calls. fold frameIdx numBackBuffers.
    rewrite Z.rem_mod_nonneg by lia.
    rewrite (to_uint32_small (frameIdx mod numBackBuffers)) by nia.
    fold slot. rewrite (to_uint32_small slot) by lia.
    rewrite Hga, Hgi.
    change (base + sizeof_PaddedConstantBuffer ext * slot) with address.
    rewrite (to_uint64_small address) by nia.
    rewrite (to_uint64_small frameIdx) by lia. reflexivity. }
  subst t'.
  rewrite Render_result in Hrender by assumption.
  rewrite Render_trace by assumption. rewrite Hframe.
  destruct (gpu_behind _ _ _); simpl in Hrender.
  - destruct (FAILED _); [discriminate |].
    split; [| repeat split; try reflexivity; lia].
    eexists (_ :: _ :: _ :: _ :: _ :: _ :: _ :: _ :: _ :: _ :: [_]). reflexivity.
  - split; [| repeat split; try reflexivity; lia].
    eexists (_ :: _ :: _ :: _ :: _ :: _ :: _ :: _ :: [_]). reflexivity.
Qed.

(** C8 on [ext0] and [world0]: a ring of 2 * 2 blocks of 256 bytes at
    address 65536, 294 vertices of 32 bytes and 864 16-bit indices; the first
    [Tick] after set-up, at frame 5, binds the heap of the two textures and
    the block at 65536 + 256 * 2 and draws the 864 indices. *)
Lemma C8_device_resources_witness :
  let setup := CreateDeviceDependentResources ext0 world0 game0 in
  let updated := state (StepTimer_Tick world0 (Update ext0 world0) (state setup)) in
  filter creates_buffer (trace setup)
  = [ CreateCommittedResource 1024 m_cbUploadHeap;
      CreateCommittedResource 9408 m_vertexBuffer;
      CreateCommittedResource 1728 m_indexBuffer ]
  /\ filter is_root_table (trace (Render ext0 world0 updated))
     = [SetGraphicsRootDescriptorTable 0 m_srvHeap 0]
  /\ filter is_root_cbv (trace (Render ext0 world0 updated))
     = [SetGraphicsRootConstantBufferView 1 66048]
  /\ filter is_draw (trace (Render ext0 world0 updated))
     = [DrawIndexedInstanced 864 1 0 0 0].
Proof.
  intros setup updated.
  destruct (C8_device_dependent_resources ext0 world0 game0)
    as (_ & _ & _ & _ & _ & _ & _ & Hbuffers & _ & _ & _ & _ & Hdraw);
    [reflexivity | simpl; lia | simpl; lia |].
  split; [exact Hbuffers |].
  destruct (Hdraw world0 updated) as (_ & Htable & Hcbv & Hd & _);
    [reflexivity | reflexivity | reflexivity | discriminate | reflexivity
    | simpl; lia | simpl; lia | simpl; lia | simpl; lia | simpl; lia | simpl; lia |].
  repeat split; assumption.
Defined.

Ltac setup_member_case :=
  cbv beta iota zeta delta [fst snd app];
  cbn [m_cbvsrvDescSize m_cbGpuAddress m_indexCount m_camYaw m_camPitch m_camPosition
       m_camLookTarget m_camUp m_camForward m_camRight m_worldMatrix m_viewMatrix
       set_resource_members set_initial_camera];
  refine (conj _ (conj _ (conj _ (conj _ (conj _ (conj _ (conj _ _)))))));
  intros;
  first
    [ discriminate
    | solve [repeat split; reflexivity]
    | solve [exfalso;
             match goal with H : ~ In _ _ |- _ => apply H; simpl; auto 40 end]
    | solve [exfalso;
             match goal with H : In _ _ |- _ => simpl in H; intuition discriminate end] ].

(** X24: the members are assigned as the set-up proceeds, so a set-up that
    throws half-way leaves those assigned so far.  The descriptor size is set
    exactly when the set-up got as far as serialising the root signature, the
    GPU address of the ring exactly when it got as far as reading the first
    shader (the ring is mapped by then), the index count exactly when it got
    as far as creating the vertex buffer.  The camera is initialised by a
    set-up that returns normally, and left alone by one that throws. *)
Theorem X24_members_assigned_as_setup_proceeds (ext : Externals) (w : World) (g : Game) :
  let setup := CreateDeviceDependentResources ext w g in
  let t := trace setup in
  let after := state setup in
  let serialize :=
    SerializeRootSignature [DescriptorTableSRV 2 0; RootConstantBufferView 0 0] 1 in
  let createVertexBuffer :=
    CreateCommittedResource
      (to_uint64 (to_int32 (sizeof_VertexPositionNormalTexture ext
                            * CreateQuadBox_vertexCount ext))) m_vertexBuffer in
  (In serialize t -> m_cbvsrvDescSize after = GetDescriptorHandleIncrementSize w) /\
  (~ In serialize t -> m_cbvsrvDescSize after = m_cbvsrvDescSize g) /\
  (In (ReadData "VertexShader.cso") t ->
   m_cbGpuAddress after = GetGPUVirtualAddress w m_cbUploadHeap) /\
  (~ In (ReadData "VertexShader.cso") t -> m_cbGpuAddress after = m_cbGpuAddress g) /\
  (In createVertexBuffer t ->
   m_indexCount after = to_uint32 (CreateQuadBox_indexCount ext)) /\
  (~ In createVertexBuffer t -> m_indexCount after = m_indexCount g) /\
  (result setup = None ->
   m_camYaw after = m_camYaw g /\ m_camPitch after = m_camPitch g /\
   m_camPosition after = m_camPosition g /\
   m_camLookTarget after = m_camLookTarget g /\
   m_worldMatrix after = m_worldMatrix g /\ m_viewMatrix after = m_viewMatrix g) /\
  (result setup = Some tt ->
   m_camYaw after = (-3.0)%R /\ m_camPitch after = 0.37%R /\
   m_camUp after = DEFAULT_UP_VECTOR ext /\
   m_camForward after = DEFAULT_FORWARD_VECTOR ext /\
   m_camRight after = DEFAULT_RIGHT_VECTOR ext /\
   m_camPosition after = F4 0.0 0.0 200.0 0.0 /\
   m_camLookTarget after = F4 0.0 0.0 0.0 0.0 /\
   m_worldMatrix after = XMMatrixIdentity ext /\
   m_viewMatrix after
     = XMMatrixLookAtLH ext (F4 0.0 0.0 200.0 0.0) (F4 0.0 0.0 0.0 0.0)
         (DEFAULT_UP_VECTOR ext)).
Proof.
  intros setup t after serialize createVertexBuffer.
  subst setup t after serialize createVertexBuffer.
  unfold CreateDeviceDependentResources.
  cbv beta iota zeta delta [ThrowIfFailed bind call ret throw get put result trace state].
  destruct (FAILED (hresult w CheckFeatureSupport) || _); [setup_member_case |].
  destruct (FAILED (hresult w (SerializeRootSignature [DescriptorTableSRV 2 0; RootConstantBufferView 0 0] 1)));
    [setup_member_case |].
  destruct (FAILED (hresult w CreateRootSignature)); [setup_member_case |].
  destruct (FAILED (hresult w (CreateDescriptorHeap 2 true m_srvHeap)));
    [setup_member_case |].
  destruct (FAILED (hresult w (CreateDDSTextureFromFile "colormap.dds" _)));
    [setup_member_case |].
  destruct (FAILED (hresult w (CreateDDSTextureFromFile "displacement.dds" _)));
    [setup_member_case |].
  destruct (FAILED (hresult w (CreateCommittedResource _ m_cbUploadHeap)));
    [setup_member_case |].
  destruct (FAILED (hresult w (MapBuffer m_cbUploadHeap))); [setup_member_case |].
  destruct (FAILED (hresult w (ReadData "VertexShader.cso"))); [setup_member_case |].
  destruct (FAILED (hresult w (ReadData "HullShader.cso"))); [setup_member_case |].
  destruct (FAILED (hresult w (ReadData "DomainShader.cso"))); [setup_member_case |].
  destruct (FAILED (hresult w (ReadData "PixelShader.cso"))); [setup_member_case |].
  destruct (FAILED (hresult w CreateGraphicsPipelineState)); [setup_member_case |].
  destruct (FAILED (hresult w (CreateCommittedResource _ m_vertexBuffer)));
    [setup_member_case |].
  destruct (FAILED (hresult w (MapBuffer m_vertexBuffer))); [setup_member_case |].
  destruct (FAILED (hresult w (CreateCommittedResource _ m_indexBuffer)));
    [setup_member_case |].
  destruct (FAILED (hresult w (MapBuffer m_indexBuffer))); [setup_member_case |].
  destruct (FAILED (hresult w (CreateFence _))); setup_member_case.
Qed.

(** X24 when the pipeline state cannot be created: the set-up throws with
    the descriptor size and the ring's address stored, and without an index
    count. *)
Lemma X24_members_witness :
  let setup := CreateDeviceDependentResources ext0 world_pipeline_fails game_fresh in
  result setup = None
  /\ m_cbvsrvDescSize (state setup) = 32
  /\ m_cbGpuAddress (state setup) = 65536
  /\ m_indexCount (state setup) = 0.
Proof.
  intros setup.
  destruct (X24_members_assigned_as_setup_proceeds ext0 world_pipeline_fails game_fresh)
    as (Hd & _ & Ha & _ & _ & Hi & _).
  fold setup in Hd, Ha, Hi.
  split; [reflexivity |].
  split; [apply Hd; simpl; auto 10 |].
  split; [apply Ha; simpl; auto 40 |].
  apply Hi. simpl. intuition discriminate.
Defined.

End DeviceFacts.
